(** * Custom texture manager (video_core/custom_textures/custom_tex_manager.cpp)

    A shallow embedding of [VideoCore::CustomTexManager]: the filename
    parser, the pack descriptor reader, the decode/upload pipeline, the
    preload pass and the dump pipeline, followed by the properties of the
    specification that were checked against it.

    Conventions of the embedding.
    - [u32], [u64] and [std::size_t] values are [Z] with the wrap-around
      written out where the source can wrap.
    - [std::string] is [string]; [std::unordered_map<std::string, u64>] is
      [gmap string Z]; [std::unordered_set<u64>] is [gset Z].
    - [material_map] is iterated by the preload job, so it is an association
      list in iteration order; a [Material*] is the key of the material.
    - Calls that leave the manager (upload closures, the progress callback,
      the PNG encoder) are recorded, in order, in the [events] field.
    - The worker pool is the list of the jobs that wait in it; a worker
      takes a job and runs it to its end.
    - [LOG_*] calls have no effect on control flow and are left out.
    - The headers of the manager and of [Material], and the helpers of
      [Common] and [FileUtil], are not among the sources: what is taken
      from the specification instead says so where it is defined. *)

From Stdlib Require Import ZArith Lia Ascii String List Bool.
From Stdlib Require Import DecimalString DecimalPos DecimalN.
From stdpp Require Import base option list gmap strings.

Local Open Scope Z_scope.

(** ** Machine integers *)

Definition wrap32 (z : Z) : Z := z mod 2 ^ 32.
Definition wrap64 (z : Z) : Z := z mod 2 ^ 64.
Definition U64_MAX : Z := 2 ^ 64 - 1.

(** ** Character classes of the C locale *)

Definition char_code (c : ascii) : Z := Z.of_N (N_of_ascii c).

Definition in_range (lo hi : Z) (c : ascii) : bool :=
  (lo <=? char_code c) && (char_code c <=? hi).

(** [isspace]: space, and the controls from horizontal tab to carriage
    return. *)
Definition isspace (c : ascii) : bool :=
  (char_code c =? 32) || in_range 9 13 c.

Definition digit_value (c : ascii) : option Z :=
  if in_range 48 57 c then Some (char_code c - 48) else None.

Definition xdigit_value (c : ascii) : option Z :=
  if in_range 48 57 c then Some (char_code c - 48)
  else if in_range 97 102 c then Some (char_code c - 87)
  else if in_range 65 70 c then Some (char_code c - 55)
  else None.

(** ** Number scanning shared by [sscanf] and [std::stoull] *)

Fixpoint skip_space (s : string) : string :=
  match s with
  | String c r => if isspace c then skip_space r else s
  | EmptyString => s
  end.

(** Optional sign: the flag says whether the number is negated. *)
Definition scan_sign (s : string) : bool * string :=
  match s with
  | String "-" r => (true, r)
  | String "+" r => (false, r)
  | _ => (false, s)
  end.

(** The longest run of digits at the head of [s], as digit values, and what
    follows it. *)
Fixpoint take_digits (digit : ascii -> option Z) (s : string) : list Z * string :=
  match s with
  | String c r =>
      match digit c with
      | Some d => let '(ds, rest) := take_digits digit r in (d :: ds, rest)
      | None => ([], s)
      end
  | EmptyString => ([], s)
  end.

Definition digits_value (base : Z) (ds : list Z) : Z :=
  fold_left (fun acc d => acc * base + d) ds 0.

(** What [strtoull] stores for a digit run: the value, [ULLONG_MAX] when it
    does not fit (whatever the sign), negated modulo 2^64 after a minus. *)
Definition strtoull_value (neg : bool) (v : Z) : Z :=
  if U64_MAX <? v then U64_MAX
  else if neg then wrap64 (- v) else v.

(** A hexadecimal number may start with 0x or 0X. *)
Definition hex_prefix (s : string) : option string :=
  match s with
  | String "0" (String "x" r) => Some r
  | String "0" (String "X" r) => Some r
  | _ => None
  end.

(** *** Conversions of [sscanf]

    A conversion skips white space, then reads the longest prefix of the
    input that is, or is a prefix of, a number of the expected form; when
    nothing but a sign was read the conversion fails. Where ISO C leaves
    the outcome open or implementations differ, the conversion is glibc's:
    an overflowing number stores [strtoull]'s result, truncated to the
    width of the argument; a 0x or 0X that no hexadecimal digit follows is
    consumed by a hexadecimal conversion, which stores 0 (the 0 is a
    number; ISO C makes this a matching failure). *)

Inductive ScanFail : Type :=
  | InputFailure      (* the input ended before the directive could start *)
  | MatchingFailure.  (* the input does not fit the directive *)

Definition scan_conv (hex : bool) (width : Z) (s : string)
  : ScanFail + (Z * string) :=
  match skip_space s with
  | EmptyString => inl InputFailure
  | s1 =>
      let '(neg, s2) := scan_sign s1 in
      let s3 := if hex then default s2 (hex_prefix s2) else s2 in
      let '(ds, rest) :=
        take_digits (if hex then xdigit_value else digit_value) s3 in
      match ds with
      | [] =>
          if hex && bool_decide (is_Some (hex_prefix s2)) then inr (0, rest)
          else inl MatchingFailure
      | _ =>
          inr (strtoull_value neg (digits_value (if hex then 16 else 10) ds)
                 mod 2 ^ width, rest)
      end
  end.

(** An ordinary character of the format must be the next input character. *)
Fixpoint scan_literal (lit s : string) : ScanFail + string :=
  match lit with
  | EmptyString => inr s
  | String c lit' =>
      match s with
      | EmptyString => inl InputFailure
      | String c' s' =>
          if Ascii.eqb c c' then scan_literal lit' s' else inl MatchingFailure
      end
  end.

(** Result of [sscanf(str, "tex1_%ux%u_%llX_%u", &width, &height, &hash,
    &format)]: the return value and the variables it assigned ([None] where
    the variable was not written). *)
Record Tex1Scan : Type := mkTex1Scan {
  scan_count : Z;
  scan_width : option Z;
  scan_height : option Z;
  scan_hash : option Z;
  scan_format : option Z
}.

(** The return value when scanning stops after [n] assignments: [EOF] for an
    input failure before the first conversion, [n] otherwise. *)
Definition scan_stop (n : Z) (f : ScanFail) : Z :=
  match f with
  | InputFailure => if n =? 0 then -1 else n
  | MatchingFailure => n
  end.

Definition sscanf_tex1 (str : string) : Tex1Scan :=
  match scan_literal "tex1_" str with
  | inl f => mkTex1Scan (scan_stop 0 f) None None None None
  | inr s1 =>
  match scan_conv false 32 s1 with
  | inl f => mkTex1Scan (scan_stop 0 f) None None None None
  | inr (w, s2) =>
  match scan_literal "x" s2 with
  | inl f => mkTex1Scan (scan_stop 1 f) (Some w) None None None
  | inr s3 =>
  match scan_conv false 32 s3 with
  | inl f => mkTex1Scan (scan_stop 1 f) (Some w) None None None
  | inr (h, s4) =>
  match scan_literal "_" s4 with
  | inl f => mkTex1Scan (scan_stop 2 f) (Some w) (Some h) None None
  | inr s5 =>
  match scan_conv true 64 s5 with
  | inl f => mkTex1Scan (scan_stop 2 f) (Some w) (Some h) None None
  | inr (hash, s6) =>
  match scan_literal "_" s6 with
  | inl f => mkTex1Scan (scan_stop 3 f) (Some w) (Some h) (Some hash) None
  | inr s7 =>
  match scan_conv false 32 s7 with
  | inl f => mkTex1Scan (scan_stop 3 f) (Some w) (Some h) (Some hash) None
  | inr (fmt, _) => mkTex1Scan 4 (Some w) (Some h) (Some hash) (Some fmt)
  end end end end end end end end.

(** *** [std::stoull(str, &idx, 16)]

    [strtoull] in base 16: white space, an optional sign, an optional 0x
    that is followed by a hexadecimal digit, then digits. [std::stoull]
    throws [std::invalid_argument] when nothing was converted and
    [std::out_of_range] when the value does not fit; otherwise it returns
    the value and stores the number of characters consumed in [idx]. *)

Inductive Exception : Type :=
  | invalid_argument
  | out_of_range
  | json_parse_error
  | json_type_error
  | json_assertion.

Definition starts_with_xdigit (s : string) : bool :=
  match s with
  | String c _ => bool_decide (is_Some (xdigit_value c))
  | EmptyString => false
  end.

Definition stoull16 (str : string) : Exception + (Z * Z) :=
  let '(neg, s2) := scan_sign (skip_space str) in
  let s3 :=
    match hex_prefix s2 with
    | Some r => if starts_with_xdigit r then r else s2
    | None => s2
    end in
  let '(ds, rest) := take_digits xdigit_value s3 in
  match ds with
  | [] => inl invalid_argument
  | _ =>
      let v := digits_value 16 ds in
      if U64_MAX <? v then inl out_of_range
      else inr (if neg then wrap64 (- v) else v,
                Z.of_nat (String.length str) - Z.of_nat (String.length rest))
  end.

(** ** Data model *)

Module CustomFileFormat.
Inductive t : Type := None | PNG | DDS | KTX.
End CustomFileFormat.

Module MapType.
Inductive t : Type := Color | Normal.
End MapType.

Module DecodeState.
Inductive t : Type := Unloaded | Pending | Decoded | Failed.
End DecodeState.

#[global] Instance CustomFileFormat_eq_dec : EqDecision CustomFileFormat.t.
Proof. solve_decision. Defined.
#[global] Instance MapType_eq_dec : EqDecision MapType.t.
Proof. solve_decision. Defined.
#[global] Instance DecodeState_eq_dec : EqDecision DecodeState.t.
Proof. solve_decision. Defined.

Record CustomTexture : Type := mkCustomTexture {
  tex_hash : Z;
  tex_file_format : CustomFileFormat.t;
  tex_type : MapType.t;
  tex_path : string
}.

(** The fields of [Material] the manager reads and writes. *)
Record Material : Type := mkMaterial {
  state : DecodeState.t;
  size : Z
}.

(** [FileUtil::FSTEntry], as far as [ParseFilename] reads it. *)
Record FSTEntry : Type := mkFSTEntry {
  virtualName : string;
  physicalName : string
}.

(** A [std::function<bool()>] upload closure: an identity, and the value the
    call returns. *)
Record UploadFn : Type := mkUploadFn {
  fn_id : Z;
  fn_returns : bool
}.

(** An entry of [async_uploads]; [material] is the key of the [Material] the
    pointer refers to. *)
Record AsyncUpload : Type := mkAsyncUpload {
  material : Z;
  func : UploadFn
}.

(** Work handed to [Common::ThreadWorker::QueueWork]. *)
Inductive Job : Type :=
  | JobLoad (material : Z)
      (* [material, this] { material->LoadFromDisk(flip_png_files); } *)
  | JobPreload (max_mem : Z) (stop_run : Z -> bool) (callback : bool)
      (* the loop of PreloadTextures; [stop_run n] is the flag as read when
         [preloaded] is [n], [callback] says whether a callback was given *)
  | JobDump (dump_path : string) (width height data_size decoded_size : Z).

(** Calls that leave the manager. *)
Inductive Event : Type :=
  | EvUpload (f : UploadFn)                       (* an upload closure ran *)
  | EvCallback (preloaded total : Z)              (* callback(Preload, preloaded, total) *)
  | EvEncodePNG (path : string) (width height : Z). (* image_interface.EncodePNG *)

Record CustomTexManager : Type := mkManager {
  textures_loaded : bool;
  async_custom_loading : bool;
  skip_mipmap : bool;
  flip_png_files : bool;
  use_new_hash : bool;
  refuse_dds : bool;
  path_to_hash_map : gmap string Z;
  custom_textures : list CustomTexture;
  material_map : list (Z * Material);
  async_uploads : list AsyncUpload;
  dumped_textures : gset Z;
  workers : option (list Job);
  events : list Event
}.

Definition set_async_custom_loading (b : bool) (s : CustomTexManager) :=
  mkManager (textures_loaded s) b (skip_mipmap s) (flip_png_files s)
    (use_new_hash s) (refuse_dds s) (path_to_hash_map s) (custom_textures s)
    (material_map s) (async_uploads s) (dumped_textures s) (workers s)
    (events s).

Definition set_options (skip flip new_hash refuse : bool) (s : CustomTexManager) :=
  mkManager (textures_loaded s) (async_custom_loading s) skip flip new_hash
    refuse (path_to_hash_map s) (custom_textures s) (material_map s)
    (async_uploads s) (dumped_textures s) (workers s) (events s).

Definition set_refuse_dds (b : bool) (s : CustomTexManager) :=
  set_options (skip_mipmap s) (flip_png_files s) (use_new_hash s) b s.

Definition set_path_to_hash_map (m : gmap string Z) (s : CustomTexManager) :=
  mkManager (textures_loaded s) (async_custom_loading s) (skip_mipmap s)
    (flip_png_files s) (use_new_hash s) (refuse_dds s) m (custom_textures s)
    (material_map s) (async_uploads s) (dumped_textures s) (workers s)
    (events s).

Definition set_material_map (mm : list (Z * Material)) (s : CustomTexManager) :=
  mkManager (textures_loaded s) (async_custom_loading s) (skip_mipmap s)
    (flip_png_files s) (use_new_hash s) (refuse_dds s) (path_to_hash_map s)
    (custom_textures s) mm (async_uploads s) (dumped_textures s) (workers s)
    (events s).

Definition set_async_uploads (q : list AsyncUpload) (s : CustomTexManager) :=
  mkManager (textures_loaded s) (async_custom_loading s) (skip_mipmap s)
    (flip_png_files s) (use_new_hash s) (refuse_dds s) (path_to_hash_map s)
    (custom_textures s) (material_map s) q (dumped_textures s) (workers s)
    (events s).

Definition set_dumped_textures (d : gset Z) (s : CustomTexManager) :=
  mkManager (textures_loaded s) (async_custom_loading s) (skip_mipmap s)
    (flip_png_files s) (use_new_hash s) (refuse_dds s) (path_to_hash_map s)
    (custom_textures s) (material_map s) (async_uploads s) d (workers s)
    (events s).

Definition set_workers (w : option (list Job)) (s : CustomTexManager) :=
  mkManager (textures_loaded s) (async_custom_loading s) (skip_mipmap s)
    (flip_png_files s) (use_new_hash s) (refuse_dds s) (path_to_hash_map s)
    (custom_textures s) (material_map s) (async_uploads s)
    (dumped_textures s) w (events s).

Definition emit (evs : list Event) (s : CustomTexManager) :=
  mkManager (textures_loaded s) (async_custom_loading s) (skip_mipmap s)
    (flip_png_files s) (use_new_hash s) (refuse_dds s) (path_to_hash_map s)
    (custom_textures s) (material_map s) (async_uploads s)
    (dumped_textures s) (workers s) (events s ++ evs).

(** ** Anonymous namespace *)

Definition MAX_UPLOADS_PER_TICK : Z := 16.

Definition IsPow2 (value : Z) : bool :=
  negb (value =? 0) && (Z.land value (wrap32 (value - 1)) =? 0).

Definition MakeFileFormat (ext : string) : CustomFileFormat.t :=
  if String.eqb ext "png" then CustomFileFormat.PNG
  else if String.eqb ext "dds" then CustomFileFormat.DDS
  else if String.eqb ext "ktx" then CustomFileFormat.KTX
  else CustomFileFormat.None.

Definition MakeMapType (ext : string) : MapType.t :=
  if String.eqb ext "norm" then MapType.Normal else MapType.Color.

(** ** ParseFilename *)

(** Modelled from the spec: [Common::SplitString] (common/string_util.cpp is
    not among the sources). "Split the filename on [.]": every delimiter
    ends a segment, so a string with n delimiters has n + 1 segments. *)
Fixpoint SplitString (str : string) (delim : ascii) : list string :=
  match str with
  | EmptyString => [EmptyString]
  | String c r =>
      if Ascii.eqb c delim then EmptyString :: SplitString r delim
      else
        match SplitString r delim with
        | seg :: segs => String c seg :: segs
        | [] => [String c EmptyString]
        end
  end.

(** [ParseFilename] returns [true] with [*texture] filled in ([Accepted]) or
    [false] ([Rejected]); [Undefined] stands for [back()] on an empty
    vector. *)
Inductive ParseResult : Type :=
  | Accepted (texture : CustomTexture)
  | Rejected
  | Undefined.

Definition ParseFilename (s : CustomTexManager) (file : FSTEntry) : ParseResult :=
  let parts := SplitString (virtualName file) "." in
  if 3 <? Z.of_nat (length parts) then Rejected
  else
    match last parts with
    | None => Undefined
    | Some ext =>
        let file_format := MakeFileFormat ext in
        if bool_decide (file_format = CustomFileFormat.None) then Rejected
        else if bool_decide (file_format = CustomFileFormat.DDS) && refuse_dds s
        then Rejected
        else
          let parts := removelast parts in
          let '(type, parts) :=
            if 1 <? Z.of_nat (length parts)
            then (MakeMapType (default EmptyString (last parts)), removelast parts)
            else (MapType.Color, parts) in
          match path_to_hash_map s !! virtualName file with
          | Some hash =>
              Accepted (mkCustomTexture hash file_format type (physicalName file))
          | None =>
              match last parts with
              | None => Undefined
              | Some base =>
                  let r := sscanf_tex1 base in
                  if negb (scan_count r =? 4) then Rejected
                  else
                    Accepted (mkCustomTexture (default 0 (scan_hash r))
                                file_format type (physicalName file))
              end
          end
    end.

(** A manager before discovery that does not refuse DDS files. *)
Definition manager0 : CustomTexManager :=
  mkManager false true false true true false ∅ [] [] [] ∅ None [].


(** ** ReadConfig *)

(** A [nlohmann::json] value. An object is a [std::map]: its members are
    listed in iteration order (sorted by key, keys distinct). *)
#[warnings="-register-all"] Inductive json : Type :=
  | JNull
  | JBool (b : bool)
  | JNumber (n : Z)
  | JString (s : string)
  | JArray (elems : list json)
  | JObject (members : list (string * json)).

Fixpoint assoc_find {A : Type} (key : string) (l : list (string * A)) : option A :=
  match l with
  | [] => None
  | (k, v) :: l' => if String.eqb k key then Some v else assoc_find key l'
  end.

(** [j[key]] on a non-const value: a null value turns into an object, a
    missing member is created as null, any other type throws. *)
Definition json_index (j : json) (key : string) : Exception + json :=
  match j with
  | JNull => inr JNull
  | JObject members => inr (default JNull (assoc_find key members))
  | _ => inl json_type_error
  end.

(** [j[key]] through a const reference: the member must exist
    ([JSON_ASSERT]), a value that is not an object throws. *)
Definition json_index_const (j : json) (key : string) : Exception + json :=
  match j with
  | JObject members =>
      match assoc_find key members with
      | Some v => inr v
      | None => inl json_assertion
      end
  | _ => inl json_type_error
  end.

Definition json_get_bool (j : json) : Exception + bool :=
  match j with
  | JBool b => inr b
  | _ => inl json_type_error
  end.

(** [get<std::vector<std::string>>()] of an array. *)
Fixpoint json_get_strings (elems : list json) : Exception + list string :=
  match elems with
  | [] => inr []
  | JString s :: rest =>
      match json_get_strings rest with
      | inr l => inr (s :: l)
      | inl e => inl e
      end
  | _ :: _ => inl json_type_error
  end.

Definition index_key (i : nat) : string :=
  NilEmpty.string_of_uint (Nat.to_uint i).

(** [items()]: the members of an object, the elements of an array under
    their index, nothing for null, and the value itself under the empty key
    for any other type. *)
Definition json_items (j : json) : list (string * json) :=
  match j with
  | JObject members => members
  | JArray elems => imap (fun i v => (index_key i, v)) elems
  | JNull => []
  | _ => [(EmptyString, j)]
  end.

(** What [ReadConfig] finds at [load_path + "pack.json"]. *)
Inductive PackFile : Type :=
  | FileNotOpen                       (* file.IsOpen() is false *)
  | FileNoBytes                       (* ReadBytes returned 0 *)
  | FileBytes (parsed : option json). (* the bytes read, as json::parse sees
                                         them; [None]: parse throws *)

(** Code that may throw: it ends by returning a value or by throwing, and in
    both cases leaves a manager behind. *)
Inductive Result (A : Type) : Type :=
  | Returned (a : A) (s : CustomTexManager)
  | Threw (e : Exception) (s : CustomTexManager).
Arguments Returned {A} a s.
Arguments Threw {A} e s.

(** The manager that is left. *)
Definition result_state {A : Type} (r : Result A) : CustomTexManager :=
  match r with
  | Returned _ s => s
  | Threw _ s => s
  end.

Definition M (A : Type) : Type := CustomTexManager -> Result A.

Definition ret {A : Type} (a : A) : M A := fun s => Returned a s.

Definition bind {A B : Type} (m : M A) (k : A -> M B) : M B :=
  fun s =>
    match m s with
    | Returned a s' => k a s'
    | Threw e s' => Threw e s'
    end.

Definition try_ {A : Type} (r : Exception + A) : M A :=
  fun s =>
    match r with
    | inr a => Returned a s
    | inl e => Threw e s
    end.

Definition modify (f : CustomTexManager -> CustomTexManager) : M unit :=
  fun s => Returned tt (f s).

Declare Scope cpp_scope.
Delimit Scope cpp_scope with cpp.
Notation "x <- m ;; k" := (bind m (fun x => k))
  (at level 100, m at next level, right associativity) : cpp_scope.
Notation "m ;;; k" := (bind m (fun _ => k))
  (at level 100, right associativity) : cpp_scope.

Section ReadConfig.

(** [FileUtil::GetFilename] (common/file_util.cpp is not among the sources):
    the bare file name of a path. *)
Variable GetFilename : string -> string.

(** The [parse] lambda: [try_emplace] leaves an existing key alone. *)
Definition parse_override (hash : Z) (file : string) (s : CustomTexManager)
  : CustomTexManager :=
  let filename := GetFilename file in
  match path_to_hash_map s !! filename with
  | Some _ => s
  | None => set_path_to_hash_map (<[filename := hash]> (path_to_hash_map s)) s
  end.

Definition parse_overrides (hash : Z) (files : list string) (s : CustomTexManager)
  : CustomTexManager :=
  fold_left (fun s file => parse_override hash file s) files s.

Local Open Scope cpp_scope.

(** The loop over [textures.items()]. *)
Fixpoint read_textures (items : list (string * json)) : M unit :=
  match items with
  | [] => ret tt
  | (key, value) :: rest =>
      r <- try_ (stoull16 key) ;;
      let '(hash, idx) := r in
      if idx =? 0 then read_textures rest
      else
        match value with
        | JString file => modify (parse_override hash file)
        | JArray elems =>
            files <- try_ (json_get_strings elems) ;;
            modify (parse_overrides hash files)
        | _ => ret tt
        end ;;;
        read_textures rest
  end.

Definition read_option (options : json) (key : string) : M bool :=
  v <- try_ (json_index_const options key) ;;
  try_ (json_get_bool v).

Definition ReadConfig (file : PackFile) : M unit :=
  match file with
  | FileNotOpen => modify (set_refuse_dds true)
  | FileNoBytes => ret tt
  | FileBytes parsed =>
      json <- try_ (match parsed with
                    | Some j => inr j
                    | None => inl json_parse_error
                    end) ;;
      options <- try_ (json_index json "options") ;;
      b <- read_option options "skip_mipmap" ;;
      modify (fun s => set_options b (flip_png_files s) (use_new_hash s)
                         (refuse_dds s) s) ;;;
      b <- read_option options "flip_png_files" ;;
      modify (fun s => set_options (skip_mipmap s) b (use_new_hash s)
                         (refuse_dds s) s) ;;;
      b <- read_option options "use_new_hash" ;;
      modify (fun s => set_options (skip_mipmap s) (flip_png_files s) b
                         (refuse_dds s) s) ;;;
      modify (fun s => set_refuse_dds (skip_mipmap s || negb (use_new_hash s)) s) ;;;
      textures <- try_ (json_index json "textures") ;;
      read_textures (json_items textures)
  end.

End ReadConfig.

(** ** Materials *)

Fixpoint find_material (hash : Z) (mm : list (Z * Material)) : option Material :=
  match mm with
  | [] => None
  | (k, m) :: mm' => if k =? hash then Some m else find_material hash mm'
  end.

(** Write through a [Material*]. *)
Fixpoint update_material (hash : Z) (f : Material -> Material)
    (mm : list (Z * Material)) : list (Z * Material) :=
  match mm with
  | [] => []
  | (k, m) :: mm' =>
      if k =? hash then (k, f m) :: mm' else (k, m) :: update_material hash f mm'
  end.

Definition IsUnloaded (m : Material) : bool :=
  bool_decide (state m = DecodeState.Unloaded).

Definition set_state (st : DecodeState.t) (m : Material) : Material :=
  mkMaterial st (size m).

Section Pipeline.

(** What the texture files of a material decode to: the number of decoded
    bytes, or [None] when decoding fails. *)
Variable disk : Z -> option Z.

(** Modelled from the spec: [Material::LoadFromDisk] (the material class is
    not among the sources). The disk load decodes every attached texture,
    sums their sizes into [size] and sets [Decoded], or sets [Failed];
    [Decoded] and [Failed] are terminal and [size] is set once. *)
Definition LoadFromDisk (flip_png : bool) (hash : Z) (m : Material) : Material :=
  match state m with
  | DecodeState.Decoded | DecodeState.Failed => m
  | _ =>
      match disk hash with
      | Some bytes => mkMaterial DecodeState.Decoded bytes
      | None => mkMaterial DecodeState.Failed (size m)
      end
  end.

Definition load_material (hash : Z) (s : CustomTexManager) : CustomTexManager :=
  set_material_map
    (update_material hash (LoadFromDisk (flip_png_files s) hash) (material_map s)) s.

(** ** Decode

    [None] is undefined behaviour: a [material] that points to no material
    of the cache, or [workers->] on a null pointer. *)
Definition Decode (material : Z) (upload : UploadFn) (s : CustomTexManager)
  : option (bool * CustomTexManager) :=
  match find_material material (material_map s) with
  | None => None
  | Some m =>
      if negb (async_custom_loading s) then
        Some (fn_returns upload, emit [EvUpload upload] (load_material material s))
      else
        let queued :=
          if IsUnloaded m then
            match workers s with
            | None => None
            | Some q =>
                Some (set_workers (Some (q ++ [JobLoad material]))
                        (set_material_map
                           (update_material material
                              (set_state DecodeState.Pending) (material_map s)) s))
            end
          else Some s in
        match queued with
        | None => None
        | Some s1 =>
            Some (false,
                  set_async_uploads
                    (async_uploads s1 ++ [mkAsyncUpload material upload]) s1)
        end
  end.

(** ** TickFrame *)

(** The loop over [async_uploads]: the closures called, in order, and the
    list that is left. An entry is looked at only while [num_uploads] is
    below the budget; the [default] label also stands for an entry whose
    material is not in the cache, which cannot arise (materials are never
    destroyed). *)
Fixpoint TickFrame_loop (mm : list (Z * Material)) (q : list AsyncUpload)
    (num_uploads : Z) : list Event * list AsyncUpload :=
  match q with
  | [] => ([], [])
  | it :: rest =>
      if MAX_UPLOADS_PER_TICK <=? num_uploads then ([], q)
      else
        match state <$> find_material (material it) mm with
        | Some DecodeState.Decoded =>
            let '(evs, q') := TickFrame_loop mm rest (num_uploads + 1) in
            (EvUpload (func it) :: evs, q')
        | Some DecodeState.Failed => TickFrame_loop mm rest num_uploads
        | _ =>
            let '(evs, q') := TickFrame_loop mm rest num_uploads in
            (evs, it :: q')
        end
  end.

Definition TickFrame (s : CustomTexManager) : CustomTexManager :=
  if negb (textures_loaded s) then s
  else
    let '(evs, q) := TickFrame_loop (material_map s) (async_uploads s) 0 in
    emit evs (set_async_uploads q s).

(** ** PreloadTextures *)

Definition recommended_min_mem : Z := 2 * (1024 * 1024 * 1024).

Definition preload_max_mem (sys_mem : Z) : Z :=
  if sys_mem / 2 <? recommended_min_mem then sys_mem / 2
  else sys_mem - recommended_min_mem.

(** The job queued by [PreloadTextures]: the loop over [material_map], with
    its two counters. [stop_run n] is the value of the atomic flag read when
    [preloaded] is [n]. The result is the map after the loop and the
    callbacks made. *)
Fixpoint preload_loop (max_mem : Z) (stop_run : Z -> bool) (callback : bool)
    (flip_png : bool) (total : Z) (mm : list (Z * Material))
    (size_sum preloaded : Z) : list (Z * Material) * list Event :=
  match mm with
  | [] => ([], [])
  | (hash, m) :: rest =>
      if max_mem <? size_sum then (mm, [])
      else if stop_run preloaded then (mm, [])
      else
        let m' := LoadFromDisk flip_png hash m in
        let '(rest', evs) :=
          preload_loop max_mem stop_run callback flip_png total rest
            (wrap64 (size_sum + size m')) (preloaded + 1) in
        ((hash, m') :: rest',
         (if callback then [EvCallback preloaded total] else []) ++ evs)
  end.

Definition run_job (j : Job) (s : CustomTexManager) : CustomTexManager :=
  match j with
  | JobLoad hash => load_material hash s
  | JobPreload max_mem stop_run callback =>
      let '(mm, evs) :=
        preload_loop max_mem stop_run callback
          (flip_png_files s) (Z.of_nat (length (custom_textures s)))
          (material_map s) 0 0 in
      emit evs (set_material_map mm s)
  | JobDump dump_path width height _ _ =>
      emit [EvEncodePNG dump_path width height] s
  end.

(** [workers->WaitForRequests()]: every queued job has run. Jobs are taken
    in the order they were queued. *)
Definition WaitForRequests (s : CustomTexManager) : CustomTexManager :=
  fold_left (fun s j => run_job j s) (default [] (workers s))
    (set_workers ((fun _ => []) <$> workers s) s).

(** The first statement of [PreloadTextures] after the budget is computed:
    the job is queued. *)
Definition queue_preload (sys_mem : Z) (stop_run : Z -> bool) (callback : bool)
    (s : CustomTexManager) : option CustomTexManager :=
  match workers s with
  | None => None
  | Some q =>
      Some (set_workers
              (Some (q ++ [JobPreload (preload_max_mem sys_mem) stop_run callback])) s)
  end.

Definition PreloadTextures (sys_mem : Z) (stop_run : Z -> bool) (callback : bool)
    (s : CustomTexManager) : option CustomTexManager :=
  match queue_preload sys_mem stop_run callback s with
  | None => None
  | Some s1 => Some (set_async_custom_loading false (WaitForRequests s1))
  end.

End Pipeline.

(** ** DumpTexture *)

(** [fmt]'s [{}] for an unsigned integer and [{:016X}] for a [u64]. *)
Definition format_dec (v : Z) : string :=
  NilEmpty.string_of_uint (N.to_uint (Z.to_N v)).

Definition hex_digit (n : Z) : ascii :=
  ascii_of_N (Z.to_N (if n <? 10 then 48 + n else 55 + n)).

(** The hexadecimal digit of weight [16 ^ i]. *)
Definition nibble (v i : Z) : Z := Z.land (Z.shiftr v (4 * i)) 15.

Definition format_016X (v : Z) : string :=
  string_of_list_ascii
    (map (fun i => hex_digit (nibble v i))
       [15; 14; 13; 12; 11; 10; 9; 8; 7; 6; 5; 4; 3; 2; 1; 0]).

(** The fields of [SurfaceParams] that [DumpTexture] reads itself. *)
Record SurfaceParams : Type := mkSurfaceParams {
  width : Z;
  height : Z;
  pixel_format : Z
}.

(** What [DumpTexture] asks of its surroundings. *)
Record DumpEnv : Type := mkDumpEnv {
  program_id : Z;                   (* codeset->program_id *)
  DumpDir : string;                 (* GetUserPath(UserPath::DumpDir) *)
  format_PixelFormat : Z -> string; (* fmt's rendering of a PixelFormat *)
  CreateFullPath : string -> bool;
  Exists : string -> bool
}.

Definition dump_dir (env : DumpEnv) : string :=
  DumpDir env +:+ "textures/" +:+ format_016X (program_id env) +:+ "/".

Definition dump_file (env : DumpEnv) (params : SurfaceParams) (level data_hash : Z)
  : string :=
  dump_dir env +:+ "tex1_" +:+ format_dec (width params) +:+ "x"
  +:+ format_dec (height params) +:+ "_" +:+ format_016X data_hash +:+ "_"
  +:+ format_PixelFormat env (pixel_format params) +:+ "_mip"
  +:+ format_dec level +:+ ".png".

Definition DumpTexture (env : DumpEnv) (params : SurfaceParams) (level : Z)
    (data : list Byte.byte) (data_hash : Z) (s : CustomTexManager)
  : CustomTexManager :=
  let data_size := wrap32 (Z.of_nat (length data)) in
  if negb (CreateFullPath env (dump_dir env)) then s
  else
    let dump_path := dump_file env params level data_hash in
    if bool_decide (data_hash ∈ dumped_textures s) || Exists env dump_path then s
    else if negb (IsPow2 (width params)) || negb (IsPow2 (height params)) then s
    else
      let decoded_size := wrap32 (width params * height params * 4) in
      let q := default [] (workers s) in
      set_dumped_textures ({[data_hash]} ∪ dumped_textures s)
        (set_workers
           (Some (q ++ [JobDump dump_path (width params) (height params)
                          data_size decoded_size])) s).

(** ** Vocabulary of the statements *)

Fixpoint string_forall (p : ascii -> bool) (s : string) : bool :=
  match s with
  | EmptyString => true
  | String c r => p c && string_forall p r
  end.

Definition is_digit_of (digit : ascii -> option Z) (c : ascii) : bool :=
  match digit c with
  | Some _ => true
  | None => false
  end.

(** A non-empty run of digits: what a [%u] or [%llX] field of a file name
    looks like. *)
Definition number_string (digit : ascii -> option Z) (s : string) : Prop :=
  s <> EmptyString /\ string_forall (is_digit_of digit) s = true.

Definition hex_value (s : string) : Z :=
  digits_value 16 (take_digits xdigit_value s).1.

(** The base name [tex1_{W}x{H}_{H64}_{F}], from the text of its fields. *)
Definition tex1_name (W H H64 F : string) : string :=
  "tex1_" +:+ W +:+ "x" +:+ H +:+ "_" +:+ H64 +:+ "_" +:+ F.

Definition dot_free (s : string) : Prop :=
  string_forall (fun c => negb (Ascii.eqb c ".")) s = true.

(** A file name of the grammar [<base>[.<maptype>].<ext>]. *)
Definition texture_filename (base : string) (maptype : option string)
    (ext : string) : string :=
  match maptype with
  | Some mt => base +:+ "." +:+ mt +:+ "." +:+ ext
  | None => base +:+ "." +:+ ext
  end.

Definition maptype_of (maptype : option string) : MapType.t :=
  match maptype with
  | Some mt => MakeMapType mt
  | None => MapType.Color
  end.

(** The extensions [ParseFilename] lets through for a manager. *)
Definition recognized_extension (s : CustomTexManager) (ext : string) : Prop :=
  ext = "png"%string \/ ext = "ktx"%string
  \/ (ext = "dds"%string /\ refuse_dds s = false).

(** The file format that matches a recognized extension. *)
Definition extension_format (s : CustomTexManager) (ext : string)
    (format : CustomFileFormat.t) : Prop :=
  (ext = "png"%string /\ format = CustomFileFormat.PNG)
  \/ (ext = "ktx"%string /\ format = CustomFileFormat.KTX)
  \/ (ext = "dds"%string /\ format = CustomFileFormat.DDS
      /\ refuse_dds s = false).

Definition material_state (mm : list (Z * Material)) (hash : Z)
  : option DecodeState.t :=
  state <$> find_material hash mm.

(** How many entries of a queue refer to a [Decoded] material. *)
Fixpoint decoded_count (mm : list (Z * Material)) (q : list AsyncUpload) : Z :=
  match q with
  | [] => 0
  | e :: q' =>
      (if bool_decide (material_state mm (material e) = Some DecodeState.Decoded)
       then 1 else 0) + decoded_count mm q'
  end.

(** The size a material has once [LoadFromDisk] has run on it, the sum of
    these sizes over a run of materials, and the run after the loads. *)
Definition loaded_size (disk : Z -> option Z) (flip_png : bool)
    (km : Z * Material) : Z :=
  size (LoadFromDisk disk flip_png km.1 km.2).

Definition sum_loaded (disk : Z -> option Z) (flip_png : bool)
    (mm : list (Z * Material)) : Z :=
  fold_right (fun km acc => loaded_size disk flip_png km + acc) 0 mm.

Definition load_all (disk : Z -> option Z) (flip_png : bool)
    (mm : list (Z * Material)) : list (Z * Material) :=
  map (fun km => (km.1, LoadFromDisk disk flip_png km.1 km.2)) mm.

(** A descriptor with the given options and [textures] members. *)
Definition descriptor (skip flip new_hash : bool) (textures : list (string * json))
  : PackFile :=
  FileBytes
    (Some (JObject
             [("options"%string,
               JObject [("flip_png_files"%string, JBool flip);
                        ("skip_mipmap"%string, JBool skip);
                        ("use_new_hash"%string, JBool new_hash)]);
              ("textures"%string, JObject textures)])).

(** A descriptor with three overrides; the key of the second is not a
    hexadecimal number. *)
Definition descriptor_with_invalid_key : PackFile :=
  descriptor false true true
    [("AB"%string, JString "a.png"); ("XY"%string, JString "c.png");
     ("ab"%string, JString "b.png")].

(** Jobs of a kind waiting in the worker pool. *)
Fixpoint count_jobs (p : Job -> bool) (q : list Job) : nat :=
  match q with
  | [] => 0%nat
  | j :: q' => ((if p j then 1 else 0) + count_jobs p q')%nat
  end.

Definition is_dump_job (j : Job) : bool :=
  match j with
  | JobDump _ _ _ _ _ => true
  | _ => false
  end.

Definition dump_jobs (s : CustomTexManager) : nat :=
  count_jobs is_dump_job (default [] (workers s)).

(** The per-material load jobs queued by [Decode] that wait in the pool. *)
Definition is_load_job (hash : Z) (j : Job) : bool :=
  match j with
  | JobLoad h => h =? hash
  | _ => false
  end.

Definition load_jobs (hash : Z) (s : CustomTexManager) : nat :=
  count_jobs (is_load_job hash) (default [] (workers s)).

(** A job that loads the material: its own load job, or a preload job,
    which goes through the cache as far as its budget lets it. *)
Definition job_loads (mm : list (Z * Material)) (hash : Z) (j : Job) : bool :=
  match j with
  | JobLoad h => h =? hash
  | JobPreload _ _ _ => bool_decide (is_Some (find_material hash mm))
  | JobDump _ _ _ _ _ => false
  end.

Definition loads_in_flight (hash : Z) (s : CustomTexManager) : nat :=
  count_jobs (job_loads (material_map s) hash) (default [] (workers s)).

(** The order of the decode states: a state may stay, [Unloaded] may become
    anything, [Pending] may become [Decoded] or [Failed]. *)
Definition state_advances (st st' : DecodeState.t) : Prop :=
  match st, st' with
  | DecodeState.Unloaded, _ => True
  | DecodeState.Pending, DecodeState.Unloaded => False
  | DecodeState.Pending, _ => True
  | DecodeState.Decoded, DecodeState.Decoded => True
  | DecodeState.Failed, DecodeState.Failed => True
  | _, _ => False
  end.

(** Every material of [mm] is still there in [mm'], in the same state or
    further along. *)
Definition materials_advance (mm mm' : list (Z * Material)) : Prop :=
  forall hash,
    match find_material hash mm with
    | Some m =>
        exists m', find_material hash mm' = Some m'
                   /\ state_advances (state m) (state m')
    | None => find_material hash mm' = None
    end.

(** What can happen to a manager: a call of [Decode], [TickFrame] or
    [DumpTexture], the statements of [PreloadTextures] (the job is queued;
    once the pool is idle, asynchronous loading is switched off), and a
    worker that takes some queued job and runs it. *)
Inductive step (disk : Z -> option Z) : CustomTexManager -> CustomTexManager -> Prop :=
  | step_Decode material upload s b s' :
      Decode disk material upload s = Some (b, s') -> step disk s s'
  | step_TickFrame s :
      step disk s (TickFrame s)
  | step_DumpTexture env params level data hash s :
      step disk s (DumpTexture env params level data hash s)
  | step_queue_preload sys_mem stop_run callback s s' :
      queue_preload sys_mem stop_run callback s = Some s' -> step disk s s'
  | step_preload_done s :
      workers s = Some [] -> step disk s (set_async_custom_loading false s)
  | step_worker s q1 j q2 :
      workers s = Some (q1 ++ j :: q2) ->
      step disk s (run_job disk j (set_workers (Some (q1 ++ q2)) s)).

(** The gate of [Decode]: a material has at most one load job waiting, and
    a material with a load job waiting has left [Unloaded]. *)
Definition decode_gate (s : CustomTexManager) : Prop :=
  forall hash,
    (load_jobs hash s <= 1)%nat
    /\ (load_jobs hash s = 1%nat ->
        exists st, material_state (material_map s) hash = Some st
                   /\ st <> DecodeState.Unloaded).

(** An exact power of two. *)
Definition power_of_two (v : Z) : Prop := exists k, 0 <= k /\ v = 2 ^ k.

(** Managers used as concrete inputs: [n] materials with keys [0 .. n-1] in
    state [st], and one queue entry per key in a list of keys. *)
Definition materials_in (st : DecodeState.t) (first : Z) (n : nat)
  : list (Z * Material) :=
  map (fun i => (first + Z.of_nat i, mkMaterial st 0)) (seq 0 n).

Definition entries_for (keys : list Z) (returns : bool) : list AsyncUpload :=
  map (fun k => mkAsyncUpload k (mkUploadFn k returns)) keys.

Definition keys_from (first : Z) (n : nat) : list Z :=
  map (fun i => first + Z.of_nat i) (seq 0 n).

Definition manager_with (mm : list (Z * Material)) (q : list AsyncUpload)
  : CustomTexManager :=
  mkManager true true false true true false ∅ [] mm q ∅ (Some []) [].

(** ** The rest of the manager *)

Definition set_textures_loaded (b : bool) (s : CustomTexManager) :=
  mkManager b (async_custom_loading s) (skip_mipmap s) (flip_png_files s)
    (use_new_hash s) (refuse_dds s) (path_to_hash_map s) (custom_textures s)
    (material_map s) (async_uploads s) (dumped_textures s) (workers s)
    (events s).

Definition set_custom_textures (l : list CustomTexture) (s : CustomTexManager) :=
  mkManager (textures_loaded s) (async_custom_loading s) (skip_mipmap s)
    (flip_png_files s) (use_new_hash s) (refuse_dds s) (path_to_hash_map s) l
    (material_map s) (async_uploads s) (dumped_textures s) (workers s)
    (events s).

Definition set_tex_hash (h : Z) (t : CustomTexture) : CustomTexture :=
  mkCustomTexture h (tex_file_format t) (tex_type t) (tex_path t).

Definition set_tex_file_format (f : CustomFileFormat.t) (t : CustomTexture)
  : CustomTexture :=
  mkCustomTexture (tex_hash t) f (tex_type t) (tex_path t).

Definition set_tex_type (ty : MapType.t) (t : CustomTexture) : CustomTexture :=
  mkCustomTexture (tex_hash t) (tex_file_format t) ty (tex_path t).

Definition set_tex_path (p : string) (t : CustomTexture) : CustomTexture :=
  mkCustomTexture (tex_hash t) (tex_file_format t) (tex_type t) p.

(** *** CreateWorkers and GetMaterial *)

(** [std::max(std::thread::hardware_concurrency(), 2U) - 1]. *)
Definition num_workers (hardware_concurrency : Z) : Z :=
  Z.max hardware_concurrency 2 - 1.

(** A new pool, with no job waiting. *)
Definition CreateWorkers (s : CustomTexManager) : CustomTexManager :=
  set_workers (Some []) s.

(** [if (!workers) CreateWorkers();] *)
Definition ensure_workers (s : CustomTexManager) : CustomTexManager :=
  match workers s with
  | None => CreateWorkers s
  | Some _ => s
  end.

(** The pointer to the material of a hash, or [None] for [nullptr]. *)
Definition GetMaterial (data_hash : Z) (s : CustomTexManager) : option Z :=
  match find_material data_hash (material_map s) with
  | Some _ => Some data_hash
  | None => None
  end.

(** *** ParseFilename, with the texture it writes to

    [ParseFilename] fills [*texture] field by field and may return [false]
    after some fields are written; the caller keeps the texture in
    [custom_textures] in both cases. The result is the return value and the
    texture as it is left, or [None] for [back()] on an empty vector. *)
Definition ParseFilename_texture (s : CustomTexManager) (file : FSTEntry)
    (texture : CustomTexture) : option (bool * CustomTexture) :=
  let parts := SplitString (virtualName file) "." in
  if 3 <? Z.of_nat (length parts) then Some (false, texture)
  else
    match last parts with
    | None => None
    | Some ext =>
        let file_format := MakeFileFormat ext in
        if bool_decide (file_format = CustomFileFormat.None)
        then Some (false, texture)
        else if bool_decide (file_format = CustomFileFormat.DDS) && refuse_dds s
        then Some (false, texture)
        else
          let texture := set_tex_file_format file_format texture in
          let parts := removelast parts in
          let texture := set_tex_type MapType.Color texture in
          let '(texture, parts) :=
            if 1 <? Z.of_nat (length parts)
            then (set_tex_type (MakeMapType (default EmptyString (last parts)))
                    texture,
                  removelast parts)
            else (texture, parts) in
          match path_to_hash_map s !! virtualName file with
          | Some hash =>
              Some (true, set_tex_path (physicalName file)
                            (set_tex_hash hash texture))
          | None =>
              match last parts with
              | None => None
              | Some base =>
                  let r := sscanf_tex1 base in
                  if negb (scan_count r =? 4) then Some (false, texture)
                  else
                    Some (true,
                          set_tex_path (physicalName file)
                            (set_tex_hash (default 0 (scan_hash r)) texture))
              end
          end
    end.

(** *** ParseFilename, from the segments on

    The body of [ParseFilename] behind the call of [Common::SplitString],
    as a function of the segments; [ParseFilename] is this function at the
    segments of the file name. *)
Definition ParseFilename_parts (s : CustomTexManager) (file : FSTEntry)
    (parts : list string) : ParseResult :=
  if 3 <? Z.of_nat (length parts) then Rejected
  else
    match last parts with
    | None => Undefined
    | Some ext =>
        let file_format := MakeFileFormat ext in
        if bool_decide (file_format = CustomFileFormat.None) then Rejected
        else if bool_decide (file_format = CustomFileFormat.DDS) && refuse_dds s
        then Rejected
        else
          let parts := removelast parts in
          let '(type, parts) :=
            if 1 <? Z.of_nat (length parts)
            then (MakeMapType (default EmptyString (last parts)), removelast parts)
            else (MapType.Color, parts) in
          match path_to_hash_map s !! virtualName file with
          | Some hash =>
              Accepted (mkCustomTexture hash file_format type (physicalName file))
          | None =>
              match last parts with
              | None => Undefined
              | Some base =>
                  let r := sscanf_tex1 base in
                  if negb (scan_count r =? 4) then Rejected
                  else
                    Accepted (mkCustomTexture (default 0 (scan_hash r))
                                file_format type (physicalName file))
              end
          end
    end.

(** *** FindCustomTextures *)

(** Modelled from the spec: a [Material] as [std::make_unique<Material>()]
    leaves it (the class is not among the sources): [Unloaded], with size
    0. *)
Definition new_material : Material := mkMaterial DecodeState.Unloaded 0.

(** Modelled from the spec: [Material::AddMapTexture] attaches the texture
    to the material under its map type; the state and the size, the fields
    kept here, stay. *)
Definition AddMapTexture (texture : CustomTexture) (m : Material) : Material := m.

(** [material_map[texture->hash]], a new material where there is none, then
    [AddMapTexture]. Where an [unordered_map] puts a new key in its
    iteration order is unspecified; here it comes last. *)
Definition add_map_texture (texture : CustomTexture) (mm : list (Z * Material))
  : list (Z * Material) :=
  match find_material (tex_hash texture) mm with
  | Some _ => update_material (tex_hash texture) (AddMapTexture texture) mm
  | None => mm ++ [(tex_hash texture, AddMapTexture texture new_material)]
  end.

Section FindCustomTextures.

Variable GetFilename : string -> string.

(** The texture [CustomTexture(image_interface)] constructs (the class is
    not among the sources). *)
Variable new_texture : CustomTexture.

(** The loop over the entries of the texture directory, each with its
    [isDirectory] flag; [None] is undefined behaviour in [ParseFilename]. *)
Fixpoint add_textures (textures : list (bool * FSTEntry)) (s : CustomTexManager)
  : option CustomTexManager :=
  match textures with
  | [] => Some s
  | (isDirectory, file) :: rest =>
      if isDirectory then add_textures rest s
      else
        match ParseFilename_texture s file new_texture with
        | None => None
        | Some (parsed, texture) =>
            let s1 := set_custom_textures (custom_textures s ++ [texture]) s in
            if negb parsed then add_textures rest s1
            else
              add_textures rest
                (set_material_map (add_map_texture texture (material_map s1)) s1)
        end
  end.

(** [pack] is what [ReadConfig] finds in the load directory and [textures]
    what the scan of that directory lists. The directory itself is created
    when it is missing; that is not kept track of. [None] is undefined
    behaviour. *)
Definition FindCustomTextures (pack : PackFile) (textures : list (bool * FSTEntry))
    (s : CustomTexManager) : option (Result unit) :=
  if textures_loaded s then Some (Returned tt s)
  else
    match ReadConfig GetFilename pack (ensure_workers s) with
    | Threw e s2 => Some (Threw e s2)
    | Returned _ s2 =>
        match add_textures textures s2 with
        | None => None
        | Some s3 => Some (Returned tt (set_textures_loaded true s3))
        end
    end.

End FindCustomTextures.

(** *** WriteConfig *)

(** The [nlohmann::ordered_json] value [WriteConfig] builds; its members
    are in insertion order. *)
Definition pack_json (s : CustomTexManager) : json :=
  JObject
    [("author"%string, JString "citra");
     ("version"%string, JString "1.0.0");
     ("description"%string, JString "A graphics pack");
     ("options"%string,
      JObject [("skip_mipmap"%string, JBool (skip_mipmap s));
               ("flip_png_files"%string, JBool (flip_png_files s));
               ("use_new_hash"%string, JBool (use_new_hash s))])].

(** The same value as [nlohmann::json] holds it once the text is parsed
    again: a [std::map], its members sorted by key. *)
Definition pack_json_parsed (s : CustomTexManager) : json :=
  JObject
    [("author"%string, JString "citra");
     ("description"%string, JString "A graphics pack");
     ("options"%string,
      JObject [("flip_png_files"%string, JBool (flip_png_files s));
               ("skip_mipmap"%string, JBool (skip_mipmap s));
               ("use_new_hash"%string, JBool (use_new_hash s))]);
     ("version"%string, JString "1.0.0")].

(** The file written, as its path and the value dumped into it, or [None]
    when [pack.json] exists already and nothing is written. *)
Definition WriteConfig (env : DumpEnv) (s : CustomTexManager)
  : option (string * json) :=
  let pack_config := dump_dir env +:+ "pack.json" in
  if Exists env pack_config then None
  else Some (pack_config, pack_json s).

(** ** More vocabulary *)

(** The entries of a queue by the state of their material. *)
Definition is_decoded (mm : list (Z * Material)) (e : AsyncUpload) : bool :=
  bool_decide (material_state mm (material e) = Some DecodeState.Decoded).

Definition is_failed (mm : list (Z * Material)) (e : AsyncUpload) : bool :=
  bool_decide (material_state mm (material e) = Some DecodeState.Failed).

Definition is_waiting (mm : list (Z * Material)) (e : AsyncUpload) : bool :=
  negb (is_decoded mm e) && negb (is_failed mm e).

(** The hash the first of a list of [key : file] members gives a bare file
    name. *)
Fixpoint first_override (GetFilename : string -> string) (name : string)
    (members : list (string * string)) : option Z :=
  match members with
  | [] => None
  | (key, file) :: rest =>
      if String.eqb (GetFilename file) name
      then match stoull16 key with
           | inr (hash, _) => Some hash
           | inl _ => None
           end
      else first_override GetFilename name rest
  end.

Definition string_members (members : list (string * string))
  : list (string * json) :=
  map (fun kf => (kf.1, JString kf.2)) members.

(** The progress callbacks of a preload that loads [n] materials. *)
Definition callbacks (callback : bool) (total first : Z) (n : nat) : list Event :=
  if callback
  then map (fun i => EvCallback (first + Z.of_nat i) total) (seq 0 n)
  else [].

(** The name of a dump file inside the dump directory. *)
Definition dump_name (env : DumpEnv) (params : SurfaceParams)
    (level data_hash : Z) : string :=
  tex1_name (format_dec (width params)) (format_dec (height params))
    (format_016X data_hash) (format_PixelFormat env (pixel_format params))
  +:+ "_mip" +:+ format_dec level +:+ ".png".

(** The hashes of the files of a directory listing that [ParseFilename]
    accepts. *)
Fixpoint accepted_hashes (s : CustomTexManager) (textures : list (bool * FSTEntry))
  : list Z :=
  match textures with
  | [] => []
  | (isDirectory, file) :: rest =>
      if isDirectory then accepted_hashes s rest
      else
        match ParseFilename s file with
        | Accepted texture => tex_hash texture :: accepted_hashes s rest
        | _ => accepted_hashes s rest
        end
  end.

Definition files_of (textures : list (bool * FSTEntry)) : list FSTEntry :=
  map snd (List.filter (fun t => negb t.1) textures).

(** The second manager differs from the first in the options and the
    override table only, or in the textures and materials only. *)
Definition keeps_all_but_config (s s' : CustomTexManager) : Prop :=
  s' = set_options (skip_mipmap s') (flip_png_files s') (use_new_hash s')
         (refuse_dds s') (set_path_to_hash_map (path_to_hash_map s') s).

Definition keeps_all_but_textures (s s' : CustomTexManager) : Prop :=
  s' = set_material_map (material_map s')
         (set_custom_textures (custom_textures s') s).

(** A root object of a descriptor whose [options] member is an object that
    holds the three options as booleans; the root may have any other
    members. *)
Definition has_options (root : json) (skip flip new_hash : bool) : Prop :=
  exists members options,
    root = JObject members
    /\ assoc_find "options" members = Some (JObject options)
    /\ assoc_find "skip_mipmap" options = Some (JBool skip)
    /\ assoc_find "flip_png_files" options = Some (JBool flip)
    /\ assoc_find "use_new_hash" options = Some (JBool new_hash).

(** The PNG files encoded so far, and the bound on them: no more files are
    encoded or wait to be encoded than hashes are recorded as dumped. *)
Definition is_encode (e : Event) : bool :=
  match e with
  | EvEncodePNG _ _ _ => true
  | _ => false
  end.

Definition encoded (s : CustomTexManager) : nat :=
  length (List.filter is_encode (events s)).

Definition dump_budget (s : CustomTexManager) : Prop :=
  (encoded s + dump_jobs s <= base.size (dumped_textures s))%nat.

(** * Properties *)

(** ** Strings and scanning *)

Example sscanf_tex1_four_fields :
  sscanf_tex1 "tex1_32x32_AB_0"
  = mkTex1Scan 4 (Some 32) (Some 32) (Some 171) (Some 0).
Proof. vm_compute. reflexivity. Qed.

Example sscanf_tex1_stops_early :
  scan_count (sscanf_tex1 "tex1_") = -1
  /\ scan_count (sscanf_tex1 "texture") = 0
  /\ scan_count (sscanf_tex1 "tex1_5") = 1
  /\ scan_count (sscanf_tex1 "tex1_5x6") = 2
  /\ scan_count (sscanf_tex1 "tex1_5x6_1f") = 3.
Proof. vm_compute. repeat split. Qed.

Example sscanf_tex1_lone_prefix :
  sscanf_tex1 "tex1_8x8_0x_5" = mkTex1Scan 4 (Some 8) (Some 8) (Some 0) (Some 5)
  /\ scan_count (sscanf_tex1 "tex1_8x8_x_5") = 2.
Proof. vm_compute. repeat split. Qed.

Example stoull16_values :
  stoull16 "0x1F" = inr (31, 4)
  /\ stoull16 "zz" = inl invalid_argument
  /\ stoull16 "FFFFFFFFFFFFFFFFF" = inl out_of_range.
Proof. vm_compute. repeat split. Qed.

Lemma append_cons (x : ascii) (a b : string) :
  String x a +:+ b = String x (a +:+ b).
Proof. reflexivity. Qed.

Lemma append_nil (b : string) : "" +:+ b = b.
Proof. reflexivity. Qed.

Lemma append_assoc (a b c : string) : (a +:+ b) +:+ c = a +:+ b +:+ c.
Proof.
  induction a as [|x a IH]; [reflexivity |].
  now rewrite !append_cons, IH.
Qed.


Lemma digit_value_xdigit c d : digit_value c = Some d -> xdigit_value c = Some d.
Proof. unfold digit_value, xdigit_value. now destruct (in_range 48 57 c). Qed.

Lemma xdigit_code c d :
  xdigit_value c = Some d -> 48 <= char_code c <= 102.
Proof.
  unfold xdigit_value, in_range.
  repeat case_match; intros; simplify_eq; lia.
Qed.

Lemma xdigit_not_space c d : xdigit_value c = Some d -> isspace c = false.
Proof.
  intros H%xdigit_code. unfold isspace, in_range.
  apply orb_false_iff. split; [lia |]. apply andb_false_iff. lia.
Qed.

Lemma xdigit_no_sign c d r :
  xdigit_value c = Some d -> scan_sign (String c r) = (false, String c r).
Proof.
  intros H%xdigit_code. unfold scan_sign.
  destruct c as [[] [] [] [] [] [] [] []]; try reflexivity;
    vm_compute in H; destruct H as [H1 H2]; exfalso;
    first [now apply H1 | now apply H2].
Qed.

Lemma hex_prefix_Some s r :
  hex_prefix s = Some r ->
  s = String "0" (String "x" r) \/ s = String "0" (String "X" r).
Proof.
  unfold hex_prefix. intros H.
  repeat case_match; simplify_eq; auto.
Qed.

Lemma take_digits_app digit a rest :
  string_forall (is_digit_of digit) a = true ->
  (forall c r, rest = String c r -> digit c = None) ->
  take_digits digit (a +:+ rest) = ((take_digits digit a).1, rest).
Proof.
  intros Ha Hrest. induction a as [|c a IH].
  - rewrite append_nil. destruct rest as [|c r]; [reflexivity |]. simpl.
    now rewrite (Hrest c r eq_refl).
  - rewrite append_cons. simpl in *.
    apply andb_true_iff in Ha as [Hc Ha]. unfold is_digit_of in Hc.
    destruct (digit c) as [d|]; [| discriminate].
    rewrite (IH Ha). now destruct (take_digits digit a).
Qed.

Lemma take_digits_head digit c d r :
  digit c = Some d -> exists ds rest, take_digits digit (String c r) = (d :: ds, rest).
Proof.
  intros H. simpl. rewrite H. destruct (take_digits digit r) as [ds rest]. eauto.
Qed.

Lemma number_string_head digit s :
  number_string digit s ->
  exists c d r, s = String c r /\ digit c = Some d
                /\ string_forall (is_digit_of digit) r = true.
Proof.
  intros [Hne Hall]. destruct s as [|c r]; [congruence |].
  simpl in Hall. apply andb_true_iff in Hall as [Hc Hr].
  unfold is_digit_of in Hc. destruct (digit c) as [d|] eqn:E; [| discriminate].
  eauto 6.
Qed.

Lemma scan_literal_app lit s : scan_literal lit (lit +:+ s) = inr s.
Proof.
  induction lit as [|c lit IH]; [reflexivity |].
  rewrite append_cons. simpl. now rewrite Ascii.eqb_refl.
Qed.

Lemma skip_space_digit c d r :
  xdigit_value c = Some d -> skip_space (String c r) = String c r.
Proof. intros H. simpl. now rewrite (xdigit_not_space c d H). Qed.

(** A decimal field followed by something that is not a digit is read
    whole. *)
Lemma scan_conv_decimal width a rest :
  number_string digit_value a ->
  (forall c r, rest = String c r -> digit_value c = None) ->
  scan_conv false width (a +:+ rest) =
  inr (strtoull_value false (digits_value 10 (take_digits digit_value a).1)
         mod 2 ^ width, rest).
Proof.
  intros Ha Hrest.
  destruct (number_string_head _ _ Ha) as (c & d & r & -> & Hc & Hr).
  pose proof (digit_value_xdigit _ _ Hc) as Hx.
  unfold scan_conv. rewrite append_cons, (skip_space_digit c d _ Hx).
  rewrite (xdigit_no_sign c d _ Hx), <- append_cons.
  rewrite take_digits_app; [| apply Ha | exact Hrest].
  destruct (take_digits_head digit_value c d r Hc) as (ds & rest' & E).
  rewrite E. reflexivity.
Qed.

(** A decimal field is read, whatever follows it. *)
Lemma scan_conv_decimal_any width a tail :
  number_string digit_value a ->
  exists v rest, scan_conv false width (a +:+ tail) = inr (v, rest).
Proof.
  intros Ha.
  destruct (number_string_head _ _ Ha) as (c & d & r & -> & Hc & Hr).
  pose proof (digit_value_xdigit _ _ Hc) as Hx.
  unfold scan_conv. rewrite append_cons, (skip_space_digit c d _ Hx).
  rewrite (xdigit_no_sign c d _ Hx).
  destruct (take_digits_head digit_value c d (r +:+ tail) Hc) as (ds & rest' & E).
  rewrite E. eauto.
Qed.

(** A hexadecimal field followed by an underscore is read whole: its digits
    cannot be taken for a 0x prefix. *)
Lemma scan_conv_hex a t :
  number_string xdigit_value a ->
  scan_conv true 64 (a +:+ String "_" t) =
  inr (strtoull_value false (hex_value a) mod 2 ^ 64, String "_" t).
Proof.
  intros Ha.
  destruct (number_string_head _ _ Ha) as (c & d & r & -> & Hc & Hr).
  unfold scan_conv. rewrite append_cons, (skip_space_digit c d _ Hc).
  rewrite (xdigit_no_sign c d _ Hc).
  assert (Hp : hex_prefix (String c (r +:+ String "_" t)) = None).
  { destruct (hex_prefix _) as [r'|] eqn:E; [| reflexivity].
    exfalso. apply hex_prefix_Some in E.
    destruct r as [|c2 r].
    - rewrite append_nil in E. destruct E as [E|E]; discriminate E.
    - rewrite append_cons in E. simpl in Hr.
      apply andb_true_iff in Hr as [Hc2 _]. unfold is_digit_of in Hc2.
      destruct E as [E|E]; injection E as _ -> _; discriminate Hc2. }
  rewrite Hp. simpl default. rewrite <- append_cons.
  rewrite take_digits_app; [| apply Ha |].
  - unfold hex_value.
    destruct (take_digits_head xdigit_value c d r Hc) as (ds & rest' & E).
    rewrite E. reflexivity.
  - intros c' r' [= <- _]. reflexivity.
Qed.

Lemma tex1_name_app W H H64 F tail :
  tex1_name W H H64 F +:+ tail =
  "tex1_" +:+ W +:+ String "x" (H +:+ String "_" (H64 +:+ String "_" (F +:+ tail))).
Proof.
  unfold tex1_name. rewrite !append_assoc. reflexivity.
Qed.

(** [sscanf] on a name that starts with the four fields: all four are
    assigned and [hash] is the value of the hexadecimal field, whatever
    follows the last field. *)
Lemma sscanf_tex1_prefix W H H64 F tail :
  number_string digit_value W -> number_string digit_value H ->
  number_string xdigit_value H64 -> number_string digit_value F ->
  scan_count (sscanf_tex1 (tex1_name W H H64 F +:+ tail)) = 4
  /\ scan_hash (sscanf_tex1 (tex1_name W H H64 F +:+ tail)) =
     Some (strtoull_value false (hex_value H64) mod 2 ^ 64).
Proof.
  intros HW HH HX HF. rewrite tex1_name_app.
  assert (exists w h f,
            sscanf_tex1
              ("tex1_" +:+ W +:+ String "x" (H +:+ String "_"
                 (H64 +:+ String "_" (F +:+ tail)))) =
            mkTex1Scan 4 w h
              (Some (strtoull_value false (hex_value H64) mod 2 ^ 64)) f)
    as (w & h & f & ->); [| split; reflexivity].
  unfold sscanf_tex1.
  rewrite scan_literal_app.
  rewrite scan_conv_decimal; [| exact HW | now intros c r [= <- _]].
  cbv beta iota.
  change (scan_literal "x" (String "x" ?s)) with (@inr ScanFail string s).
  cbv beta iota.
  rewrite scan_conv_decimal; [| exact HH | now intros c r [= <- _]].
  cbv beta iota.
  change (scan_literal "_" (String "_" ?s)) with (@inr ScanFail string s).
  cbv beta iota.
  rewrite scan_conv_hex; [| exact HX].
  cbv beta iota.
  change (scan_literal "_" (String "_" ?s)) with (@inr ScanFail string s).
  cbv beta iota.
  destruct (scan_conv_decimal_any 32 F tail HF) as (v & rest & ->).
  eauto.
Qed.

Lemma strtoull_value_small v :
  0 <= v <= U64_MAX -> strtoull_value false v mod 2 ^ 64 = v.
Proof.
  intros Hv. unfold strtoull_value.
  destruct (U64_MAX <? v) eqn:E; [apply Z.ltb_lt in E; lia |].
  apply Z.mod_small. unfold U64_MAX in Hv. lia.
Qed.

Lemma digits_value_nonneg base ds :
  0 <= base -> Forall (fun d => 0 <= d) ds -> 0 <= digits_value base ds.
Proof.
  intros Hb. unfold digits_value.
  assert (G : forall acc, 0 <= acc -> Forall (fun d => 0 <= d) ds ->
                          0 <= fold_left (fun a d => a * base + d) ds acc).
  { induction ds as [|d ds IH]; intros acc Hacc Hds; simpl; [exact Hacc |].
    inversion Hds; subst. apply IH; [nia | assumption]. }
  apply G. lia.
Qed.

Lemma take_digits_xdigit_nonneg s :
  Forall (fun d => 0 <= d) (take_digits xdigit_value s).1.
Proof.
  induction s as [|c s IH]; simpl; [constructor |].
  destruct (xdigit_value c) as [d|] eqn:E; [| constructor].
  destruct (take_digits xdigit_value s) as [ds rest]. simpl in *.
  constructor; [| exact IH].
  unfold xdigit_value, in_range in E.
  repeat case_match; simplify_eq; lia.
Qed.

Lemma hex_value_nonneg s : 0 <= hex_value s.
Proof.
  apply digits_value_nonneg; [lia | apply take_digits_xdigit_nonneg].
Qed.

(** ** Rendered numbers are fields *)

Lemma string_of_uint_digits d :
  string_forall (is_digit_of digit_value) (NilEmpty.string_of_uint d) = true.
Proof. induction d; simpl; auto. Qed.

Lemma format_dec_number_string v : number_string digit_value (format_dec v).
Proof.
  unfold format_dec. split; [| apply string_of_uint_digits].
  destruct (N.to_uint (Z.to_N v)) eqn:E; try discriminate.
  exfalso. destruct (Z.to_N v) as [|p]; [discriminate E |].
  now apply (Unsigned.to_uint_nonnil p).
Qed.

Lemma nibble_range v i : 0 <= nibble v i < 16.
Proof.
  unfold nibble. change 15 with (Z.ones 4). rewrite Z.land_ones by lia.
  apply Z.mod_pos_bound. lia.
Qed.

Lemma xdigit_hex_digit n : 0 <= n < 16 -> xdigit_value (hex_digit n) = Some n.
Proof.
  intros Hn.
  assert (Hall : forallb
                   (fun k => bool_decide
                               (xdigit_value (hex_digit (Z.of_nat k))
                                = Some (Z.of_nat k)))
                   (seq 0 16) = true) by (vm_compute; reflexivity).
  rewrite forallb_forall in Hall.
  specialize (Hall (Z.to_nat n)). rewrite Z2Nat.id in Hall by lia.
  apply bool_decide_eq_true in Hall; [exact Hall |].
  apply in_seq. lia.
Qed.

Lemma nibble_step v i :
  0 <= i -> v / 16 ^ i = 16 * (v / 16 ^ (i + 1)) + nibble v i.
Proof.
  intros Hi. unfold nibble. change 15 with (Z.ones 4).
  rewrite Z.land_ones, Z.shiftr_div_pow2 by lia.
  replace (2 ^ (4 * i)) with (16 ^ i)
    by (change 16 with (2 ^ 4); rewrite <- Z.pow_mul_r by lia; reflexivity).
  rewrite Z.pow_add_r, Z.pow_1_r by lia.
  assert (0 < 16 ^ i) by (apply Z.pow_pos_nonneg; lia).
  rewrite <- Z.div_div by lia. change (2 ^ 4) with 16.
  apply Z.div_mod. lia.
Qed.

Ltac nibble_equation v k H :=
  pose proof (nibble_step v k ltac:(lia)) as H;
  let k' := eval compute in (k + 1) in change (k + 1) with k' in H.

(** The sixteen digits of [{:016X}] are a hexadecimal field, and its value
    is the number rendered. *)
Lemma format_016X_number_string v : number_string xdigit_value (format_016X v).
Proof.
  split; [discriminate |]. unfold format_016X.
  cbn [map string_of_list_ascii string_forall]. unfold is_digit_of.
  rewrite !xdigit_hex_digit by apply nibble_range. reflexivity.
Qed.

Lemma hex_value_format_016X v : 0 <= v < 2 ^ 64 -> hex_value (format_016X v) = v.
Proof.
  intros Hv. unfold hex_value, format_016X.
  cbn [map string_of_list_ascii take_digits].
  rewrite !xdigit_hex_digit by apply nibble_range.
  cbn [fst digits_value fold_left].
  assert (v / 16 ^ 16 = 0) as Htop by (apply Z.div_small; lia).
  nibble_equation v 0 H0. nibble_equation v 1 H1. nibble_equation v 2 H2.
  nibble_equation v 3 H3. nibble_equation v 4 H4. nibble_equation v 5 H5.
  nibble_equation v 6 H6. nibble_equation v 7 H7. nibble_equation v 8 H8.
  nibble_equation v 9 H9. nibble_equation v 10 H10. nibble_equation v 11 H11.
  nibble_equation v 12 H12. nibble_equation v 13 H13. nibble_equation v 14 H14.
  nibble_equation v 15 H15.
  rewrite Z.pow_0_r, Z.div_1_r in H0. rewrite Htop in H15.
  generalize dependent (v / 16 ^ 1). generalize dependent (v / 16 ^ 2).
  generalize dependent (v / 16 ^ 3). generalize dependent (v / 16 ^ 4).
  generalize dependent (v / 16 ^ 5). generalize dependent (v / 16 ^ 6).
  generalize dependent (v / 16 ^ 7). generalize dependent (v / 16 ^ 8).
  generalize dependent (v / 16 ^ 9). generalize dependent (v / 16 ^ 10).
  generalize dependent (v / 16 ^ 11). generalize dependent (v / 16 ^ 12).
  generalize dependent (v / 16 ^ 13). generalize dependent (v / 16 ^ 14).
  generalize dependent (v / 16 ^ 15).
  intros. lia.
Qed.

(** ** Splitting file names *)

Lemma string_forall_app p a b :
  string_forall p (a +:+ b) = string_forall p a && string_forall p b.
Proof.
  induction a as [|c a IH]; [reflexivity |].
  rewrite append_cons. simpl. now rewrite IH, andb_assoc.
Qed.

Lemma string_forall_impl (p q : ascii -> bool) s :
  (forall c, p c = true -> q c = true) ->
  string_forall p s = true -> string_forall q s = true.
Proof.
  intros Hpq. induction s as [|c s IH]; simpl; [reflexivity |].
  intros [Hc Hs]%andb_true_iff. rewrite (Hpq c Hc). now apply IH.
Qed.

Lemma xdigit_not_dot c : is_digit_of xdigit_value c = true -> negb (Ascii.eqb c ".") = true.
Proof.
  unfold is_digit_of. destruct (xdigit_value c) as [d|] eqn:E; [| discriminate].
  intros _. apply xdigit_code in E.
  destruct (Ascii.eqb_spec c "."); [| reflexivity].
  subst. change (char_code ".") with 46 in E. lia.
Qed.

Lemma number_string_dot_free digit s :
  (forall c d, digit c = Some d -> xdigit_value c = Some d) ->
  number_string digit s -> dot_free s.
Proof.
  intros Hd [_ Hs]. unfold dot_free.
  apply (string_forall_impl (is_digit_of digit)); [| exact Hs].
  intros c Hc. apply xdigit_not_dot. unfold is_digit_of in *.
  destruct (digit c) as [d|] eqn:E; [| discriminate]. now rewrite (Hd c d E).
Qed.

Lemma tex1_name_dot_free W H H64 F tail :
  number_string digit_value W -> number_string digit_value H ->
  number_string xdigit_value H64 -> number_string digit_value F ->
  dot_free tail -> dot_free (tex1_name W H H64 F +:+ tail).
Proof.
  intros HW HH HX HF Ht.
  apply (number_string_dot_free _ _ digit_value_xdigit) in HW, HH, HF.
  apply (number_string_dot_free _ _ (fun c d E => E)) in HX.
  unfold dot_free, tex1_name in *.
  rewrite !string_forall_app, HW, HH, HX, HF, Ht. reflexivity.
Qed.

Lemma SplitString_dot_free a : dot_free a -> SplitString a "." = [a].
Proof.
  unfold dot_free. induction a as [|c a IH]; simpl; [reflexivity |].
  intros [Hc Ha]%andb_true_iff. apply negb_true_iff in Hc.
  now rewrite Hc, (IH Ha).
Qed.

Lemma SplitString_segment a r :
  dot_free a -> SplitString (a +:+ "." +:+ r) "." = a :: SplitString r ".".
Proof.
  unfold dot_free. induction a as [|c a IH]; [reflexivity |].
  rewrite append_cons. simpl.
  intros [Hc Ha]%andb_true_iff. apply negb_true_iff in Hc.
  now rewrite Hc, (IH Ha).
Qed.

Lemma SplitString_texture_filename base maptype ext :
  dot_free base -> (forall mt, maptype = Some mt -> dot_free mt) -> dot_free ext ->
  SplitString (texture_filename base maptype ext) "." =
  base :: match maptype with Some mt => [mt; ext] | None => [ext] end.
Proof.
  intros Hb Hm He. unfold texture_filename. destruct maptype as [mt|].
  - now rewrite !SplitString_segment, SplitString_dot_free by auto.
  - now rewrite SplitString_segment, SplitString_dot_free by auto.
Qed.

(** What [ParseFilename] does with a name of the grammar that has no
    override: after the checks of the extension, everything hinges on the
    return value of [sscanf]. *)
Lemma ParseFilename_grammar s file base maptype ext :
  dot_free base -> (forall mt, maptype = Some mt -> dot_free mt) -> dot_free ext ->
  virtualName file = texture_filename base maptype ext ->
  path_to_hash_map s !! virtualName file = None ->
  ParseFilename s file =
  if bool_decide (MakeFileFormat ext = CustomFileFormat.None) then Rejected
  else if bool_decide (MakeFileFormat ext = CustomFileFormat.DDS) && refuse_dds s
  then Rejected
  else if scan_count (sscanf_tex1 base) =? 4
  then Accepted (mkCustomTexture (default 0 (scan_hash (sscanf_tex1 base)))
                   (MakeFileFormat ext) (maptype_of maptype) (physicalName file))
  else Rejected.
Proof.
  intros Hb Hm He Hname Hmap. unfold ParseFilename.
  rewrite Hmap, Hname, (SplitString_texture_filename _ _ _ Hb Hm He).
  destruct maptype as [mt|]; simpl;
    destruct (bool_decide (MakeFileFormat ext = CustomFileFormat.None));
    try reflexivity;
    destruct (bool_decide (MakeFileFormat ext = CustomFileFormat.DDS) && refuse_dds s);
    try reflexivity;
    now destruct (scan_count (sscanf_tex1 base) =? 4).
Qed.

Lemma recognized_extension_format s ext :
  recognized_extension s ext ->
  dot_free ext
  /\ bool_decide (MakeFileFormat ext = CustomFileFormat.None) = false
  /\ bool_decide (MakeFileFormat ext = CustomFileFormat.DDS) && refuse_dds s = false.
Proof.
  intros [-> | [-> | [-> ->]]]; repeat split.
Qed.

(** A name whose base starts with the four fields is accepted under the
    hash of its hexadecimal field, whatever the base goes on with. *)
Lemma ParseFilename_tex1_prefix s file W H H64 F tail maptype ext :
  number_string digit_value W -> number_string digit_value H ->
  number_string xdigit_value H64 -> number_string digit_value F ->
  hex_value H64 <= U64_MAX ->
  dot_free tail ->
  (forall mt, maptype = Some mt -> dot_free mt) ->
  recognized_extension s ext ->
  virtualName file = texture_filename (tex1_name W H H64 F +:+ tail) maptype ext ->
  path_to_hash_map s !! virtualName file = None ->
  ParseFilename s file =
  Accepted (mkCustomTexture (hex_value H64) (MakeFileFormat ext)
              (maptype_of maptype) (physicalName file)).
Proof.
  intros HW HH HX HF Hfit Ht Hm Hext Hname Hmap.
  destruct (recognized_extension_format _ _ Hext) as (He & Hnone & Hdds).
  rewrite (ParseFilename_grammar s file _ maptype ext
             (tex1_name_dot_free _ _ _ _ _ HW HH HX HF Ht) Hm He Hname Hmap).
  rewrite Hnone, Hdds.
  destruct (sscanf_tex1_prefix W H H64 F tail HW HH HX HF) as [-> ->].
  simpl. rewrite strtoull_value_small; [reflexivity |].
  split; [apply hex_value_nonneg | exact Hfit].
Qed.

Lemma extension_format_recognized s ext format :
  extension_format s ext format ->
  recognized_extension s ext /\ MakeFileFormat ext = format.
Proof.
  intros [[-> ->] | [[-> ->] | (-> & -> & Hr)]].
  - split; [now left | reflexivity].
  - split; [right; now left | reflexivity].
  - split; [right; right; now split | reflexivity].
Qed.



(** C9. Characters after the fourth field do not cause rejection: a name
    whose base is [tex1_{W}x{H}_{H64}_{F}] followed by any further
    characters is accepted just like the name without them, under the same
    hash. *)
Theorem ParseFilename_ignores_trailing_characters :
  forall s file W H H64 F junk maptype ext,
    number_string digit_value W -> number_string digit_value H ->
    number_string xdigit_value H64 -> number_string digit_value F ->
    hex_value H64 <= U64_MAX ->
    junk <> EmptyString -> dot_free junk ->
    (forall mt, maptype = Some mt -> dot_free mt) ->
    recognized_extension s ext ->
    virtualName file = texture_filename (tex1_name W H H64 F +:+ junk) maptype ext ->
    path_to_hash_map s !! virtualName file = None ->
    ParseFilename s file =
    Accepted (mkCustomTexture (hex_value H64) (MakeFileFormat ext)
                (maptype_of maptype) (physicalName file)).
Proof.
  intros s file W H H64 F junk maptype ext HW HH HX HF Hfit _ Hj Hm Hext Hname Hmap.
  now apply (ParseFilename_tex1_prefix s file W H H64 F junk maptype ext).
Qed.

Lemma ParseFilename_ignores_trailing_characters_witness :
  ParseFilename manager0 (mkFSTEntry "tex1_32x32_AB_0junk.png" "/load/c") =
  Accepted (mkCustomTexture 171 CustomFileFormat.PNG MapType.Color "/load/c").
Proof.
  apply (ParseFilename_ignores_trailing_characters manager0
           (mkFSTEntry "tex1_32x32_AB_0junk.png" "/load/c")
           "32" "32" "AB" "0" "junk" None "png")%string;
    try (split; [discriminate | reflexivity]);
    try reflexivity.
  - vm_compute. discriminate.
  - discriminate.
  - intros mt [=].
  - now left.
Defined.

(** ** TickFrame *)

Lemma decoded_count_nonneg mm q : 0 <= decoded_count mm q.
Proof. induction q as [|e q IH]; simpl; [lia |]. case_bool_decide; lia. Qed.

(** While the budget lasts, the loop treats a queue piece by piece. *)
Lemma TickFrame_loop_app mm pre post n :
  n + decoded_count mm pre < MAX_UPLOADS_PER_TICK ->
  TickFrame_loop mm (pre ++ post) n =
  ((TickFrame_loop mm pre n).1
     ++ (TickFrame_loop mm post (n + decoded_count mm pre)).1,
   (TickFrame_loop mm pre n).2
     ++ (TickFrame_loop mm post (n + decoded_count mm pre)).2).
Proof.
  revert n. induction pre as [|e pre IH]; intros n Hn.
  - simpl. rewrite Z.add_0_r. now destruct (TickFrame_loop mm post n).
  - pose proof (decoded_count_nonneg mm pre) as Hpos.
    simpl in Hn. simpl app. simpl TickFrame_loop.
    unfold material_state in Hn.
    destruct (MAX_UPLOADS_PER_TICK <=? n) eqn:E.
    { apply Z.leb_le in E. case_bool_decide; lia. }
    simpl decoded_count. unfold material_state.
    destruct (state <$> find_material (material e) mm) as [[]|] eqn:Es;
      rewrite ?bool_decide_eq_true_2 in * by reflexivity;
      rewrite ?bool_decide_eq_false_2 in * by discriminate;
      rewrite ?Z.add_0_l in *.
    all: try (rewrite (IH n) by lia;
              destruct (TickFrame_loop mm pre n);
              destruct (TickFrame_loop mm post _); reflexivity).
    rewrite (IH (n + 1)) by lia.
    replace (n + 1 + decoded_count mm pre) with (n + (1 + decoded_count mm pre)) by lia.
    destruct (TickFrame_loop mm pre (n + 1));
      destruct (TickFrame_loop mm post _); reflexivity.
Qed.

(** On a queue of [Decoded] entries the loop applies the closures of the
    first entries the budget allows and leaves the others. *)
Lemma TickFrame_loop_all_decoded mm q n :
  Forall (fun e => material_state mm (material e) = Some DecodeState.Decoded) q ->
  0 <= n <= MAX_UPLOADS_PER_TICK ->
  TickFrame_loop mm q n =
  (map (fun e => EvUpload (func e)) (take (Z.to_nat (MAX_UPLOADS_PER_TICK - n)) q),
   drop (Z.to_nat (MAX_UPLOADS_PER_TICK - n)) q).
Proof.
  intros Hq. revert n. induction Hq as [|e q He Hq IH]; intros n Hn.
  - simpl. now rewrite take_nil, drop_nil.
  - simpl TickFrame_loop. destruct (MAX_UPLOADS_PER_TICK <=? n) eqn:E.
    + apply Z.leb_le in E.
      replace (MAX_UPLOADS_PER_TICK - n) with 0 by lia. reflexivity.
    + apply Z.leb_gt in E. unfold material_state in He. rewrite He.
      rewrite (IH (n + 1)) by lia.
      replace (Z.to_nat (MAX_UPLOADS_PER_TICK - n))
        with (S (Z.to_nat (MAX_UPLOADS_PER_TICK - (n + 1)))) by lia.
      reflexivity.
Qed.

(** Every closure the loop calls belongs to an entry whose material is
    [Decoded]. *)
Lemma TickFrame_loop_calls_decoded mm q n ev :
  In ev (TickFrame_loop mm q n).1 ->
  exists e, In e q /\ ev = EvUpload (func e)
            /\ material_state mm (material e) = Some DecodeState.Decoded.
Proof.
  revert n. induction q as [|e q IH]; intros n; simpl; [tauto |].
  destruct (MAX_UPLOADS_PER_TICK <=? n); [simpl; tauto |].
  unfold material_state in *.
  destruct (state <$> find_material (material e) mm) as [[]|] eqn:Es.
  all: try (specialize (IH n); destruct (TickFrame_loop mm q n); simpl in *;
            intros H; destruct (IH H) as (e' & ? & ? & ?); eauto 6).
  specialize (IH (n + 1)); destruct (TickFrame_loop mm q (n + 1)); simpl in *.
  intros [<- | H]; [eauto 6 |].
  destruct (IH H) as (e' & ? & ? & ?); eauto 6.
Qed.

Lemma TickFrame_unfold s :
  textures_loaded s = true ->
  events (TickFrame s) =
    events s ++ (TickFrame_loop (material_map s) (async_uploads s) 0).1
  /\ async_uploads (TickFrame s) =
       (TickFrame_loop (material_map s) (async_uploads s) 0).2
  /\ material_map (TickFrame s) = material_map s
  /\ workers (TickFrame s) = workers s.
Proof.
  intros Hl. unfold TickFrame. rewrite Hl. simpl.
  now destruct (TickFrame_loop (material_map s) (async_uploads s) 0).
Qed.

Lemma TickFrame_loop_cons mm e post n :
  n < MAX_UPLOADS_PER_TICK ->
  TickFrame_loop mm (e :: post) n =
  match material_state mm (material e) with
  | Some DecodeState.Decoded =>
      (EvUpload (func e) :: (TickFrame_loop mm post (n + 1)).1,
       (TickFrame_loop mm post (n + 1)).2)
  | Some DecodeState.Failed => TickFrame_loop mm post n
  | _ => ((TickFrame_loop mm post n).1, e :: (TickFrame_loop mm post n).2)
  end.
Proof.
  intros Hn. simpl.
  destruct (MAX_UPLOADS_PER_TICK <=? n) eqn:E; [apply Z.leb_le in E; lia |].
  unfold material_state.
  destruct (state <$> find_material (material e) mm) as [[]|];
    try reflexivity; now destruct (TickFrame_loop mm post _).
Qed.

Lemma TickFrame_loop_split mm pre e post :
  decoded_count mm pre < MAX_UPLOADS_PER_TICK ->
  TickFrame_loop mm (pre ++ e :: post) 0 =
  match material_state mm (material e) with
  | Some DecodeState.Decoded =>
      ((TickFrame_loop mm pre 0).1 ++ EvUpload (func e)
         :: (TickFrame_loop mm post (decoded_count mm pre + 1)).1,
       (TickFrame_loop mm pre 0).2
         ++ (TickFrame_loop mm post (decoded_count mm pre + 1)).2)
  | Some DecodeState.Failed =>
      ((TickFrame_loop mm pre 0).1
         ++ (TickFrame_loop mm post (decoded_count mm pre)).1,
       (TickFrame_loop mm pre 0).2
         ++ (TickFrame_loop mm post (decoded_count mm pre)).2)
  | _ =>
      ((TickFrame_loop mm pre 0).1
         ++ (TickFrame_loop mm post (decoded_count mm pre)).1,
       (TickFrame_loop mm pre 0).2
         ++ e :: (TickFrame_loop mm post (decoded_count mm pre)).2)
  end.
Proof.
  intros Hn. rewrite TickFrame_loop_app by lia. rewrite Z.add_0_l.
  rewrite (TickFrame_loop_cons _ _ _ _ Hn).
  now destruct (material_state mm (material e)) as [[]|].
Qed.

(** C1 (as amended). After discovery, one call to [TickFrame] on a queue of
    100 entries whose materials are all [Decoded] calls exactly 16 upload
    closures, those of the first 16 entries, and leaves the other 84 queued;
    an entry whose material is [Failed] and that is preceded by fewer than
    16 [Decoded] entries is removed without a call to its closure; and every
    closure called belongs to an entry whose material is [Decoded]. *)
Theorem TickFrame_budget_and_failed_entries :
  forall s,
    textures_loaded s = true ->
    (length (async_uploads s) = 100%nat ->
     Forall (fun e => material_state (material_map s) (material e)
                      = Some DecodeState.Decoded) (async_uploads s) ->
     events (TickFrame s)
       = events s ++ map (fun e => EvUpload (func e)) (take 16 (async_uploads s))
     /\ length (take 16 (async_uploads s)) = 16%nat
     /\ async_uploads (TickFrame s) = drop 16 (async_uploads s)
     /\ length (async_uploads (TickFrame s)) = 84%nat)
    /\ (forall pre e post,
           async_uploads s = pre ++ e :: post ->
           material_state (material_map s) (material e) = Some DecodeState.Failed ->
           decoded_count (material_map s) pre < MAX_UPLOADS_PER_TICK ->
           events (TickFrame s)
             = events s ++ (TickFrame_loop (material_map s) pre 0).1
                 ++ (TickFrame_loop (material_map s) post
                       (decoded_count (material_map s) pre)).1
           /\ async_uploads (TickFrame s)
              = (TickFrame_loop (material_map s) pre 0).2
                  ++ (TickFrame_loop (material_map s) post
                        (decoded_count (material_map s) pre)).2)
    /\ (forall ev,
           In ev (events (TickFrame s)) ->
           In ev (events s)
           \/ exists e, In e (async_uploads s) /\ ev = EvUpload (func e)
                        /\ material_state (material_map s) (material e)
                           = Some DecodeState.Decoded).
Proof.
  intros s Hl. destruct (TickFrame_unfold s Hl) as (Hev & Hq & _ & _).
  split; [| split].
  - intros Hlen Hall. rewrite Hev, Hq.
    rewrite (TickFrame_loop_all_decoded _ _ 0 Hall) by (unfold MAX_UPLOADS_PER_TICK; lia).
    change (Z.to_nat (MAX_UPLOADS_PER_TICK - 0)) with 16%nat. simpl.
    rewrite length_take, length_drop, Hlen. repeat split.
  - intros pre e post Hsplit Hfailed Hn. rewrite Hev, Hq, Hsplit.
    rewrite (TickFrame_loop_split _ _ _ _ Hn), Hfailed. split; reflexivity.
  - intros ev Hin. rewrite Hev in Hin. apply in_app_or in Hin as [Hin | Hin].
    + now left.
    + right. now apply TickFrame_loop_calls_decoded in Hin.
Qed.

Lemma TickFrame_budget_and_failed_entries_witness :
  length (async_uploads
            (TickFrame (manager_with (materials_in DecodeState.Decoded 0 100)
                          (entries_for (keys_from 0 100) true)))) = 84%nat
  /\ async_uploads
       (TickFrame (manager_with (materials_in DecodeState.Failed 0 1)
                     (entries_for [0] true))) = [].
Proof.
  split.
  - destruct (TickFrame_budget_and_failed_entries
                (manager_with (materials_in DecodeState.Decoded 0 100)
                   (entries_for (keys_from 0 100) true)) eq_refl)
      as (H & _ & _).
    apply H; [reflexivity |]. vm_compute. repeat constructor.
  - destruct (TickFrame_budget_and_failed_entries
                (manager_with (materials_in DecodeState.Failed 0 1)
                   (entries_for [0] true)) eq_refl)
      as (_ & H & _).
    destruct (H [] (mkAsyncUpload 0 (mkUploadFn 0 true)) [] eq_refl eq_refl)
      as [_ ->]; [vm_compute |]; reflexivity.
Defined.

(** The budget also stops the scan in front of [Failed] entries: after 16
    [Decoded] entries, a [Failed] entry is still queued when [TickFrame]
    returns. *)
Lemma TickFrame_failed_entry_beyond_budget :
  let s := manager_with
             (materials_in DecodeState.Decoded 0 16
                ++ materials_in DecodeState.Failed 16 1)
             (entries_for (keys_from 0 17) true) in
  textures_loaded s = true
  /\ In (mkAsyncUpload 16 (mkUploadFn 16 true)) (async_uploads s)
  /\ material_state (material_map s) 16 = Some DecodeState.Failed
  /\ async_uploads (TickFrame s) = [mkAsyncUpload 16 (mkUploadFn 16 true)].
Proof.
  vm_compute. repeat split. do 16 right. now left.
Qed.

(** C10 (as amended). When [TickFrame] calls the closure of a [Decoded]
    entry, which it does for an entry with fewer than 16 [Decoded] entries
    in front of it, the entry is erased and the scan goes on, whatever the
    closure returned: the events and the queue left are given without
    reference to the returned value, and they are the same for a closure
    that returns the other value. *)
Theorem TickFrame_ignores_upload_result :
  forall s pre e post,
    textures_loaded s = true ->
    async_uploads s = pre ++ e :: post ->
    material_state (material_map s) (material e) = Some DecodeState.Decoded ->
    decoded_count (material_map s) pre < MAX_UPLOADS_PER_TICK ->
    events (TickFrame s)
      = events s ++ (TickFrame_loop (material_map s) pre 0).1
          ++ EvUpload (func e)
          :: (TickFrame_loop (material_map s) post
                (decoded_count (material_map s) pre + 1)).1
    /\ async_uploads (TickFrame s)
       = (TickFrame_loop (material_map s) pre 0).2
           ++ (TickFrame_loop (material_map s) post
                 (decoded_count (material_map s) pre + 1)).2
    /\ forall b,
         async_uploads
           (TickFrame
              (set_async_uploads
                 (pre ++ mkAsyncUpload (material e) (mkUploadFn (fn_id (func e)) b)
                      :: post) s))
         = async_uploads (TickFrame s).
Proof.
  intros s pre e post Hl Hsplit Hdec Hn.
  destruct (TickFrame_unfold s Hl) as (Hev & Hq & _ & _).
  assert (G : forall e', material e' = material e ->
              (TickFrame_loop (material_map s) (pre ++ e' :: post) 0).2
              = (TickFrame_loop (material_map s) pre 0).2
                  ++ (TickFrame_loop (material_map s) post
                        (decoded_count (material_map s) pre + 1)).2).
  { intros e' He'. rewrite (TickFrame_loop_split _ _ _ _ Hn), He', Hdec.
    reflexivity. }
  split; [| split].
  - rewrite Hev, Hsplit, (TickFrame_loop_split _ _ _ _ Hn), Hdec. reflexivity.
  - rewrite Hq, Hsplit. now apply G.
  - intros b. rewrite Hq, Hsplit, (G e eq_refl).
    match goal with |- async_uploads (TickFrame ?s') = _ =>
      destruct (TickFrame_unfold s' Hl) as (_ & -> & _ & _) end.
    simpl. now apply G.
Qed.

Lemma TickFrame_ignores_upload_result_witness :
  let s := manager_with
             (materials_in DecodeState.Decoded 0 1
                ++ materials_in DecodeState.Pending 1 1)
             (entries_for [0; 1] false) in
  fn_returns (mkUploadFn 0 false) = false
  /\ events (TickFrame s) = [EvUpload (mkUploadFn 0 false)]
  /\ async_uploads (TickFrame s) = [mkAsyncUpload 1 (mkUploadFn 1 false)].
Proof.
  intros s.
  destruct (TickFrame_ignores_upload_result s []
              (mkAsyncUpload 0 (mkUploadFn 0 false))
              [mkAsyncUpload 1 (mkUploadFn 1 false)]
              eq_refl eq_refl eq_refl) as (-> & -> & _).
  - vm_compute. reflexivity.
  - repeat split.
Defined.

(** The budget also stops the scan in front of [Decoded] entries: of 17
    [Decoded] entries the last is neither called nor erased by one call of
    [TickFrame]; it is called and erased by the next. *)
Lemma TickFrame_decoded_entry_beyond_budget :
  let s := manager_with (materials_in DecodeState.Decoded 0 17)
             (entries_for (keys_from 0 17) false) in
  textures_loaded s = true
  /\ In (mkAsyncUpload 16 (mkUploadFn 16 false)) (async_uploads s)
  /\ material_state (material_map s) 16 = Some DecodeState.Decoded
  /\ events (TickFrame s)
     = map (fun k => EvUpload (mkUploadFn k false)) (keys_from 0 16)
  /\ async_uploads (TickFrame s) = [mkAsyncUpload 16 (mkUploadFn 16 false)]
  /\ events (TickFrame (TickFrame s))
     = map (fun k => EvUpload (mkUploadFn k false)) (keys_from 0 17)
  /\ async_uploads (TickFrame (TickFrame s)) = [].
Proof.
  vm_compute. repeat split. do 16 right. now left.
Qed.

(** ** Materials behind pointers *)

Lemma find_update_material_eq hash f mm :
  find_material hash (update_material hash f mm) = f <$> find_material hash mm.
Proof.
  induction mm as [|[k m] mm IH]; simpl; [reflexivity |].
  destruct (k =? hash) eqn:E; simpl; rewrite E; [reflexivity | exact IH].
Qed.

Lemma find_update_material_ne hash hash' f mm :
  hash <> hash' ->
  find_material hash (update_material hash' f mm) = find_material hash mm.
Proof.
  intros Hne. induction mm as [|[k m] mm IH]; simpl; [reflexivity |].
  destruct (k =? hash') eqn:E'; simpl.
  - apply Z.eqb_eq in E'. subst k.
    destruct (hash' =? hash) eqn:E; [apply Z.eqb_eq in E; congruence | reflexivity].
  - destruct (k =? hash); [reflexivity | exact IH].
Qed.

(** ** Decode *)

(** C4. With asynchronous loading enabled, [Decode] on a material in state
    [Unloaded] returns [false], leaves the material [Pending], queues its
    load on the worker pool and appends one [{material, upload}] entry to
    the upload queue. The worker pool exists (discovery creates it before
    any material exists). *)
Theorem Decode_async_unloaded :
  forall disk material upload s m q,
    async_custom_loading s = true ->
    find_material material (material_map s) = Some m ->
    state m = DecodeState.Unloaded ->
    workers s = Some q ->
    exists s',
      Decode disk material upload s = Some (false, s')
      /\ material_state (material_map s') material = Some DecodeState.Pending
      /\ async_uploads s' = async_uploads s ++ [mkAsyncUpload material upload]
      /\ workers s' = Some (q ++ [JobLoad material])
      /\ events s' = events s.
Proof.
  intros disk material upload s m q Hasync Hfind Hstate Hw.
  unfold Decode. rewrite Hfind, Hasync, Hw. simpl.
  unfold IsUnloaded. rewrite Hstate, bool_decide_eq_true_2 by reflexivity.
  eexists. split; [reflexivity |]. simpl. unfold material_state.
  rewrite find_update_material_eq, Hfind. repeat split.
Qed.

Lemma Decode_async_unloaded_witness :
  exists s',
    Decode (fun _ => Some 4096) 7 (mkUploadFn 1 true)
      (manager_with (materials_in DecodeState.Unloaded 7 1) []) = Some (false, s')
    /\ material_state (material_map s') 7 = Some DecodeState.Pending
    /\ async_uploads s' = [mkAsyncUpload 7 (mkUploadFn 1 true)]
    /\ workers s' = Some [JobLoad 7]
    /\ events s' = [].
Proof.
  exact (Decode_async_unloaded (fun _ => Some 4096) 7 (mkUploadFn 1 true)
           (manager_with (materials_in DecodeState.Unloaded 7 1) [])
           (mkMaterial DecodeState.Unloaded 0) [] eq_refl eq_refl eq_refl eq_refl).
Defined.

(** ** PreloadTextures *)

Section Preload.

Variable disk : Z -> option Z.
Variables (max_mem : Z) (stop_run : Z -> bool) (callback flip_png : bool) (total : Z).

Local Abbreviation loop := (preload_loop disk max_mem stop_run callback flip_png total).
Local Abbreviation sz := (loaded_size disk flip_png).
Local Abbreviation sum := (sum_loaded disk flip_png).

Lemma preload_loop_over_budget mm size_sum preloaded :
  max_mem < size_sum -> loop mm size_sum preloaded = (mm, []).
Proof.
  intros H. destruct mm as [|[hash m] mm]; simpl; [reflexivity |].
  apply Z.ltb_lt in H. now rewrite H.
Qed.

Lemma sum_loaded_nonneg mm :
  Forall (fun km => 0 <= sz km) mm -> 0 <= sum mm.
Proof.
  induction 1 as [|km mm Hkm _ IH]; simpl; lia.
Qed.

(** The loop loads every material up to and including the first one that
    takes the sum over the budget, and nothing after it. *)
Lemma preload_loop_crossing pre km post size_sum preloaded :
  Forall (fun km => 0 <= sz km) (pre ++ [km]) ->
  0 <= size_sum ->
  size_sum + sum pre <= max_mem < size_sum + sum pre + sz km ->
  size_sum + sum pre + sz km < 2 ^ 64 ->
  (forall n, stop_run n = false) ->
  (loop (pre ++ km :: post) size_sum preloaded).1
  = load_all disk flip_png (pre ++ [km]) ++ post.
Proof.
  intros Hnn Hs Hcross Hfit Hrun. revert size_sum preloaded Hs Hcross Hfit.
  induction pre as [|[h0 m0] pre IH]; intros size_sum preloaded Hs Hcross Hfit.
  - destruct km as [hash m]. simpl in *.
    unfold loaded_size in *. simpl in *.
    apply Forall_inv in Hnn. simpl in Hnn.
    destruct (max_mem <? size_sum) eqn:E; [apply Z.ltb_lt in E; lia |].
    rewrite Hrun.
    pose proof (preload_loop_over_budget post
                  (wrap64 (size_sum + size (LoadFromDisk disk flip_png hash m)))
                  (preloaded + 1)) as Hover.
    rewrite Hover; [reflexivity |].
    unfold wrap64. rewrite Z.mod_small by lia. lia.
  - inversion Hnn as [|? ? H0 Hnn']; subst.
    pose proof (sum_loaded_nonneg pre) as Hpre.
    assert (0 <= sum pre) as Hsum.
    { apply Hpre. apply Forall_app in Hnn'. tauto. }
    specialize (IH Hnn'). simpl in *.
    unfold loaded_size in *. simpl in *.
    destruct (max_mem <? size_sum) eqn:E; [apply Z.ltb_lt in E; lia |].
    rewrite Hrun.
    unfold wrap64 at 1. rewrite Z.mod_small by lia.
    specialize (IH (size_sum + size (LoadFromDisk disk flip_png h0 m0))
                  (preloaded + 1)).
    destruct (preload_loop _ _ _ _ _ _ _ _ _) as [rest' evs]. simpl in *.
    rewrite IH by lia. reflexivity.
Qed.

(** A budget below the sum of the sizes is crossed by some material. *)
Lemma crossing_material_exists mm base :
  Forall (fun km => 0 <= sz km) mm ->
  base <= max_mem < base + sum mm ->
  exists pre km post,
    mm = pre ++ km :: post
    /\ base + sum pre <= max_mem < base + sum pre + sz km.
Proof.
  intros Hnn. revert base. induction Hnn as [|km mm Hkm Hnn IH]; intros base Hb.
  - simpl in Hb. lia.
  - destruct (Z_lt_dec max_mem (base + sz km)) as [Hlt | Hge].
    + exists [], km, mm. simpl. split; [reflexivity | lia].
    + destruct (IH (base + sz km)) as (pre & km' & post & -> & Hc).
      { simpl in *. lia. }
      exists (km :: pre), km', post. simpl in *.
      split; [reflexivity | lia].
Qed.

End Preload.

Lemma sum_loaded_app disk flip_png a b :
  sum_loaded disk flip_png (a ++ b)
  = sum_loaded disk flip_png a + sum_loaded disk flip_png b.
Proof.
  induction a as [|km a IH]; simpl; [reflexivity |]. rewrite IH. lia.
Qed.

Lemma preload_max_mem_nonneg sys_mem : 0 <= sys_mem -> 0 <= preload_max_mem sys_mem.
Proof.
  intros H. unfold preload_max_mem, recommended_min_mem.
  destruct (sys_mem / 2 <? 2 * (1024 * 1024 * 1024)) eqn:E.
  - apply Z.div_pos; lia.
  - apply Z.ltb_ge in E.
    assert (sys_mem / 2 <= sys_mem) by (apply Z.div_le_upper_bound; lia). lia.
Qed.

(** C2 (as amended). When the budget is smaller than the sum of the sizes
    of all materials, [PreloadTextures] (worker pool idle, no cancellation,
    sum of sizes below 2^64) loads the materials in iteration order up to
    and including the first one whose load takes the running sum over the
    budget, and stops strictly before the next: every material after that
    one is left as it was. *)
Theorem PreloadTextures_stops_after_crossing :
  forall disk sys_mem stop_run callback s,
    0 <= sys_mem ->
    workers s = Some [] ->
    (forall n, stop_run n = false) ->
    Forall (fun km => 0 <= loaded_size disk (flip_png_files s) km) (material_map s) ->
    sum_loaded disk (flip_png_files s) (material_map s) < 2 ^ 64 ->
    preload_max_mem sys_mem < sum_loaded disk (flip_png_files s) (material_map s) ->
    exists pre km post s',
      material_map s = pre ++ km :: post
      /\ sum_loaded disk (flip_png_files s) pre <= preload_max_mem sys_mem
      /\ preload_max_mem sys_mem
         < sum_loaded disk (flip_png_files s) pre
           + loaded_size disk (flip_png_files s) km
      /\ PreloadTextures disk sys_mem stop_run callback s = Some s'
      /\ material_map s'
         = load_all disk (flip_png_files s) (pre ++ [km]) ++ post
      /\ async_custom_loading s' = false.
Proof.
  intros disk sys_mem stop_run callback s Hmem Hw Hrun Hnn Hfit Hbudget.
  pose proof (preload_max_mem_nonneg _ Hmem) as Hmax.
  destruct (crossing_material_exists disk (preload_max_mem sys_mem)
              (flip_png_files s) (material_map s) 0 Hnn)
    as (pre & km & post & Hsplit & Hcross); [lia |].
  rewrite !Z.add_0_l in Hcross.
  exists pre, km, post.
  unfold PreloadTextures, queue_preload. rewrite Hw. simpl.
  eexists. repeat split; try reflexivity; try lia; try exact Hsplit.
  unfold WaitForRequests. simpl.
  assert (Hnn' : Forall (fun km => 0 <= loaded_size disk (flip_png_files s) km)
                   (pre ++ [km])).
  { rewrite Hsplit in Hnn. apply Forall_app in Hnn as [Hp Hk].
    apply Forall_app. split; [exact Hp |]. constructor; [| constructor].
    now apply Forall_inv in Hk. }
  assert (Hpost : 0 <= sum_loaded disk (flip_png_files s) post).
  { apply sum_loaded_nonneg. rewrite Hsplit in Hnn.
    apply Forall_app in Hnn as [_ Hk]. now apply Forall_inv_tail in Hk. }
  assert (Hsum : sum_loaded disk (flip_png_files s) (material_map s)
                 = sum_loaded disk (flip_png_files s) pre
                   + (loaded_size disk (flip_png_files s) km
                      + sum_loaded disk (flip_png_files s) post)).
  { rewrite Hsplit, sum_loaded_app. reflexivity. }
  pose proof (preload_loop_crossing disk (preload_max_mem sys_mem) stop_run
                callback (flip_png_files s)
                (Z.of_nat (length (custom_textures s)))
                pre km post 0 0 Hnn') as Hloop.
  rewrite Hsplit.
  destruct (preload_loop _ _ _ _ _ _ _ _ _) as [mm' evs]. simpl in *.
  apply Hloop; try lia. exact Hrun.
Qed.

Lemma PreloadTextures_stops_after_crossing_witness :
  let disk := fun _ : Z => Some 6 in
  let s := manager_with (materials_in DecodeState.Unloaded 0 3) [] in
  preload_max_mem 20 < sum_loaded disk (flip_png_files s) (material_map s)
  /\ exists pre km post s',
       material_map s = pre ++ km :: post
       /\ sum_loaded disk (flip_png_files s) pre <= preload_max_mem 20
       /\ preload_max_mem 20
          < sum_loaded disk (flip_png_files s) pre
            + loaded_size disk (flip_png_files s) km
       /\ PreloadTextures disk 20 (fun _ => false) true s = Some s'
       /\ material_map s'
          = load_all disk (flip_png_files s) (pre ++ [km]) ++ post
       /\ async_custom_loading s' = false.
Proof.
  intros disk s. split; [reflexivity |].
  apply (PreloadTextures_stops_after_crossing disk 20 (fun _ => false) true s).
  - lia.
  - reflexivity.
  - reflexivity.
  - repeat constructor; vm_compute; discriminate.
  - reflexivity.
  - reflexivity.
Defined.

(** The material whose load takes the sum over the budget is loaded: with
    a budget of 10 bytes and three unloaded materials of 6 bytes each, the
    second load takes the sum from 6 to 12, and that material is [Decoded]
    when [PreloadTextures] returns; only the third is left [Unloaded]. *)
Lemma PreloadTextures_loads_crossing_material :
  let disk := fun _ : Z => Some 6 in
  let s := manager_with (materials_in DecodeState.Unloaded 0 3) [] in
  preload_max_mem 20 = 10
  /\ sum_loaded disk (flip_png_files s) (material_map s) = 18
  /\ sum_loaded disk (flip_png_files s) (take 1 (material_map s)) = 6
  /\ sum_loaded disk (flip_png_files s) (take 2 (material_map s)) = 12
  /\ material_state (material_map s) 1 = Some DecodeState.Unloaded
  /\ (material_map <$> PreloadTextures disk 20 (fun _ => false) true s)
     = Some [(0, mkMaterial DecodeState.Decoded 6);
             (1, mkMaterial DecodeState.Decoded 6);
             (2, mkMaterial DecodeState.Unloaded 0)]
  /\ (events <$> PreloadTextures disk 20 (fun _ => false) true s)
     = Some [EvCallback 0 0; EvCallback 1 0].
Proof. vm_compute. repeat split. Qed.

(** ** ReadConfig *)

Section ReadConfigFacts.

Variable GetFilename : string -> string.

Lemma ReadConfig_not_open s :
  ReadConfig GetFilename FileNotOpen s = Returned tt (set_refuse_dds true s).
Proof. reflexivity. Qed.

Lemma parse_override_options hash file s :
  refuse_dds (parse_override GetFilename hash file s) = refuse_dds s
  /\ skip_mipmap (parse_override GetFilename hash file s) = skip_mipmap s
  /\ use_new_hash (parse_override GetFilename hash file s) = use_new_hash s.
Proof.
  unfold parse_override. now destruct (path_to_hash_map s !! GetFilename file).
Qed.

Lemma parse_overrides_options hash files s :
  refuse_dds (parse_overrides GetFilename hash files s) = refuse_dds s
  /\ skip_mipmap (parse_overrides GetFilename hash files s) = skip_mipmap s
  /\ use_new_hash (parse_overrides GetFilename hash files s) = use_new_hash s.
Proof.
  unfold parse_overrides. revert s.
  induction files as [|f files IH]; intros s; simpl; [auto |].
  destruct (IH (parse_override GetFilename hash f s)) as (-> & -> & ->).
  apply parse_override_options.
Qed.

(** The loop over the textures leaves the options alone. *)
Lemma read_textures_options items s :
  let s' := result_state (read_textures GetFilename items s) in
  refuse_dds s' = refuse_dds s
  /\ skip_mipmap s' = skip_mipmap s
  /\ use_new_hash s' = use_new_hash s.
Proof.
  revert s. induction items as [|[key value] items IH]; intros s; simpl.
  - auto.
  - unfold bind, try_.
    destruct (stoull16 key) as [e | [hash idx]]; [simpl; auto |].
    destruct (idx =? 0); [apply IH |].
    destruct value as [| b | n | file | elems | members]; simpl;
      try apply IH.
    + destruct (IH (parse_override GetFilename hash file s)) as (-> & -> & ->).
      apply parse_override_options.
    + destruct (json_get_strings elems) as [e | files]; [simpl; auto |].
      unfold modify.
      destruct (IH (parse_overrides GetFilename hash files s)) as (-> & -> & ->).
      apply parse_overrides_options.
Qed.

(** The parts of C3 the code does: a descriptor that is read and parsed
    sets [refuse_dds] to [skip_mipmap || !use_new_hash], also when a later
    textures member makes it throw. *)
Lemma ReadConfig_descriptor_refuse_dds skip flip new_hash textures s :
  refuse_dds (result_state
                (ReadConfig GetFilename (descriptor skip flip new_hash textures) s))
  = skip || negb new_hash.
Proof.
  unfold ReadConfig, descriptor. unfold bind at 1 2. simpl.
  unfold read_option. unfold bind, try_, modify. simpl.
  now destruct (read_textures_options textures
                  (set_refuse_dds (skip || negb new_hash)
                     (set_options skip flip new_hash (refuse_dds s)
                        (set_options skip flip (use_new_hash s) (refuse_dds s)
                           (set_options skip (flip_png_files s)
                              (use_new_hash s) (refuse_dds s) s)))))
    as (-> & _).
Qed.

(** A duplicate bare file name does not replace the hash stored first. *)
Lemma parse_override_first_wins hash file s first :
  path_to_hash_map s !! GetFilename file = Some first ->
  parse_override GetFilename hash file s = s.
Proof. intros H. unfold parse_override. now rewrite H. Qed.

Lemma parse_override_new hash file s :
  path_to_hash_map s !! GetFilename file = None ->
  path_to_hash_map (parse_override GetFilename hash file s) !! GetFilename file
  = Some hash.
Proof.
  intros H. unfold parse_override. rewrite H. simpl. apply lookup_insert_eq.
Qed.

(** A member whose value is neither a string nor an array is passed
    over. *)
Lemma read_textures_skips_other_values key hash idx value rest s :
  stoull16 key = inr (hash, idx) ->
  match value with JString _ | JArray _ => False | _ => True end ->
  read_textures GetFilename ((key, value) :: rest) s
  = read_textures GetFilename rest s.
Proof.
  intros Hkey Hv. simpl. unfold bind, try_. rewrite Hkey.
  destruct (idx =? 0); [reflexivity |].
  destruct value; try contradiction; reflexivity.
Qed.

(** A key that is not a hexadecimal number makes [std::stoull] throw: the
    loop is left at once, the test of [idx] is never reached with 0. *)
Lemma read_textures_invalid_key key value rest s e :
  stoull16 key = inl e ->
  read_textures GetFilename ((key, value) :: rest) s = Threw e s.
Proof. intros H. simpl. unfold bind, try_. now rewrite H. Qed.

Lemma stoull16_idx_positive key hash idx :
  stoull16 key = inr (hash, idx) -> idx <> 0.
Proof.
  unfold stoull16.
  destruct (scan_sign (skip_space key)) as [neg s2] eqn:Es.
  set (s3 := match hex_prefix s2 with
             | Some r => if starts_with_xdigit r then r else s2
             | None => s2
             end).
  destruct (take_digits xdigit_value s3) as [ds rest] eqn:Et.
  destruct ds as [|d ds]; [discriminate |].
  destruct (U64_MAX <? _); [discriminate |].
  intros [= _ <-].
  assert (L1 : forall s, (String.length (skip_space s) <= String.length s)%nat).
  { intros s. induction s as [|c s IH]; simpl; [lia |].
    destruct (isspace c); simpl; lia. }
  assert (L2 : (String.length s2 <= String.length (skip_space key))%nat).
  { unfold scan_sign in Es.
    destruct (skip_space key) as [|c r]; [now inversion Es |].
    repeat case_match; simplify_eq; simpl; lia. }
  assert (L3 : (String.length s3 <= String.length s2)%nat).
  { subst s3. destruct (hex_prefix s2) as [r|] eqn:Eh; [| lia].
    destruct (starts_with_xdigit r); [| lia].
    apply hex_prefix_Some in Eh as [-> | ->]; simpl; lia. }
  assert (L4 : forall s ds' rest',
             take_digits xdigit_value s = (ds', rest') ->
             (String.length rest' + length ds' = String.length s)%nat).
  { intros s. induction s as [|c s IH]; simpl; intros ds' rest'.
    - intros [= <- <-]. reflexivity.
    - destruct (xdigit_value c); [| intros [= <- <-]; simpl; lia].
      destruct (take_digits xdigit_value s) as [ds0 rest0].
      intros [= <- <-]. specialize (IH _ _ eq_refl). simpl. lia. }
  apply L4 in Et. specialize (L1 key). simpl in Et. lia.
Qed.

End ReadConfigFacts.

(** C3 (at the failing input). When the descriptor opens but [ReadBytes]
    returns 0, [ReadConfig] returns at once and leaves the manager as it
    was: [refuse_dds] keeps the value it had, [false] on a manager that did
    not refuse DDS, where the specification wants [true]. *)
Theorem ReadConfig_no_bytes_keeps_refuse_dds :
  forall GetFilename,
    (forall s, ReadConfig GetFilename FileNoBytes s = Returned tt s)
    /\ refuse_dds manager0 = false
    /\ ReadConfig GetFilename FileNoBytes manager0 = Returned tt manager0.
Proof. intros GetFilename. repeat split. Qed.

(** C7 (at the failing input). A textures member whose key is not a
    hexadecimal number is not skipped: [std::stoull] throws
    [std::invalid_argument], [ReadConfig] does not return, and the members
    after it are not applied (the override table holds the first member
    only). *)
Theorem ReadConfig_invalid_key_throws :
  forall GetFilename,
    exists s',
      ReadConfig GetFilename descriptor_with_invalid_key manager0
      = Threw invalid_argument s'
      /\ path_to_hash_map s' = {[ GetFilename "a.png" := 171 ]}.
Proof.
  intros GetFilename. eexists. split.
  - unfold ReadConfig, descriptor_with_invalid_key, descriptor.
    unfold bind at 1 2. simpl.
    unfold read_option. unfold bind, try_, modify. simpl. reflexivity.
  - unfold parse_override. simpl. rewrite lookup_empty. simpl.
    apply insert_empty.
Qed.

(** ** DumpTexture *)

Lemma IsPow2_spec v :
  0 <= v < 2 ^ 32 -> IsPow2 v = true <-> power_of_two v.
Proof.
  intros Hv. unfold IsPow2, power_of_two, wrap32. split.
  - intros [Hnz Hland]%andb_true_iff.
    apply negb_true_iff, Z.eqb_neq in Hnz. apply Z.eqb_eq in Hland.
    rewrite Z.mod_small in Hland by lia.
    exists (Z.log2 v). split; [apply Z.log2_nonneg |].
    destruct (Z.log2_spec v) as [Hlo Hhi]; [lia |].
    destruct (Z.eq_dec v (2 ^ Z.log2 v)) as [-> | Hne].
    { now rewrite Z.log2_pow2 by apply Z.log2_nonneg. }
    exfalso.
    assert (Hlog : Z.log2 (v - 1) = Z.log2 v).
    { apply Z.log2_unique; [apply Z.log2_nonneg |].
      replace (Z.succ (Z.log2 v)) with (Z.log2 v + 1) in * by lia. lia. }
    assert (Hbit : Z.testbit (Z.land v (v - 1)) (Z.log2 v) = true).
    { assert (0 < 2 ^ Z.log2 v)
        by (apply Z.pow_pos_nonneg; [lia | apply Z.log2_nonneg]).
      rewrite Z.land_spec. rewrite (Z.bit_log2 v) by lia.
      rewrite <- Hlog. rewrite (Z.bit_log2 (v - 1)) by lia. reflexivity. }
    rewrite Hland, Z.bits_0 in Hbit. discriminate.
  - intros (k & Hk & ->).
    assert (0 < 2 ^ k) by (apply Z.pow_pos_nonneg; lia).
    apply andb_true_iff. split.
    + apply negb_true_iff, Z.eqb_neq. lia.
    + apply Z.eqb_eq. rewrite Z.mod_small by lia.
      replace (2 ^ k - 1) with (Z.ones k) by (rewrite Z.ones_equiv; lia).
      rewrite Z.land_ones by lia. apply Z.mod_same. lia.
Qed.

Lemma count_jobs_app p q1 q2 :
  count_jobs p (q1 ++ q2) = (count_jobs p q1 + count_jobs p q2)%nat.
Proof. induction q1 as [|j q1 IH]; simpl; [reflexivity | rewrite IH; lia]. Qed.

(** A call either changes nothing, or queues one encode job and records the
    hash. *)
Lemma DumpTexture_cases env params level data hash s :
  DumpTexture env params level data hash s = s
  \/ ((hash ∉ dumped_textures s)
      /\ (hash ∈ dumped_textures (DumpTexture env params level data hash s))
      /\ dump_jobs (DumpTexture env params level data hash s) = S (dump_jobs s)).
Proof.
  unfold DumpTexture.
  destruct (negb (CreateFullPath env (dump_dir env))); [now left |].
  destruct (bool_decide (hash ∈ dumped_textures s)) eqn:Ein; [now left |].
  apply bool_decide_eq_false in Ein. simpl orb.
  destruct (Exists env _); [now left |].
  destruct (negb (IsPow2 (width params)) || negb (IsPow2 (height params)));
    [now left |].
  right. split; [exact Ein |]. split.
  - simpl. set_solver.
  - unfold dump_jobs. simpl. rewrite count_jobs_app. simpl. lia.
Qed.

Lemma DumpTexture_already_dumped env params level data hash s :
  hash ∈ dumped_textures s -> DumpTexture env params level data hash s = s.
Proof.
  intros Hin. unfold DumpTexture.
  destruct (negb (CreateFullPath env (dump_dir env))); [reflexivity |].
  now rewrite (bool_decide_eq_true_2 _ Hin).
Qed.

(** C8. Two calls of [DumpTexture] with the same hash queue at most one
    encode job between them (a call for a hash already in
    [dumped_textures] changes nothing); and a call whose width or height is
    not an exact power of two changes nothing: no job is queued, so no file
    is written for it. *)
Theorem DumpTexture_once_and_pow2_only :
  (forall env1 env2 params1 params2 level1 level2 data1 data2 hash s,
      (dump_jobs
         (DumpTexture env2 params2 level2 data2 hash
            (DumpTexture env1 params1 level1 data1 hash s))
       <= dump_jobs s + 1)%nat)
  /\ (forall env params level data hash s,
         hash ∈ dumped_textures s ->
         DumpTexture env params level data hash s = s)
  /\ (forall env params level data hash s,
         0 <= width params < 2 ^ 32 -> 0 <= height params < 2 ^ 32 ->
         ~ power_of_two (width params) \/ ~ power_of_two (height params) ->
         DumpTexture env params level data hash s = s).
Proof.
  split; [| split].
  - intros env1 env2 params1 params2 level1 level2 data1 data2 hash s.
    destruct (DumpTexture_cases env1 params1 level1 data1 hash s)
      as [-> | (_ & Hin & Hjobs)].
    + destruct (DumpTexture_cases env2 params2 level2 data2 hash s)
        as [-> | (_ & _ & ->)]; lia.
    + rewrite (DumpTexture_already_dumped _ _ _ _ _ _ Hin). lia.
  - intros. now apply DumpTexture_already_dumped.
  - intros env params level data hash s Hw Hh Hnot. unfold DumpTexture.
    destruct (negb (CreateFullPath env (dump_dir env))); [reflexivity |].
    destruct (bool_decide (hash ∈ dumped_textures s) || Exists env _);
      [reflexivity |].
    destruct (IsPow2 (width params)) eqn:Ew;
      destruct (IsPow2 (height params)) eqn:Eh; try reflexivity.
    apply (IsPow2_spec _ Hw) in Ew. apply (IsPow2_spec _ Hh) in Eh. tauto.
Qed.

Lemma DumpTexture_once_and_pow2_only_witness :
  let env := mkDumpEnv 1 "/dump/" (fun _ => "4"%string) (fun _ => true)
               (fun _ => false) in
  (~ power_of_two 100 \/ ~ power_of_two 64)
  /\ DumpTexture env (mkSurfaceParams 100 64 4) 0 [] 255 manager0 = manager0
  /\ dump_jobs
       (DumpTexture env (mkSurfaceParams 64 64 4) 0 [] 255
          (DumpTexture env (mkSurfaceParams 64 64 4) 0 [] 255 manager0)) = 1%nat.
Proof.
  intros env.
  assert (Hnot : ~ power_of_two 100).
  { intros Hp. apply (IsPow2_spec 100) in Hp; [discriminate Hp | lia]. }
  destruct DumpTexture_once_and_pow2_only as (_ & Hdumped & Hpow2).
  split; [now left |]. split.
  - apply Hpow2; simpl; [lia | lia | now left].
  - rewrite Hdumped; [reflexivity |].
    vm_compute. reflexivity.
Defined.

(** ** The decode state machine *)

Lemma state_advances_refl st : state_advances st st.
Proof. now destruct st. Qed.

Lemma state_advances_trans st1 st2 st3 :
  state_advances st1 st2 -> state_advances st2 st3 -> state_advances st1 st3.
Proof. now destruct st1, st2, st3. Qed.

Lemma LoadFromDisk_advances disk flip_png hash m :
  state_advances (state m) (state (LoadFromDisk disk flip_png hash m)).
Proof.
  unfold LoadFromDisk. destruct m as [[] sz]; simpl; try exact I;
    now destruct (disk hash).
Qed.

Lemma materials_advance_refl mm : materials_advance mm mm.
Proof.
  intros hash. destruct (find_material hash mm) as [m|] eqn:E; [| reflexivity].
  exists m. split; [reflexivity | apply state_advances_refl].
Qed.

Lemma materials_advance_trans mm1 mm2 mm3 :
  materials_advance mm1 mm2 -> materials_advance mm2 mm3 ->
  materials_advance mm1 mm3.
Proof.
  intros H12 H23 hash. specialize (H12 hash). specialize (H23 hash).
  destruct (find_material hash mm1) as [m1|].
  - destruct H12 as (m2 & E2 & A12). rewrite E2 in H23.
    destruct H23 as (m3 & E3 & A23). exists m3. split; [exact E3 |].
    now apply (state_advances_trans _ (state m2)).
  - now rewrite H12 in H23.
Qed.

Lemma materials_advance_update hash0 f mm :
  (forall m, find_material hash0 mm = Some m ->
             state_advances (state m) (state (f m))) ->
  materials_advance mm (update_material hash0 f mm).
Proof.
  intros Hf hash. destruct (Z.eq_dec hash hash0) as [-> | Hne].
  - rewrite find_update_material_eq.
    destruct (find_material hash0 mm) as [m|]; [| reflexivity].
    exists (f m). split; [reflexivity | now apply Hf].
  - rewrite find_update_material_ne by exact Hne.
    destruct (find_material hash mm) as [m|]; [| reflexivity].
    exists m. split; [reflexivity | apply state_advances_refl].
Qed.

(** The preload job loads a material of the cache or leaves it alone. *)
Lemma preload_loop_find disk max_mem stop_run callback flip_png total mm
    size_sum preloaded hash :
  exists loaded : bool,
    find_material hash
      (preload_loop disk max_mem stop_run callback flip_png total mm
         size_sum preloaded).1
    = (if loaded then LoadFromDisk disk flip_png hash else id)
        <$> find_material hash mm.
Proof.
  revert size_sum preloaded.
  induction mm as [|[h m] mm IH]; intros size_sum preloaded.
  - exists false. reflexivity.
  - simpl preload_loop. destruct (max_mem <? size_sum).
    { exists false. simpl. now destruct (if h =? hash then _ else _). }
    destruct (stop_run preloaded).
    { exists false. simpl. now destruct (if h =? hash then _ else _). }
    specialize (IH (wrap64 (size_sum + size (LoadFromDisk disk flip_png h m)))
                  (preloaded + 1)).
    destruct (preload_loop _ _ _ _ _ _ mm _ _) as [rest' evs].
    simpl in *. destruct (h =? hash) eqn:E.
    + apply Z.eqb_eq in E. subst h. exists true. reflexivity.
    + exact IH.
Qed.

Lemma preload_loop_advances disk max_mem stop_run callback flip_png total mm
    size_sum preloaded :
  materials_advance mm
    (preload_loop disk max_mem stop_run callback flip_png total mm
       size_sum preloaded).1.
Proof.
  intros hash.
  destruct (preload_loop_find disk max_mem stop_run callback flip_png total mm
              size_sum preloaded hash) as [loaded ->].
  destruct (find_material hash mm) as [m|]; [| reflexivity]. simpl.
  eexists. split; [reflexivity |].
  destruct loaded; [apply LoadFromDisk_advances | apply state_advances_refl].
Qed.

Lemma TickFrame_keeps s :
  material_map (TickFrame s) = material_map s
  /\ workers (TickFrame s) = workers s.
Proof.
  unfold TickFrame. destruct (negb (textures_loaded s)); [auto |].
  now destruct (TickFrame_loop (material_map s) (async_uploads s) 0).
Qed.

Lemma DumpTexture_keeps env params level data hash s :
  material_map (DumpTexture env params level data hash s) = material_map s
  /\ forall k, load_jobs k (DumpTexture env params level data hash s)
               = load_jobs k s.
Proof.
  unfold DumpTexture.
  repeat (match goal with |- context [if ?b then _ else _] => destruct b end;
          [auto |]).
  split; [reflexivity |]. intros k. unfold load_jobs. simpl.
  rewrite count_jobs_app. simpl. lia.
Qed.

Lemma run_job_workers disk j s : workers (run_job disk j s) = workers s.
Proof.
  destruct j; simpl; try reflexivity.
  now destruct (preload_loop _ _ _ _ _ _ _ _ _).
Qed.

Lemma run_job_advances disk j s :
  materials_advance (material_map s) (material_map (run_job disk j s)).
Proof.
  destruct j as [hash | max_mem stop_run callback | ]; simpl.
  - apply materials_advance_update. intros m _. apply LoadFromDisk_advances.
  - pose proof (preload_loop_advances disk max_mem stop_run callback
                  (flip_png_files s) (Z.of_nat (length (custom_textures s)))
                  (material_map s) 0 0) as H.
    now destruct (preload_loop _ _ _ _ _ _ _ _ _).
  - apply materials_advance_refl.
Qed.

(** No step takes a material out of the cache or moves its state back. *)
Lemma step_materials_advance disk s s' :
  step disk s s' -> materials_advance (material_map s) (material_map s').
Proof.
  intros Hstep. destruct Hstep as
    [material upload s b s' HD | s | env params level data hash s
     | sys_mem stop_run callback s s' HQ | s Hidle | s q1 j q2 Hw].
  - unfold Decode in HD.
    destruct (find_material material (material_map s)) as [m|] eqn:Ef;
      [| discriminate].
    destruct (negb (async_custom_loading s)).
    { injection HD as _ <-. simpl. apply materials_advance_update.
      intros m' _. apply LoadFromDisk_advances. }
    unfold IsUnloaded in HD. case_bool_decide as Hu.
    + destruct (workers s) as [q|]; [| discriminate].
      injection HD as _ <-. simpl. apply materials_advance_update.
      intros m' Hm'. rewrite Ef in Hm'. injection Hm' as <-. now rewrite Hu.
    + injection HD as _ <-. simpl. apply materials_advance_refl.
  - destruct (TickFrame_keeps s) as [-> _]. apply materials_advance_refl.
  - destruct (DumpTexture_keeps env params level data hash s) as [-> _].
    apply materials_advance_refl.
  - unfold queue_preload in HQ. destruct (workers s); [| discriminate].
    injection HQ as <-. apply materials_advance_refl.
  - apply materials_advance_refl.
  - apply (run_job_advances disk j (set_workers (Some (q1 ++ q2)) s)).
Qed.

(** A step queues a load job for a material only when it takes the
    material from [Unloaded] to [Pending]. *)
Lemma step_load_jobs disk s s' hash :
  step disk s s' ->
  (load_jobs hash s' <= load_jobs hash s + 1)%nat
  /\ ((load_jobs hash s < load_jobs hash s')%nat ->
      material_state (material_map s) hash = Some DecodeState.Unloaded
      /\ material_state (material_map s') hash = Some DecodeState.Pending).
Proof.
  intros Hstep. destruct Hstep as
    [material upload s b s' HD | s | env params level data k s
     | sys_mem stop_run callback s s' HQ | s Hidle | s q1 j q2 Hw].
  - unfold Decode in HD.
    destruct (find_material material (material_map s)) as [m|] eqn:Ef;
      [| discriminate].
    destruct (negb (async_custom_loading s)).
    { injection HD as _ <-. unfold load_jobs. simpl. lia. }
    unfold IsUnloaded in HD. case_bool_decide as Hu.
    + destruct (workers s) as [q|] eqn:Ew; [| discriminate].
      injection HD as _ <-. unfold load_jobs. simpl. rewrite Ew. simpl.
      rewrite count_jobs_app. simpl.
      destruct (material =? hash) eqn:E; [| lia].
      apply Z.eqb_eq in E. subst material. split; [lia |]. intros _.
      unfold material_state. rewrite find_update_material_eq, Ef. simpl.
      now rewrite Hu.
    + injection HD as _ <-. unfold load_jobs. simpl. lia.
  - unfold load_jobs. destruct (TickFrame_keeps s) as [_ ->]. lia.
  - destruct (DumpTexture_keeps env params level data k s) as [_ ->]. lia.
  - unfold queue_preload in HQ. destruct (workers s) as [q|] eqn:Ew;
      [| discriminate].
    injection HQ as <-. unfold load_jobs. rewrite Ew. simpl.
    rewrite count_jobs_app. simpl. lia.
  - unfold load_jobs. simpl. lia.
  - unfold load_jobs. rewrite run_job_workers, Hw. simpl.
    rewrite !count_jobs_app. simpl. lia.
Qed.

Lemma step_decode_gate disk s s' :
  decode_gate s -> step disk s s' -> decode_gate s'.
Proof.
  intros Hinv Hstep hash. destruct (Hinv hash) as [Hle Hone].
  destruct (step_load_jobs disk s s' hash Hstep) as [Hgrow Hgate].
  pose proof (step_materials_advance disk s s' Hstep hash) as Hadv.
  destruct (Nat.lt_ge_cases (load_jobs hash s) (load_jobs hash s')) as [Hlt | Hge].
  - destruct (Hgate Hlt) as [Hun Hpend].
    assert (load_jobs hash s = 0%nat) as Hzero.
    { destruct (Nat.eq_dec (load_jobs hash s) 1%nat) as [H1 | H1]; [| lia].
      destruct (Hone H1) as (st & Hst & Hne). congruence. }
    split; [lia |]. intros _. exists DecodeState.Pending. now split.
  - split; [lia |]. intros H1.
    destruct (Hone ltac:(lia)) as (st & Hst & Hne).
    unfold material_state in *.
    destruct (find_material hash (material_map s)) as [m|]; [| discriminate].
    destruct Hadv as (m' & -> & Hadv). simpl in *. injection Hst as <-.
    exists (state m'). split; [reflexivity |].
    intros E. rewrite E in Hadv. now destruct (state m).
Qed.

Lemma rtc_decode_gate disk s s' :
  decode_gate s -> rtc (step disk) s s' -> decode_gate s'.
Proof.
  intros Hinv Hrtc. induction Hrtc as [|s1 s2 s3 Hstep _ IH]; [exact Hinv |].
  apply IH. now apply (step_decode_gate disk s1).
Qed.

Lemma rtc_materials_advance disk s s' :
  rtc (step disk) s s' -> materials_advance (material_map s) (material_map s').
Proof.
  induction 1 as [|s1 s2 s3 Hstep _ IH]; [apply materials_advance_refl |].
  eapply materials_advance_trans; [| exact IH].
  now apply (step_materials_advance disk).
Qed.

(** *** [PreloadTextures] as a run of steps *)

Lemma set_workers_run_job disk j w s :
  set_workers w (run_job disk j s) = run_job disk j (set_workers w s).
Proof.
  destruct j; simpl; try reflexivity.
  now destruct (preload_loop _ _ _ _ _ _ _ _ _).
Qed.

Lemma set_workers_same s : set_workers (workers s) s = s.
Proof. now destruct s. Qed.

Lemma run_queue_steps disk q s :
  workers s = Some q ->
  rtc (step disk) s
    (fold_left (fun s j => run_job disk j s) q (set_workers (Some []) s))
  /\ workers (fold_left (fun s j => run_job disk j s) q (set_workers (Some []) s))
     = Some [].
Proof.
  revert s. induction q as [|j q IH]; intros s Hw; simpl.
  - split; [| reflexivity]. rewrite <- Hw, set_workers_same. apply rtc_refl.
  - pose proof (step_worker disk s [] j q Hw) as Hstep. simpl in Hstep.
    destruct (IH (run_job disk j (set_workers (Some q) s))) as [Hrtc Hidle].
    { now rewrite run_job_workers. }
    rewrite set_workers_run_job in Hrtc, Hidle. simpl in Hrtc, Hidle.
    split; [| exact Hidle]. eapply rtc_l; [exact Hstep | exact Hrtc].
Qed.

Lemma PreloadTextures_steps disk sys_mem stop_run callback s s' :
  PreloadTextures disk sys_mem stop_run callback s = Some s' ->
  rtc (step disk) s s'.
Proof.
  unfold PreloadTextures.
  destruct (queue_preload sys_mem stop_run callback s) as [s1|] eqn:EQ;
    [| discriminate].
  intros [= <-].
  eapply rtc_l; [exact (step_queue_preload disk _ _ _ _ _ EQ) |].
  unfold queue_preload in EQ. destruct (workers s) as [q|]; [| discriminate].
  injection EQ as <-. unfold WaitForRequests. simpl.
  destruct (run_queue_steps disk
              (q ++ [JobPreload (preload_max_mem sys_mem) stop_run callback])
              (set_workers
                 (Some (q ++ [JobPreload (preload_max_mem sys_mem) stop_run callback]))
                 s) eq_refl) as [Hrtc Hidle].
  simpl in Hrtc, Hidle.
  eapply rtc_r; [exact Hrtc |]. now apply step_preload_done.
Qed.

(** C5 (as amended). [Decoded] and [Failed] are terminal and no step takes
    a material back to [Pending]: [Pending] is entered from [Unloaded]
    only. A per-material load job is queued only by the step that takes the
    material from [Unloaded] to [Pending], so from a manager without load
    jobs at most one such job per material is ever waiting, whatever calls
    of [Decode], [TickFrame], [DumpTexture] and [PreloadTextures] and
    whatever worker runs follow. ([PreloadTextures] is itself a run of
    these steps; its own job is not gated.) *)
Theorem decode_gate_and_terminal_states :
  forall disk s0 s,
    (forall hash, load_jobs hash s0 = 0%nat) ->
    rtc (step disk) s0 s ->
    (forall hash, (load_jobs hash s <= 1)%nat)
    /\ (forall s' hash st,
           rtc (step disk) s s' ->
           material_state (material_map s) hash = Some st ->
           st = DecodeState.Decoded \/ st = DecodeState.Failed ->
           material_state (material_map s') hash = Some st)
    /\ (forall s' hash,
           step disk s s' ->
           material_state (material_map s') hash = Some DecodeState.Pending ->
           material_state (material_map s) hash = Some DecodeState.Pending
           \/ material_state (material_map s) hash = Some DecodeState.Unloaded)
    /\ (forall s' hash,
           step disk s s' ->
           (load_jobs hash s < load_jobs hash s')%nat ->
           material_state (material_map s) hash = Some DecodeState.Unloaded
           /\ material_state (material_map s') hash = Some DecodeState.Pending)
    /\ (forall sys_mem stop_run callback s',
           PreloadTextures disk sys_mem stop_run callback s = Some s' ->
           rtc (step disk) s s').
Proof.
  intros disk s0 s Hstart Hreach.
  split; [| split; [| split; [| split]]].
  - assert (decode_gate s0) as H0.
    { intros hash. rewrite Hstart. split; [lia | discriminate]. }
    apply (rtc_decode_gate disk s0 s H0 Hreach).
  - intros s' hash st Hrtc Hst Hterm.
    pose proof (rtc_materials_advance disk s s' Hrtc hash) as Hadv.
    unfold material_state in *.
    destruct (find_material hash (material_map s)) as [m|]; [| discriminate].
    destruct Hadv as (m' & -> & Hadv). simpl in *. injection Hst as <-.
    f_equal. destruct Hterm as [E | E]; rewrite E in Hadv;
      now destruct (state m').
  - intros s' hash Hstep Hpend.
    pose proof (step_materials_advance disk s s' Hstep hash) as Hadv.
    unfold material_state in *.
    destruct (find_material hash (material_map s)) as [m|].
    + destruct Hadv as (m' & E & Hadv). rewrite E in Hpend. simpl in *.
      injection Hpend as Hpend. rewrite Hpend in Hadv.
      destruct (state m); simpl in *; auto; contradiction.
    + rewrite Hadv in Hpend. discriminate.
  - intros s' hash Hstep. now apply (step_load_jobs disk s s' hash).
  - intros sys_mem stop_run callback s'. apply PreloadTextures_steps.
Qed.

Lemma decode_gate_and_terminal_states_witness :
  let disk := fun _ : Z => Some 4096 in
  let s0 := manager_with (materials_in DecodeState.Unloaded 7 1) [] in
  exists s,
    Decode disk 7 (mkUploadFn 1 true) s0 = Some (false, s)
    /\ load_jobs 7 s = 1%nat
    /\ forall hash, (load_jobs hash s <= 1)%nat.
Proof.
  intros disk s0.
  destruct (Decode disk 7 (mkUploadFn 1 true) s0) as [[b s]|] eqn:E;
    [| discriminate E].
  injection E as <- <-. eexists. split; [reflexivity |]. split; [reflexivity |].
  apply (decode_gate_and_terminal_states disk s0).
  - reflexivity.
  - apply rtc_once. now apply (step_Decode disk 7 (mkUploadFn 1 true) s0 false).
Defined.

(** The job of [PreloadTextures] is queued whatever the states of the
    materials are: after [Decode] has queued the load of a material, the
    preload job waits next to it, and both load that material. A worker
    that takes the preload job first decodes the material while the
    material's own load job is still waiting. *)
Lemma PreloadTextures_job_overlaps_load_job :
  let disk := fun _ : Z => Some 4096 in
  let s0 := manager_with (materials_in DecodeState.Unloaded 7 1) [] in
  exists s1 s2 s3,
    loads_in_flight 7 s0 = 0%nat
    /\ Decode disk 7 (mkUploadFn 1 true) s0 = Some (false, s1)
    /\ queue_preload 20 (fun _ => false) false s1 = Some s2
    /\ rtc (step disk) s0 s2
    /\ material_state (material_map s2) 7 = Some DecodeState.Pending
    /\ workers s2 = Some [JobLoad 7; JobPreload 10 (fun _ => false) false]
    /\ loads_in_flight 7 s2 = 2%nat
    /\ step disk s2 s3
    /\ workers s3 = Some [JobLoad 7]
    /\ material_state (material_map s3) 7 = Some DecodeState.Decoded.
Proof.
  intros disk s0. eexists. eexists. eexists.
  split; [reflexivity |]. split; [reflexivity |]. split; [reflexivity |].
  split.
  { eapply rtc_l; [now apply (step_Decode disk 7 (mkUploadFn 1 true) s0 false) |].
    apply rtc_once. now apply (step_queue_preload disk 20 (fun _ => false) false). }
  split; [reflexivity |]. split; [reflexivity |]. split; [reflexivity |].
  split.
  { apply (step_worker disk _ [JobLoad 7]
             (JobPreload 10 (fun _ => false) false) []). reflexivity. }
  split; reflexivity.
Qed.

(** * Further properties of the manager *)

(** ** ParseFilename: overrides, map types, rejections *)

(** What [ParseFilename] does with a name of the grammar, override or
    not. *)
Lemma ParseFilename_grammar_any s file base maptype ext :
  dot_free base -> (forall mt, maptype = Some mt -> dot_free mt) -> dot_free ext ->
  virtualName file = texture_filename base maptype ext ->
  ParseFilename s file =
  if bool_decide (MakeFileFormat ext = CustomFileFormat.None) then Rejected
  else if bool_decide (MakeFileFormat ext = CustomFileFormat.DDS) && refuse_dds s
  then Rejected
  else
    match path_to_hash_map s !! virtualName file with
    | Some hash =>
        Accepted (mkCustomTexture hash (MakeFileFormat ext) (maptype_of maptype)
                    (physicalName file))
    | None =>
        if scan_count (sscanf_tex1 base) =? 4
        then Accepted (mkCustomTexture (default 0 (scan_hash (sscanf_tex1 base)))
                         (MakeFileFormat ext) (maptype_of maptype)
                         (physicalName file))
        else Rejected
    end.
Proof.
  intros Hb Hm He Hname.
  destruct (path_to_hash_map s !! virtualName file) as [hash|] eqn:Hmap.
  - unfold ParseFilename.
    rewrite Hmap, Hname, (SplitString_texture_filename _ _ _ Hb Hm He).
    destruct maptype as [mt|]; simpl;
      destruct (bool_decide (MakeFileFormat ext = CustomFileFormat.None));
      try reflexivity;
      now destruct (bool_decide (MakeFileFormat ext = CustomFileFormat.DDS)
                    && refuse_dds s).
  - now apply ParseFilename_grammar.
Qed.

(** X1. An override for the file name decides the hash: a name of the
    grammar with a recognized extension is accepted under the hash of the
    override table, whatever its base name is; the base is not scanned. *)
Theorem ParseFilename_override_precedence :
  forall s file base maptype ext hash,
    dot_free base -> (forall mt, maptype = Some mt -> dot_free mt) ->
    recognized_extension s ext ->
    virtualName file = texture_filename base maptype ext ->
    path_to_hash_map s !! virtualName file = Some hash ->
    ParseFilename s file =
    Accepted (mkCustomTexture hash (MakeFileFormat ext) (maptype_of maptype)
                (physicalName file)).
Proof.
  intros s file base maptype ext hash Hb Hm Hext Hname Hmap.
  destruct (recognized_extension_format _ _ Hext) as (He & Hnone & Hdds).
  rewrite (ParseFilename_grammar_any s file base maptype ext Hb Hm He Hname).
  now rewrite Hnone, Hdds, Hmap.
Qed.

Lemma ParseFilename_override_precedence_witness :
  ParseFilename
    (set_path_to_hash_map {[ "tex1_8x8_AB_0.png"%string := 7 ]} manager0)
    (mkFSTEntry "tex1_8x8_AB_0.png" "/load/o") =
  Accepted (mkCustomTexture 7 CustomFileFormat.PNG MapType.Color "/load/o")
  /\ ParseFilename
       (set_path_to_hash_map {[ "grass.norm.ktx"%string := 9 ]} manager0)
       (mkFSTEntry "grass.norm.ktx" "/load/g") =
     Accepted (mkCustomTexture 9 CustomFileFormat.KTX MapType.Normal "/load/g").
Proof.
  split.
  - apply (ParseFilename_override_precedence
             (set_path_to_hash_map {[ "tex1_8x8_AB_0.png"%string := 7 ]} manager0)
             (mkFSTEntry "tex1_8x8_AB_0.png" "/load/o")
             "tex1_8x8_AB_0" None "png" 7)%string;
      try reflexivity; [intros mt [=] | now left].
  - apply (ParseFilename_override_precedence
             (set_path_to_hash_map {[ "grass.norm.ktx"%string := 9 ]} manager0)
             (mkFSTEntry "grass.norm.ktx" "/load/g")
             "grass" (Some "norm") "ktx" 9)%string;
      try reflexivity; [now intros mt [= <-] | right; now left].
Defined.

(** X2. The map type of an accepted name of the grammar is [Normal] exactly
    when the name has the segment [norm] in front of the extension; any
    other segment, and no segment, give [Color]. *)
Theorem ParseFilename_map_type :
  forall s file base maptype ext texture,
    dot_free base -> (forall mt, maptype = Some mt -> dot_free mt) ->
    dot_free ext ->
    virtualName file = texture_filename base maptype ext ->
    ParseFilename s file = Accepted texture ->
    (tex_type texture = MapType.Normal <-> maptype = Some "norm"%string)
    /\ (tex_type texture = MapType.Color <-> maptype <> Some "norm"%string).
Proof.
  intros s file base maptype ext texture Hb Hm He Hname Hacc.
  rewrite (ParseFilename_grammar_any s file base maptype ext Hb Hm He Hname)
    in Hacc.
  assert (tex_type texture = maptype_of maptype) as ->.
  { repeat case_match; simplify_eq; reflexivity. }
  destruct maptype as [mt|]; simpl.
  - unfold MakeMapType. destruct (String.eqb_spec mt "norm") as [-> | Hne].
    + split; split; intros; congruence.
    + split; split; intros; congruence.
  - split; split; intros; congruence.
Qed.

Lemma ParseFilename_map_type_witness :
  ParseFilename manager0 (mkFSTEntry "tex1_8x8_AB_0.spec.png" "/load/s")
  = Accepted (mkCustomTexture 171 CustomFileFormat.PNG MapType.Color "/load/s")
  /\ (tex_type (mkCustomTexture 171 CustomFileFormat.PNG MapType.Color "/load/s")
      = MapType.Color <-> Some "spec"%string <> Some "norm"%string).
Proof.
  assert (H : ParseFilename manager0
                (mkFSTEntry "tex1_8x8_AB_0.spec.png" "/load/s")
              = Accepted (mkCustomTexture 171 CustomFileFormat.PNG MapType.Color
                            "/load/s")) by (vm_compute; reflexivity).
  split; [exact H |].
  refine (proj2 (ParseFilename_map_type manager0
                   (mkFSTEntry "tex1_8x8_AB_0.spec.png" "/load/s")
                   "tex1_8x8_AB_0" (Some "spec"%string) "png"
                   (mkCustomTexture 171 CustomFileFormat.PNG MapType.Color "/load/s")
                   _ _ _ _ H)); try reflexivity.
  now intros mt [= <-].
Defined.

(** *** From the segments on *)

Lemma ParseFilename_from_parts s file :
  ParseFilename s file
  = ParseFilename_parts s file (SplitString (virtualName file) ".").
Proof. reflexivity. Qed.

Lemma MakeFileFormat_extension_format s ext :
  MakeFileFormat ext <> CustomFileFormat.None ->
  bool_decide (MakeFileFormat ext = CustomFileFormat.DDS) && refuse_dds s = false ->
  extension_format s ext (MakeFileFormat ext).
Proof.
  unfold MakeFileFormat, extension_format.
  destruct (String.eqb_spec ext "png") as [-> | _]; [now left |].
  destruct (String.eqb_spec ext "dds") as [-> | _].
  { intros _ H. right. right. now rewrite bool_decide_eq_true_2 in H. }
  destruct (String.eqb_spec ext "ktx") as [-> | _]; [right; now left |].
  congruence.
Qed.

Lemma extension_format_checks s ext format :
  extension_format s ext format ->
  MakeFileFormat ext = format
  /\ bool_decide (format = CustomFileFormat.None) = false
  /\ bool_decide (format = CustomFileFormat.DDS) && refuse_dds s = false.
Proof.
  intros [[-> ->] | [[-> ->] | (-> & -> & ->)]]; repeat split.
Qed.

(** What holds of the segments of every accepted file. *)
Lemma ParseFilename_parts_accepted s file parts texture :
  ParseFilename_parts s file parts = Accepted texture ->
  tex_path texture = physicalName file
  /\ (1 <= length parts <= 3)%nat
  /\ (exists ext,
         last parts = Some ext
         /\ extension_format s ext (tex_file_format texture))
  /\ (forall hash, path_to_hash_map s !! virtualName file = Some hash ->
                   tex_hash texture = hash)
  /\ (path_to_hash_map s !! virtualName file = None ->
      exists base,
        head parts = Some base
        /\ (2 <= length parts)%nat
        /\ scan_count (sscanf_tex1 base) = 4
        /\ tex_hash texture = default 0 (scan_hash (sscanf_tex1 base))).
Proof.
  unfold ParseFilename_parts.
  destruct (3 <? Z.of_nat (length parts)) eqn:Elen; [discriminate |].
  apply Z.ltb_ge in Elen.
  destruct parts as [|p0 [|p1 [|p2 [|p3 ps]]]];
    [discriminate | | | | simpl in Elen; lia]; simpl.
  - case_bool_decide as Hnone; [discriminate |].
    destruct (bool_decide (MakeFileFormat p0 = CustomFileFormat.DDS)
              && refuse_dds s) eqn:Edds; [discriminate |].
    destruct (path_to_hash_map s !! virtualName file) as [hash|];
      [| discriminate].
    intros [= <-]. simpl. split; [reflexivity |]. split; [lia |].
    split; [exists p0; split;
            [reflexivity | now apply MakeFileFormat_extension_format] |].
    split; [now intros h [= <-] | discriminate].
  - case_bool_decide as Hnone; [discriminate |].
    destruct (bool_decide (MakeFileFormat p1 = CustomFileFormat.DDS)
              && refuse_dds s) eqn:Edds; [discriminate |].
    destruct (path_to_hash_map s !! virtualName file) as [hash|].
    + intros [= <-]. simpl. split; [reflexivity |]. split; [lia |].
      split; [exists p1; split;
              [reflexivity | now apply MakeFileFormat_extension_format] |].
      split; [now intros h [= <-] | discriminate].
    + destruct (scan_count (sscanf_tex1 p0) =? 4) eqn:E4; [| discriminate].
      apply Z.eqb_eq in E4. intros [= <-]. simpl.
      split; [reflexivity |]. split; [lia |].
      split; [exists p1; split;
              [reflexivity | now apply MakeFileFormat_extension_format] |].
      split; [discriminate |]. intros _. exists p0. repeat split; [lia | exact E4].
  - case_bool_decide as Hnone; [discriminate |].
    destruct (bool_decide (MakeFileFormat p2 = CustomFileFormat.DDS)
              && refuse_dds s) eqn:Edds; [discriminate |].
    destruct (path_to_hash_map s !! virtualName file) as [hash|].
    + intros [= <-]. simpl. split; [reflexivity |]. split; [lia |].
      split; [exists p2; split;
              [reflexivity | now apply MakeFileFormat_extension_format] |].
      split; [now intros h [= <-] | discriminate].
    + destruct (scan_count (sscanf_tex1 p0) =? 4) eqn:E4; [| discriminate].
      apply Z.eqb_eq in E4. intros [= <-]. simpl.
      split; [reflexivity |]. split; [lia |].
      split; [exists p2; split;
              [reflexivity | now apply MakeFileFormat_extension_format] |].
      split; [discriminate |]. intros _. exists p0. repeat split; [lia | exact E4].
Qed.

(** X3. The count of the segments is checked first: a name of more than
    three segments is rejected whatever its segments are, also with a
    recognized extension and an override for the name. With a recognized
    extension as last segment and an override, the count is the only
    ground for rejection: a name of at most three segments is accepted
    under the hash of the override, in the format of its extension. *)
Theorem ParseFilename_too_many_segments :
  forall s file parts,
    ((3 < length parts)%nat -> ParseFilename_parts s file parts = Rejected)
    /\ (forall ext format hash,
           last parts = Some ext ->
           extension_format s ext format ->
           path_to_hash_map s !! virtualName file = Some hash ->
           (ParseFilename_parts s file parts = Rejected
            <-> (3 < length parts)%nat)
           /\ ((length parts <= 3)%nat ->
               exists type,
                 ParseFilename_parts s file parts
                 = Accepted (mkCustomTexture hash format type
                               (physicalName file)))).
Proof.
  intros s file parts.
  assert (Hmany : (3 < length parts)%nat ->
                  ParseFilename_parts s file parts = Rejected).
  { intros Hlen. unfold ParseFilename_parts.
    destruct (3 <? Z.of_nat (length parts)) eqn:E; [reflexivity |].
    apply Z.ltb_ge in E. lia. }
  split; [exact Hmany |].
  intros ext format hash Hlast Hext Hmap.
  destruct (extension_format_checks _ _ _ Hext) as (Hfmt & Hnone & Hdds).
  assert (Hfew : (length parts <= 3)%nat ->
                 exists type,
                   ParseFilename_parts s file parts
                   = Accepted (mkCustomTexture hash format type
                                 (physicalName file))).
  { intros Hlen. unfold ParseFilename_parts.
    destruct (3 <? Z.of_nat (length parts)) eqn:E;
      [apply Z.ltb_lt in E; lia |].
    rewrite Hlast, Hmap. simpl. rewrite Hfmt, Hnone, Hdds.
    destruct (if 1 <? _ then _ else _) as [type rest]. now exists type. }
  split; [| exact Hfew].
  split; [| exact Hmany].
  intros Hrej. destruct (Nat.lt_ge_cases 3 (length parts)) as [Hlt | Hge];
    [exact Hlt |].
  destruct (Hfew Hge) as [type Hacc]. congruence.
Qed.

Lemma ParseFilename_too_many_segments_witness :
  ParseFilename_parts
    (set_path_to_hash_map {[ "tex1_8x8_AB_0.a.norm.png"%string := 7 ]} manager0)
    (mkFSTEntry "tex1_8x8_AB_0.a.norm.png" "/load/t")
    ["tex1_8x8_AB_0"; "a"; "norm"; "png"]%string = Rejected
  /\ exists type,
       ParseFilename_parts
         (set_path_to_hash_map {[ "grass.norm.ktx"%string := 9 ]} manager0)
         (mkFSTEntry "grass.norm.ktx" "/load/g")
         ["grass"; "norm"; "ktx"]%string
       = Accepted (mkCustomTexture 9 CustomFileFormat.KTX type "/load/g").
Proof.
  split.
  - apply (proj1 (ParseFilename_too_many_segments
                    (set_path_to_hash_map
                       {[ "tex1_8x8_AB_0.a.norm.png"%string := 7 ]} manager0)
                    (mkFSTEntry "tex1_8x8_AB_0.a.norm.png" "/load/t")
                    ["tex1_8x8_AB_0"; "a"; "norm"; "png"]%string)).
    simpl. lia.
  - apply (proj2 (ParseFilename_too_many_segments
                    (set_path_to_hash_map
                       {[ "grass.norm.ktx"%string := 9 ]} manager0)
                    (mkFSTEntry "grass.norm.ktx" "/load/g")
                    ["grass"; "norm"; "ktx"]%string)
             "ktx"%string CustomFileFormat.KTX 9).
    + reflexivity.
    + right. left. now split.
    + reflexivity.
    + simpl. lia.
Defined.

(** X4. What an accepted file always has, in terms of the segments of its
    name: the physical name as its path; between one and three segments;
    one of the three extensions as last segment, with the format of that
    extension (PNG for png, KTX for ktx, DDS for dds) and never dds in a
    manager that refuses DDS; the hash of the override table whenever the
    table has the name; and otherwise at least two segments, the first of
    which [sscanf] read all four fields from, with the hash it read. *)
Theorem ParseFilename_accepted :
  forall s file parts texture,
    ParseFilename_parts s file parts = Accepted texture ->
    tex_path texture = physicalName file
    /\ (1 <= length parts <= 3)%nat
    /\ (exists ext,
           last parts = Some ext
           /\ extension_format s ext (tex_file_format texture))
    /\ (forall hash, path_to_hash_map s !! virtualName file = Some hash ->
                     tex_hash texture = hash)
    /\ (path_to_hash_map s !! virtualName file = None ->
        exists base,
          head parts = Some base
          /\ (2 <= length parts)%nat
          /\ scan_count (sscanf_tex1 base) = 4
          /\ tex_hash texture = default 0 (scan_hash (sscanf_tex1 base))).
Proof. exact ParseFilename_parts_accepted. Qed.

Lemma ParseFilename_accepted_witness :
  ParseFilename_parts manager0 (mkFSTEntry "tex1_8x8_AB_0.norm.ktx" "/l/a")
    ["tex1_8x8_AB_0"; "norm"; "ktx"]%string
  = Accepted (mkCustomTexture 171 CustomFileFormat.KTX MapType.Normal "/l/a")
  /\ exists ext,
       last ["tex1_8x8_AB_0"; "norm"; "ktx"]%string = Some ext
       /\ extension_format manager0 ext CustomFileFormat.KTX.
Proof.
  assert (H : ParseFilename_parts manager0
                (mkFSTEntry "tex1_8x8_AB_0.norm.ktx" "/l/a")
                ["tex1_8x8_AB_0"; "norm"; "ktx"]%string
              = Accepted (mkCustomTexture 171 CustomFileFormat.KTX MapType.Normal
                            "/l/a")) by (vm_compute; reflexivity).
  split; [exact H |].
  destruct (ParseFilename_accepted _ _ _ _ H) as (_ & _ & Hext & _).
  exact Hext.
Defined.

(** X5. [ParseFilename] runs into [back()] on an empty vector in two cases
    and no other: when the splitter returns no segment at all, and when
    it returns a single segment that is a recognized extension (png, ktx,
    or dds in a manager that does not refuse it) for a name without
    override. *)
Theorem ParseFilename_undefined_iff :
  forall s file parts,
    ParseFilename_parts s file parts = Undefined <->
    parts = []
    \/ (exists ext,
           parts = [ext]
           /\ recognized_extension s ext
           /\ path_to_hash_map s !! virtualName file = None).
Proof.
  intros s file parts. split.
  - unfold ParseFilename_parts.
    destruct (3 <? Z.of_nat (length parts)) eqn:E3; [discriminate |].
    apply Z.ltb_ge in E3.
    destruct parts as [|p0 [|p1 [|p2 [|p3 ps]]]];
      [now left | | | | simpl in E3; lia]; simpl.
    + case_bool_decide as Hnone; [discriminate |].
      destruct (bool_decide (MakeFileFormat p0 = CustomFileFormat.DDS)
                && refuse_dds s) eqn:Edds; [discriminate |].
      destruct (path_to_hash_map s !! virtualName file); [discriminate |].
      intros _. right. exists p0. split; [reflexivity |].
      split; [| reflexivity].
      pose proof (MakeFileFormat_extension_format s p0 Hnone Edds) as Hext.
      now destruct (extension_format_recognized _ _ _ Hext).
    + destruct (bool_decide _); [discriminate |].
      destruct (_ && _); [discriminate |].
      destruct (path_to_hash_map s !! virtualName file); [discriminate |].
      now destruct (negb _).
    + destruct (bool_decide _); [discriminate |].
      destruct (_ && _); [discriminate |].
      destruct (path_to_hash_map s !! virtualName file); [discriminate |].
      now destruct (negb _).
  - intros [-> | (ext & -> & Hext & Hmap)]; [reflexivity |].
    unfold ParseFilename_parts. simpl. rewrite Hmap.
    destruct (recognized_extension_format _ _ Hext) as (_ & -> & ->).
    reflexivity.
Qed.

(** ** ReadConfig: options and the override table *)

Section ReadConfigMore.

Variable GetFilename : string -> string.

Lemma parse_override_flip hash file s :
  flip_png_files (parse_override GetFilename hash file s) = flip_png_files s.
Proof.
  unfold parse_override. now destruct (path_to_hash_map s !! GetFilename file).
Qed.

Lemma parse_overrides_flip hash files s :
  flip_png_files (parse_overrides GetFilename hash files s) = flip_png_files s.
Proof.
  unfold parse_overrides. revert s.
  induction files as [|f files IH]; intros s; simpl; [reflexivity |].
  now rewrite IH, parse_override_flip.
Qed.

Lemma read_textures_flip items s :
  flip_png_files (result_state (read_textures GetFilename items s))
  = flip_png_files s.
Proof.
  revert s. induction items as [|[key value] items IH]; intros s; simpl;
    [reflexivity |].
  unfold bind, try_.
  destruct (stoull16 key) as [e | [hash idx]]; [reflexivity |].
  destruct (idx =? 0); [apply IH |].
  destruct value as [| b | n | file | elems | members]; simpl; try apply IH.
  - now rewrite IH, parse_override_flip.
  - destruct (json_get_strings elems) as [e | files]; [reflexivity |].
    unfold modify. now rewrite IH, parse_overrides_flip.
Qed.

(** The override table after [parse_override]. *)
Lemma parse_override_lookup hash file s name :
  path_to_hash_map (parse_override GetFilename hash file s) !! name =
  match path_to_hash_map s !! name with
  | Some h => Some h
  | None => if String.eqb (GetFilename file) name then Some hash else None
  end.
Proof.
  unfold parse_override.
  destruct (String.eqb_spec (GetFilename file) name) as [<- | Hne].
  - destruct (path_to_hash_map s !! GetFilename file) as [h|] eqn:E.
    + now rewrite E.
    + simpl. now rewrite lookup_insert_eq.
  - destruct (path_to_hash_map s !! GetFilename file) as [h|] eqn:E.
    + now destruct (path_to_hash_map s !! name).
    + simpl. rewrite lookup_insert_ne by exact Hne.
      now destruct (path_to_hash_map s !! name).
Qed.

Lemma parse_override_keeps hash file s name h :
  path_to_hash_map s !! name = Some h ->
  path_to_hash_map (parse_override GetFilename hash file s) !! name = Some h.
Proof. intros H. now rewrite parse_override_lookup, H. Qed.

Lemma parse_overrides_keeps hash files s name h :
  path_to_hash_map s !! name = Some h ->
  path_to_hash_map (parse_overrides GetFilename hash files s) !! name = Some h.
Proof.
  unfold parse_overrides. revert s.
  induction files as [|f files IH]; intros s H; simpl; [exact H |].
  apply IH. now apply parse_override_keeps.
Qed.

Lemma read_textures_keeps items s name h :
  path_to_hash_map s !! name = Some h ->
  path_to_hash_map (result_state (read_textures GetFilename items s)) !! name
  = Some h.
Proof.
  revert s. induction items as [|[key value] items IH]; intros s H; simpl;
    [exact H |].
  unfold bind, try_.
  destruct (stoull16 key) as [e | [hash idx]]; [exact H |].
  destruct (idx =? 0); [now apply IH |].
  destruct value as [| b | n | file | elems | members]; simpl;
    try (now apply IH).
  - apply IH. now apply parse_override_keeps.
  - destruct (json_get_strings elems) as [e | files]; [exact H |].
    unfold modify. apply IH. now apply parse_overrides_keeps.
Qed.

(** The state in which [ReadConfig] starts the loop over the textures,
    for any root object with the three options. *)
Lemma ReadConfig_options_unfold members options skip flip new_hash s :
  assoc_find "options" members = Some (JObject options) ->
  assoc_find "skip_mipmap" options = Some (JBool skip) ->
  assoc_find "flip_png_files" options = Some (JBool flip) ->
  assoc_find "use_new_hash" options = Some (JBool new_hash) ->
  ReadConfig GetFilename (FileBytes (Some (JObject members))) s =
  read_textures GetFilename
    (json_items (default JNull (assoc_find "textures" members)))
    (set_options skip flip new_hash (skip || negb new_hash) s).
Proof.
  intros Ho Hs Hf Hn. unfold ReadConfig. unfold bind at 1 2. simpl.
  rewrite Ho. simpl. unfold read_option. unfold bind, try_, modify. simpl.
  rewrite Hs. simpl. rewrite Hf. simpl. rewrite Hn. simpl.
  now destruct s.
Qed.

(** X6. A descriptor that is read and parsed, whatever members its root
    has besides the options, sets the three options to its values and
    [refuse_dds] to [skip_mipmap || !use_new_hash]; this is so when
    [ReadConfig] returns and when a textures member makes it throw. *)
Theorem ReadConfig_stores_options :
  forall root skip flip new_hash s,
    has_options root skip flip new_hash ->
    let s' := result_state (ReadConfig GetFilename (FileBytes (Some root)) s) in
    skip_mipmap s' = skip
    /\ flip_png_files s' = flip
    /\ use_new_hash s' = new_hash
    /\ refuse_dds s' = skip || negb new_hash.
Proof.
  intros root skip flip new_hash s (members & options & -> & Ho & Hs & Hf & Hn).
  rewrite (ReadConfig_options_unfold _ _ _ _ _ _ Ho Hs Hf Hn). simpl.
  destruct (read_textures_options GetFilename
              (json_items (default JNull (assoc_find "textures" members)))
              (set_options skip flip new_hash (skip || negb new_hash) s))
    as (-> & -> & ->).
  rewrite read_textures_flip. repeat split.
Qed.

(** X7. [ReadConfig] never changes or removes an override that is in the
    table: whatever the descriptor is, and whether [ReadConfig] returns or
    throws, a name that had a hash keeps it. *)
Theorem ReadConfig_keeps_overrides :
  forall file s name h,
    path_to_hash_map s !! name = Some h ->
    path_to_hash_map (result_state (ReadConfig GetFilename file s)) !! name
    = Some h.
Proof.
  intros file s name h H. destruct file as [| | [j|]]; simpl; try exact H.
  unfold bind, try_.
  destruct (json_index j "options") as [e | options]; [exact H |].
  unfold read_option, bind, try_.
  destruct (json_index_const options "skip_mipmap") as [e | v]; [exact H |].
  destruct (json_get_bool v) as [e | b1]; [exact H |]. simpl.
  destruct (json_index_const options "flip_png_files") as [e | v2]; [exact H |].
  destruct (json_get_bool v2) as [e | b2]; [exact H |]. simpl.
  destruct (json_index_const options "use_new_hash") as [e | v3]; [exact H |].
  destruct (json_get_bool v3) as [e | b3]; [exact H |]. simpl.
  destruct (json_index j "textures") as [e | textures]; [exact H |].
  now apply read_textures_keeps.
Qed.

(** The loop over string-valued members with valid keys returns, and the
    table it leaves is the old one with, for each new name, the hash of the
    first member that names it. *)
Lemma read_textures_first_wins members s :
  Forall (fun kf => exists h i, stoull16 kf.1 = inr (h, i)) members ->
  exists s',
    read_textures GetFilename (string_members members) s = Returned tt s'
    /\ forall name,
         path_to_hash_map s' !! name =
         match path_to_hash_map s !! name with
         | Some h => Some h
         | None => first_override GetFilename name members
         end.
Proof.
  intros Hvalid. revert s.
  induction Hvalid as [|[key file] members (h & i & Hkey) _ IH]; intros s.
  - exists s. split; [reflexivity |]. intros name.
    now destruct (path_to_hash_map s !! name).
  - simpl in Hkey. simpl. unfold bind, try_. rewrite Hkey.
    pose proof (stoull16_idx_positive key h i Hkey) as Hidx.
    apply Z.eqb_neq in Hidx. rewrite Hidx. simpl.
    destruct (IH (parse_override GetFilename h file s)) as (s' & -> & Hlook).
    exists s'. split; [reflexivity |]. intros name.
    rewrite Hlook, parse_override_lookup.
    destruct (path_to_hash_map s !! name); [reflexivity |].
    now destruct (String.eqb (GetFilename file) name).
Qed.

(** X8. For a descriptor with the three options, whatever other members
    its root has, whose textures are [key : file] members with hexadecimal
    keys, [ReadConfig] returns, and afterwards a name has the hash it had
    before or else the hash of the first member, in iteration order, whose
    file has that bare name: later members for the same name change
    nothing. *)
Theorem ReadConfig_first_override_wins :
  forall root skip flip new_hash members s,
    has_options root skip flip new_hash ->
    json_index root "textures" = inr (JObject (string_members members)) ->
    Forall (fun kf => exists h i, stoull16 kf.1 = inr (h, i)) members ->
    exists s',
      ReadConfig GetFilename (FileBytes (Some root)) s = Returned tt s'
      /\ forall name,
           path_to_hash_map s' !! name =
           match path_to_hash_map s !! name with
           | Some h => Some h
           | None => first_override GetFilename name members
           end.
Proof.
  intros root skip flip new_hash members s
    (ms & options & -> & Ho & Hs & Hf & Hn) Htex Hvalid.
  rewrite (ReadConfig_options_unfold _ _ _ _ _ _ Ho Hs Hf Hn).
  simpl in Htex. injection Htex as ->.
  apply (read_textures_first_wins members
           (set_options skip flip new_hash (skip || negb new_hash) s) Hvalid).
Qed.

(** X9. A descriptor whose root object has no [options] member makes
    [ReadConfig] throw a type error before anything in the manager is
    changed. *)
Theorem ReadConfig_without_options_throws :
  forall members s,
    assoc_find "options" members = None ->
    ReadConfig GetFilename (FileBytes (Some (JObject members))) s
    = Threw json_type_error s.
Proof.
  intros members s H. unfold ReadConfig. unfold bind at 1 2. simpl.
  rewrite H. reflexivity.
Qed.

End ReadConfigMore.

Lemma ReadConfig_keeps_overrides_witness :
  path_to_hash_map
    (result_state
       (ReadConfig (fun f => f)
          (descriptor false true true [("AB"%string, JString "a.png")])
          (set_path_to_hash_map {[ "a.png"%string := 5 ]} manager0)))
    !! "a.png"%string = Some 5.
Proof.
  apply (ReadConfig_keeps_overrides (fun f => f)). reflexivity.
Defined.

Lemma ReadConfig_first_override_wins_witness :
  exists s',
    ReadConfig (fun f => f)
      (FileBytes
         (Some (JObject
                  [("author", JString "citra");
                   ("description", JString "A graphics pack");
                   ("options",
                    JObject [("flip_png_files", JBool true);
                             ("skip_mipmap", JBool false);
                             ("use_new_hash", JBool true)]);
                   ("textures",
                    JObject (string_members
                               [("AB", "a.png"); ("CD", "a.png");
                                ("EF", "b.png")]));
                   ("version", JString "1.0.0")]%string)))
      manager0
    = Returned tt s'
    /\ path_to_hash_map s' !! "a.png"%string = Some 171
    /\ path_to_hash_map s' !! "b.png"%string = Some 239.
Proof.
  destruct (ReadConfig_first_override_wins (fun f => f)
              (JObject
                 [("author", JString "citra");
                  ("description", JString "A graphics pack");
                  ("options",
                   JObject [("flip_png_files", JBool true);
                            ("skip_mipmap", JBool false);
                            ("use_new_hash", JBool true)]);
                  ("textures",
                   JObject (string_members
                              [("AB", "a.png"); ("CD", "a.png");
                               ("EF", "b.png")]));
                  ("version", JString "1.0.0")]%string)
              false true true
              [("AB", "a.png"); ("CD", "a.png"); ("EF", "b.png")]%string manager0)
    as (s' & Hs & Hlook).
  - eexists. eexists. split; [reflexivity |]. repeat split.
  - reflexivity.
  - repeat constructor; simpl; eexists; eexists; vm_compute; reflexivity.
  - exists s'. split; [exact Hs |]. rewrite !Hlook. split; reflexivity.
Defined.

Lemma ReadConfig_stores_options_witness :
  refuse_dds
    (result_state
       (ReadConfig (fun f => f) (FileBytes (Some (pack_json_parsed manager0)))
          (set_refuse_dds true manager0)))
  = false.
Proof.
  apply (ReadConfig_stores_options (fun f => f) (pack_json_parsed manager0)
           false true true (set_refuse_dds true manager0)).
  eexists. eexists. split; [reflexivity |]. repeat split.
Defined.

Lemma ReadConfig_without_options_throws_witness :
  ReadConfig (fun f => f)
    (FileBytes (Some (JObject [("textures"%string, JObject [])]))) manager0
  = Threw json_type_error manager0.
Proof.
  apply (ReadConfig_without_options_throws (fun f => f)). reflexivity.
Defined.

(** X10. In a manager that refuses DDS no file whose last segment is dds
    is accepted, with or without an override for it, and no accepted file
    has the DDS format. A manager refuses DDS after [ReadConfig] found no
    descriptor, and after it read a descriptor, of whatever other members,
    whose options have [skip_mipmap] set or [use_new_hash] clear. *)
Theorem refused_dds_is_never_accepted :
  (forall s file parts texture,
      refuse_dds s = true ->
      ParseFilename_parts s file parts = Accepted texture ->
      last parts <> Some "dds"%string
      /\ tex_file_format texture <> CustomFileFormat.DDS)
  /\ (forall GetFilename s,
         refuse_dds (result_state (ReadConfig GetFilename FileNotOpen s)) = true)
  /\ (forall GetFilename root skip flip new_hash s,
         has_options root skip flip new_hash ->
         skip || negb new_hash = true ->
         refuse_dds
           (result_state (ReadConfig GetFilename (FileBytes (Some root)) s))
         = true).
Proof.
  split; [| split].
  - intros s file parts texture Href Hacc.
    destruct (ParseFilename_parts_accepted _ _ _ _ Hacc)
      as (_ & _ & (ext & Hlast & Hext) & _).
    rewrite Hlast.
    destruct Hext as [[-> ->] | [[-> ->] | (_ & _ & Hr)]];
      [split; discriminate | split; discriminate | congruence].
  - reflexivity.
  - intros GetFilename root skip flip new_hash s
      (members & options & -> & Ho & Hs & Hf & Hn) Hopt.
    rewrite (ReadConfig_options_unfold _ _ _ _ _ _ _ Ho Hs Hf Hn).
    destruct (read_textures_options GetFilename
                (json_items (default JNull (assoc_find "textures" members)))
                (set_options skip flip new_hash (skip || negb new_hash) s))
      as (-> & _).
    exact Hopt.
Qed.

Lemma refused_dds_is_never_accepted_witness :
  refuse_dds
    (result_state
       (ReadConfig (fun f => f)
          (FileBytes (Some (pack_json_parsed (set_options true true true false
                                                manager0))))
          manager0)) = true
  /\ ParseFilename_parts (set_refuse_dds true manager0)
       (mkFSTEntry "tex1_8x8_AB_0.png" "/l/p") ["tex1_8x8_AB_0"; "png"]%string
     = Accepted (mkCustomTexture 171 CustomFileFormat.PNG MapType.Color "/l/p")
  /\ last ["tex1_8x8_AB_0"; "png"]%string <> Some "dds"%string.
Proof.
  destruct refused_dds_is_never_accepted as (Hparse & _ & Hread).
  split.
  - apply (Hread (fun f => f)
             (pack_json_parsed (set_options true true true false manager0))
             true true true manager0).
    + eexists. eexists. split; [reflexivity |]. repeat split.
    + reflexivity.
  - assert (H : ParseFilename_parts (set_refuse_dds true manager0)
                  (mkFSTEntry "tex1_8x8_AB_0.png" "/l/p")
                  ["tex1_8x8_AB_0"; "png"]%string
                = Accepted (mkCustomTexture 171 CustomFileFormat.PNG MapType.Color
                              "/l/p")) by (vm_compute; reflexivity).
    split; [exact H |].
    now destruct (Hparse (set_refuse_dds true manager0) _ _ _ eq_refl H).
Defined.

(** ** TickFrame: what is called, what is kept *)

Lemma TickFrame_loop_calls mm q n :
  0 <= n <= MAX_UPLOADS_PER_TICK ->
  (TickFrame_loop mm q n).1 =
  map (fun e => EvUpload (func e))
    (take (Z.to_nat (MAX_UPLOADS_PER_TICK - n)) (List.filter (is_decoded mm) q)).
Proof.
  revert n. induction q as [|e q IH]; intros n Hn.
  - simpl. now rewrite take_nil.
  - simpl TickFrame_loop. destruct (MAX_UPLOADS_PER_TICK <=? n) eqn:E.
    + apply Z.leb_le in E. replace (MAX_UPLOADS_PER_TICK - n) with 0 by lia.
      reflexivity.
    + apply Z.leb_gt in E. simpl List.filter. unfold is_decoded at 1.
      unfold material_state.
      destruct (state <$> find_material (material e) mm) as [[]|] eqn:Es.
      all: try (rewrite bool_decide_eq_false_2 by discriminate;
                specialize (IH n Hn);
                destruct (TickFrame_loop mm q n); exact IH).
      rewrite bool_decide_eq_true_2 by reflexivity.
      specialize (IH (n + 1) ltac:(lia)).
      destruct (TickFrame_loop mm q (n + 1)). simpl in *. rewrite IH.
      replace (Z.to_nat (MAX_UPLOADS_PER_TICK - n))
        with (S (Z.to_nat (MAX_UPLOADS_PER_TICK - (n + 1)))) by lia.
      reflexivity.
Qed.

Lemma TickFrame_loop_keeps_waiting mm q n :
  (TickFrame_loop mm q n).2 `sublist_of` q
  /\ List.filter (is_waiting mm) (TickFrame_loop mm q n).2
     = List.filter (is_waiting mm) q.
Proof.
  revert n. induction q as [|e q IH]; intros n.
  - split; [constructor | reflexivity].
  - simpl TickFrame_loop. destruct (MAX_UPLOADS_PER_TICK <=? n); [now split |].
    simpl List.filter. unfold is_waiting at 2, is_decoded, is_failed.
    unfold material_state.
    destruct (state <$> find_material (material e) mm) as [[]|] eqn:Es.
    + destruct (IH n) as [Hs Hf]. destruct (TickFrame_loop mm q n) as [evs r].
      simpl in *. split; [now constructor |].
      unfold is_waiting at 1, is_decoded, is_failed, material_state.
      rewrite Es. simpl. now rewrite Hf.
    + destruct (IH n) as [Hs Hf]. destruct (TickFrame_loop mm q n) as [evs r].
      simpl in *. split; [now constructor |].
      unfold is_waiting at 1, is_decoded, is_failed, material_state.
      rewrite Es. simpl. now rewrite Hf.
    + destruct (IH (n + 1)) as [Hs Hf].
      destruct (TickFrame_loop mm q (n + 1)) as [evs r].
      simpl in *. split; [now constructor | exact Hf].
    + destruct (IH n) as [Hs Hf]. simpl. split; [now constructor | exact Hf].
    + destruct (IH n) as [Hs Hf]. destruct (TickFrame_loop mm q n) as [evs r].
      simpl in *. split; [now constructor |].
      unfold is_waiting at 1, is_decoded, is_failed, material_state.
      rewrite Es. simpl. now rewrite Hf.
Qed.

(** X11. Whatever the queue is, one call of [TickFrame] after discovery
    calls the closures of the first 16 entries whose material is [Decoded],
    in queue order, and no other closure; so never more than 16. *)
Theorem TickFrame_calls_first_decoded :
  forall s,
    textures_loaded s = true ->
    events (TickFrame s) =
      events s
      ++ map (fun e => EvUpload (func e))
           (take 16 (List.filter (is_decoded (material_map s)) (async_uploads s)))
    /\ (length (events (TickFrame s)) <= length (events s) + 16)%nat.
Proof.
  intros s Hl. destruct (TickFrame_unfold s Hl) as (-> & _).
  rewrite TickFrame_loop_calls by (unfold MAX_UPLOADS_PER_TICK; lia).
  change (Z.to_nat (MAX_UPLOADS_PER_TICK - 0)) with 16%nat.
  split; [reflexivity |].
  rewrite length_app, length_map, length_take. lia.
Qed.

Lemma TickFrame_calls_first_decoded_witness :
  let s := manager_with (materials_in DecodeState.Decoded 0 20)
             (entries_for (keys_from 0 20) true) in
  (length (events (TickFrame s)) <= length (events s) + 16)%nat.
Proof.
  intros s. now destruct (TickFrame_calls_first_decoded s eq_refl).
Defined.

(** X12. [TickFrame] never drops or reorders an entry that waits for its
    material: the queue it leaves is a sublist of the queue it found, and
    the entries whose material is neither [Decoded] nor [Failed] are all
    still in it, in their order. *)
Theorem TickFrame_keeps_waiting_entries :
  forall s,
    async_uploads (TickFrame s) `sublist_of` async_uploads s
    /\ List.filter (is_waiting (material_map s)) (async_uploads (TickFrame s))
       = List.filter (is_waiting (material_map s)) (async_uploads s).
Proof.
  intros s. unfold TickFrame. destruct (negb (textures_loaded s)); [now split |].
  pose proof (TickFrame_loop_keeps_waiting (material_map s) (async_uploads s) 0)
    as H.
  now destruct (TickFrame_loop (material_map s) (async_uploads s) 0).
Qed.

Lemma TickFrame_loop_drains mm q n :
  0 <= n -> n + decoded_count mm q < MAX_UPLOADS_PER_TICK ->
  (TickFrame_loop mm q n).2 = List.filter (is_waiting mm) q.
Proof.
  revert n. induction q as [|e q IH]; intros n Hn Hdc; [reflexivity |].
  pose proof (decoded_count_nonneg mm q) as Hpos.
  simpl in Hdc. rewrite TickFrame_loop_cons by (case_bool_decide; lia).
  simpl List.filter. unfold is_waiting at 1, is_decoded, is_failed.
  destruct (material_state mm (material e)) as [[]|] eqn:Es; simpl;
    case_bool_decide; simplify_eq;
    first [apply IH; lia | f_equal; apply IH; lia].
Qed.

(** X13. When fewer than 16 entries have a [Decoded] material, one call of
    [TickFrame] after discovery clears the queue of every [Decoded] and
    every [Failed] entry: what is left are exactly the waiting entries. *)
Theorem TickFrame_drains_short_queue :
  forall s,
    textures_loaded s = true ->
    decoded_count (material_map s) (async_uploads s) < MAX_UPLOADS_PER_TICK ->
    async_uploads (TickFrame s)
    = List.filter (is_waiting (material_map s)) (async_uploads s).
Proof.
  intros s Hl Hdc. destruct (TickFrame_unfold s Hl) as (_ & -> & _).
  apply TickFrame_loop_drains; lia.
Qed.

Lemma TickFrame_drains_short_queue_witness :
  let s := manager_with
             (materials_in DecodeState.Decoded 0 2
                ++ materials_in DecodeState.Pending 2 1
                ++ materials_in DecodeState.Failed 3 1)
             (entries_for [3; 2; 0; 1] true) in
  async_uploads (TickFrame s) = entries_for [2] true.
Proof.
  intros s. rewrite (TickFrame_drains_short_queue s eq_refl); [reflexivity |].
  vm_compute. reflexivity.
Defined.

Lemma TickFrame_loop_terminal mm q n :
  Forall (fun e => is_waiting mm e = false) q ->
  0 <= n <= MAX_UPLOADS_PER_TICK ->
  Forall (fun e => is_waiting mm e = false) (TickFrame_loop mm q n).2
  /\ decoded_count mm (TickFrame_loop mm q n).2
     = Z.max 0 (n + decoded_count mm q - MAX_UPLOADS_PER_TICK)
  /\ (n + decoded_count mm q < MAX_UPLOADS_PER_TICK ->
      (TickFrame_loop mm q n).2 = []).
Proof.
  intros Hq. revert n. induction Hq as [|e q He Hq IH]; intros n Hn.
  - simpl. repeat split; [constructor | lia].
  - pose proof (decoded_count_nonneg mm q) as Hpos.
    destruct (Z.eq_dec n MAX_UPLOADS_PER_TICK) as [-> | Hlt].
    + assert (TickFrame_loop mm (e :: q) MAX_UPLOADS_PER_TICK = ([], e :: q))
        as -> by reflexivity.
      pose proof (decoded_count_nonneg mm (e :: q)). simpl snd.
      repeat split; [now constructor | lia | lia].
    + rewrite TickFrame_loop_cons by lia. simpl decoded_count.
      unfold is_waiting, is_decoded, is_failed in He.
      destruct (material_state mm (material e)) as [[]|] eqn:Es;
        try discriminate He.
      * rewrite bool_decide_eq_true_2 by reflexivity.
        destruct (IH (n + 1) ltac:(lia)) as (H1 & H2 & H3). simpl.
        repeat split; [exact H1 | lia | intros; apply H3; lia].
      * rewrite bool_decide_eq_false_2 by discriminate.
        destruct (IH n Hn) as (H1 & H2 & H3).
        repeat split; [exact H1 | lia | intros; apply H3; lia].
Qed.

Lemma TickFrame_textures_loaded s :
  textures_loaded (TickFrame s) = textures_loaded s.
Proof.
  unfold TickFrame. destruct (negb (textures_loaded s)); [reflexivity |].
  now destruct (TickFrame_loop (material_map s) (async_uploads s) 0).
Qed.

(** X14. A backlog whose materials are all [Decoded] or [Failed] is worked
    off within a bounded number of frames: after [k] calls of [TickFrame],
    where the queue has fewer than [16 * k] [Decoded] entries, the queue is
    empty. *)
Theorem TickFrame_works_off_backlog :
  forall k s,
    textures_loaded s = true ->
    Forall (fun e => is_waiting (material_map s) e = false) (async_uploads s) ->
    decoded_count (material_map s) (async_uploads s)
    < MAX_UPLOADS_PER_TICK * Z.of_nat k ->
    async_uploads (Nat.iter k TickFrame s) = [].
Proof.
  induction k as [|k IH]; intros s Hl Hterm Hdc.
  - pose proof (decoded_count_nonneg (material_map s) (async_uploads s)). lia.
  - rewrite Nat.iter_succ_r.
    destruct (TickFrame_unfold s Hl) as (_ & Hq & Hmm & _).
    destruct (TickFrame_loop_terminal (material_map s) (async_uploads s) 0 Hterm)
      as (H1 & H2 & H3); [unfold MAX_UPLOADS_PER_TICK; lia |].
    rewrite <- Hq in H1, H2, H3.
    assert (Hempty : forall j s0, textures_loaded s0 = true ->
                                  async_uploads s0 = [] ->
                                  async_uploads (Nat.iter j TickFrame s0) = []).
    { induction j as [|j IHj]; intros s0 Hl0 He0; [exact He0 |].
      simpl. destruct (TickFrame_unfold (Nat.iter j TickFrame s0)) as (_ & -> & _).
      - clear IHj He0. induction j as [|j IHj]; [exact Hl0 |].
        simpl. now rewrite TickFrame_textures_loaded.
      - now rewrite (IHj s0 Hl0 He0). }
    destruct (Z_lt_dec (decoded_count (material_map s) (async_uploads s))
                MAX_UPLOADS_PER_TICK) as [Hsmall | Hbig].
    + apply Hempty; [now rewrite TickFrame_textures_loaded |].
      apply H3. lia.
    + apply IH.
      * now rewrite TickFrame_textures_loaded.
      * now rewrite Hmm.
      * rewrite Hmm, H2. unfold MAX_UPLOADS_PER_TICK in *. lia.
Qed.

Lemma TickFrame_works_off_backlog_witness :
  async_uploads
    (Nat.iter 3 TickFrame
       (manager_with (materials_in DecodeState.Decoded 0 40)
          (entries_for (keys_from 0 40) true))) = [].
Proof.
  apply TickFrame_works_off_backlog.
  - reflexivity.
  - apply List.Forall_forall. intros e He. apply negb_true_iff.
    revert e He. apply forallb_forall. vm_compute. reflexivity.
  - vm_compute. reflexivity.
Defined.

(** ** Decode: the synchronous path and the whole asynchronous round *)

Lemma LoadFromDisk_result disk flip_png hash m :
  state m = DecodeState.Unloaded \/ state m = DecodeState.Pending ->
  LoadFromDisk disk flip_png hash m =
  match disk hash with
  | Some bytes => mkMaterial DecodeState.Decoded bytes
  | None => mkMaterial DecodeState.Failed (size m)
  end.
Proof. intros [H | H]; unfold LoadFromDisk; now rewrite H. Qed.

(** X15. With asynchronous loading off, [Decode] loads the material on the
    spot, calls the upload closure once and returns what it returned; the
    upload queue and the worker pool are left as they were. *)
Theorem Decode_synchronous :
  forall disk material upload s m,
    async_custom_loading s = false ->
    find_material material (material_map s) = Some m ->
    exists s',
      Decode disk material upload s = Some (fn_returns upload, s')
      /\ events s' = events s ++ [EvUpload upload]
      /\ find_material material (material_map s')
         = Some (LoadFromDisk disk (flip_png_files s) material m)
      /\ async_uploads s' = async_uploads s
      /\ workers s' = workers s.
Proof.
  intros disk material upload s m Hsync Hfind. unfold Decode.
  rewrite Hfind, Hsync. simpl. eexists. split; [reflexivity |]. simpl.
  rewrite find_update_material_eq, Hfind. repeat split.
Qed.

Lemma Decode_synchronous_witness :
  exists s',
    Decode (fun _ => Some 64) 3 (mkUploadFn 1 false)
      (set_async_custom_loading false
         (manager_with (materials_in DecodeState.Unloaded 3 1) []))
    = Some (false, s')
    /\ events s' = [EvUpload (mkUploadFn 1 false)]
    /\ find_material 3 (material_map s') = Some (mkMaterial DecodeState.Decoded 64)
    /\ async_uploads s' = []
    /\ workers s' = Some [].
Proof.
  exact (Decode_synchronous (fun _ => Some 64) 3 (mkUploadFn 1 false)
           (set_async_custom_loading false
              (manager_with (materials_in DecodeState.Unloaded 3 1) []))
           (mkMaterial DecodeState.Unloaded 0) eq_refl eq_refl).
Defined.

(** X16. The whole asynchronous round, from an idle manager after
    discovery: [Decode] on an unloaded material, the worker that runs the
    queued load, then [TickFrame]. The closure is called exactly once when
    the files decode, never when they do not, and in both cases the queue
    and the pool are empty again. *)
Theorem Decode_load_tick_round :
  forall disk material upload s m,
    textures_loaded s = true ->
    async_custom_loading s = true ->
    workers s = Some [] ->
    async_uploads s = [] ->
    find_material material (material_map s) = Some m ->
    state m = DecodeState.Unloaded ->
    exists s1,
      Decode disk material upload s = Some (false, s1)
      /\ workers s1 = Some [JobLoad material]
      /\ let s2 := TickFrame
                     (run_job disk (JobLoad material)
                        (set_workers (Some []) s1)) in
         async_uploads s2 = []
         /\ workers s2 = Some []
         /\ events s2 =
            events s ++ match disk material with
                        | Some _ => [EvUpload upload]
                        | None => []
                        end
         /\ material_state (material_map s2) material =
            Some (match disk material with
                  | Some _ => DecodeState.Decoded
                  | None => DecodeState.Failed
                  end).
Proof.
  intros disk material upload s m Hl Hasync Hw Hq Hfind Hstate.
  unfold Decode. rewrite Hfind, Hasync, Hw. simpl.
  unfold IsUnloaded. rewrite Hstate, bool_decide_eq_true_2 by reflexivity.
  eexists. split; [reflexivity |]. split; [reflexivity |].
  unfold TickFrame, load_material. simpl. rewrite Hl, Hq. simpl.
  unfold material_state.
  rewrite !find_update_material_eq, Hfind. simpl.
  pose proof (LoadFromDisk_result disk (flip_png_files s) material
                (set_state DecodeState.Pending m) (or_intror eq_refl)) as Hload.
  rewrite Hload.
  destruct (disk material) as [bytes|]; simpl;
    rewrite !find_update_material_eq, Hfind; simpl;
    rewrite Hload, ?app_nil_r; repeat split.
Qed.

Lemma Decode_load_tick_round_witness :
  let s := manager_with (materials_in DecodeState.Unloaded 3 1) [] in
  exists s1,
    Decode (fun _ => None) 3 (mkUploadFn 1 true) s = Some (false, s1)
    /\ events
         (TickFrame (run_job (fun _ => None) (JobLoad 3)
                       (set_workers (Some []) s1))) = [].
Proof.
  intros s.
  destruct (Decode_load_tick_round (fun _ => None) 3 (mkUploadFn 1 true) s
              (mkMaterial DecodeState.Unloaded 0)
              eq_refl eq_refl eq_refl eq_refl eq_refl eq_refl)
    as (s1 & HD & _ & _ & _ & Hev & _).
  exists s1. split; [exact HD | exact Hev].
Defined.

(** ** PreloadTextures: the budget, a full preload, cancellation *)

(** X17. The budget of a preload: half of the memory below 4 GiB, all but
    2 GiB from 4 GiB on. It is never negative, never more than the memory,
    leaves exactly 2 GiB from 4 GiB on, and grows with the memory. *)
Theorem preload_max_mem_budget :
  forall sys_mem,
    0 <= sys_mem ->
    preload_max_mem sys_mem
      = (if sys_mem <? 2 ^ 32 then sys_mem / 2 else sys_mem - 2 ^ 31)
    /\ 0 <= preload_max_mem sys_mem <= sys_mem
    /\ (2 ^ 32 <= sys_mem -> sys_mem - preload_max_mem sys_mem = 2 ^ 31)
    /\ (forall more, sys_mem <= more ->
                     preload_max_mem sys_mem <= preload_max_mem more).
Proof.
  intros sys_mem Hpos.
  assert (Hcase : forall m, 0 <= m ->
            preload_max_mem m = (if m <? 2 ^ 32 then m / 2 else m - 2 ^ 31)).
  { intros m Hm. unfold preload_max_mem, recommended_min_mem.
    change (2 * (1024 * 1024 * 1024)) with (2 ^ 31).
    destruct (m / 2 <? 2 ^ 31) eqn:E1; destruct (m <? 2 ^ 32) eqn:E2;
      try reflexivity.
    - apply Z.ltb_lt in E1. apply Z.ltb_ge in E2.
      assert (2 ^ 31 <= m / 2) by (apply Z.div_le_lower_bound; lia). lia.
    - apply Z.ltb_ge in E1. apply Z.ltb_lt in E2.
      assert (m / 2 < 2 ^ 31) by (apply Z.div_lt_upper_bound; lia). lia. }
  assert (Hhalf : forall m, 0 <= m -> 0 <= m / 2 <= m).
  { intros m Hm. split; [apply Z.div_pos; lia |].
    apply Z.div_le_upper_bound; lia. }
  split; [now apply Hcase |]. rewrite Hcase by exact Hpos.
  split; [| split].
  - destruct (sys_mem <? 2 ^ 32) eqn:E; [now apply Hhalf |].
    apply Z.ltb_ge in E. lia.
  - intros Hbig. apply Z.ltb_ge in Hbig. rewrite Hbig. lia.
  - intros more Hmore. rewrite (Hcase more) by lia.
    destruct (sys_mem <? 2 ^ 32) eqn:E1; destruct (more <? 2 ^ 32) eqn:E2.
    + apply Z.div_le_mono; lia.
    + apply Z.ltb_lt in E1. apply Z.ltb_ge in E2.
      assert (sys_mem / 2 < 2 ^ 31) by (apply Z.div_lt_upper_bound; lia). lia.
    + apply Z.ltb_ge in E1. apply Z.ltb_lt in E2. lia.
    + lia.
Qed.

Lemma preload_max_mem_budget_witness :
  preload_max_mem (2 ^ 33) = 2 ^ 33 - 2 ^ 31
  /\ preload_max_mem (2 ^ 31) = 2 ^ 30.
Proof.
  split.
  - now destruct (preload_max_mem_budget (2 ^ 33) ltac:(lia)) as (-> & _).
  - now destruct (preload_max_mem_budget (2 ^ 31) ltac:(lia)) as (-> & _).
Defined.

Lemma callbacks_succ callback total first n :
  callbacks callback total first (S n) =
  (if callback then [EvCallback first total] else [])
    ++ callbacks callback total (first + 1) n.
Proof.
  unfold callbacks. destruct callback; [| reflexivity].
  simpl. rewrite Z.add_0_r. f_equal.
  rewrite <- seq_shift, map_map. apply map_ext. intros i. f_equal. lia.
Qed.

Lemma LoadFromDisk_terminal disk flip_png hash m :
  state (LoadFromDisk disk flip_png hash m) = DecodeState.Decoded
  \/ state (LoadFromDisk disk flip_png hash m) = DecodeState.Failed.
Proof.
  unfold LoadFromDisk. destruct m as [[] sz]; simpl; auto;
    destruct (disk hash); simpl; auto.
Qed.

(** The loop loads a run of materials and leaves the rest when it comes to
    the end of the map or reads the stop flag set. *)
Lemma preload_loop_prefix disk max_mem stop_run callback flip_png total
    pre post size_sum preloaded :
  Forall (fun km => 0 <= loaded_size disk flip_png km) pre ->
  0 <= size_sum ->
  size_sum + sum_loaded disk flip_png pre <= max_mem < 2 ^ 64 ->
  (forall i, (i < length pre)%nat -> stop_run (preloaded + Z.of_nat i) = false) ->
  post = [] \/ stop_run (preloaded + Z.of_nat (length pre)) = true ->
  preload_loop disk max_mem stop_run callback flip_png total (pre ++ post)
    size_sum preloaded
  = (load_all disk flip_png pre ++ post,
     callbacks callback total preloaded (length pre)).
Proof.
  intros Hnn. revert size_sum preloaded.
  induction Hnn as [|[h m] pre Hkm Hnn IH];
    intros size_sum preloaded Hs Hsum Hrun Hstop.
  - simpl. unfold callbacks. simpl. rewrite Z.add_0_r in Hstop.
    destruct post as [|[h m] post]; [now destruct callback |].
    simpl. destruct Hstop as [| ->]; [discriminate |].
    destruct (max_mem <? size_sum); now destruct callback.
  - pose proof (sum_loaded_nonneg disk flip_png pre Hnn) as Hpre.
    unfold loaded_size in Hkm. simpl in Hkm, Hsum. unfold loaded_size in Hsum.
    simpl in Hsum. simpl app. simpl preload_loop.
    destruct (max_mem <? size_sum) eqn:E; [apply Z.ltb_lt in E; lia |].
    assert (stop_run preloaded = false) as ->.
    { specialize (Hrun 0%nat ltac:(simpl; lia)).
      now rewrite Z.add_0_r in Hrun. }
    unfold wrap64. rewrite Z.mod_small by lia.
    rewrite (IH (size_sum + size (LoadFromDisk disk flip_png h m)) (preloaded + 1)).
    + simpl length. rewrite callbacks_succ. reflexivity.
    + lia.
    + lia.
    + intros i Hi. specialize (Hrun (S i) ltac:(simpl; lia)).
      rewrite <- Hrun. f_equal. lia.
    + destruct Hstop as [-> | Hstop]; [now left |]. right.
      rewrite <- Hstop. f_equal. simpl length. lia.
Qed.

Lemma preload_max_mem_bounds sys_mem :
  0 <= sys_mem -> 0 <= preload_max_mem sys_mem <= sys_mem.
Proof.
  intros Hpos. unfold preload_max_mem, recommended_min_mem.
  assert (0 <= sys_mem / 2 <= sys_mem).
  { split; [apply Z.div_pos; lia | apply Z.div_le_upper_bound; lia]. }
  destruct (sys_mem / 2 <? 2 * (1024 * 1024 * 1024)) eqn:E; [lia |].
  apply Z.ltb_ge in E. lia.
Qed.

Lemma load_all_terminal disk flip_png mm :
  Forall (fun km => state km.2 = DecodeState.Decoded
                    \/ state km.2 = DecodeState.Failed)
    (load_all disk flip_png mm).
Proof.
  induction mm as [|[h m] mm IH]; simpl; constructor; [| exact IH].
  apply LoadFromDisk_terminal.
Qed.

(** [PreloadTextures] on an idle pool, by the loop of its job. *)
Lemma PreloadTextures_idle disk sys_mem stop_run callback s :
  workers s = Some [] ->
  PreloadTextures disk sys_mem stop_run callback s =
  Some (set_async_custom_loading false
          (run_job disk (JobPreload (preload_max_mem sys_mem) stop_run callback) s)).
Proof.
  intros Hw. unfold PreloadTextures, queue_preload, WaitForRequests.
  rewrite Hw. destruct s. simpl in Hw. subst. reflexivity.
Qed.

(** X18. A preload that is not cancelled and whose materials fit the budget
    loads every material of the cache: each one ends [Decoded] or
    [Failed], the callback (when there is one) is called once per material
    with the counts 0, 1, 2, ... and the number of custom textures as
    total, and asynchronous loading is off afterwards. *)
Theorem PreloadTextures_loads_everything :
  forall disk sys_mem stop_run callback s,
    0 <= sys_mem < 2 ^ 64 ->
    workers s = Some [] ->
    (forall n, stop_run n = false) ->
    Forall (fun km => 0 <= loaded_size disk (flip_png_files s) km) (material_map s) ->
    sum_loaded disk (flip_png_files s) (material_map s) <= preload_max_mem sys_mem ->
    exists s',
      PreloadTextures disk sys_mem stop_run callback s = Some s'
      /\ material_map s' = load_all disk (flip_png_files s) (material_map s)
      /\ Forall (fun km => state km.2 = DecodeState.Decoded
                           \/ state km.2 = DecodeState.Failed) (material_map s')
      /\ events s'
         = events s ++ callbacks callback (Z.of_nat (length (custom_textures s))) 0
                         (length (material_map s))
      /\ async_custom_loading s' = false.
Proof.
  intros disk sys_mem stop_run callback s Hmem Hw Hrun Hnn Hfit.
  pose proof (preload_max_mem_bounds sys_mem ltac:(lia)) as Hb.
  rewrite (PreloadTextures_idle _ _ _ _ _ Hw). eexists. split; [reflexivity |].
  pose proof (preload_loop_prefix disk (preload_max_mem sys_mem) stop_run callback
                (flip_png_files s) (Z.of_nat (length (custom_textures s)))
                (material_map s) [] 0 0 Hnn ltac:(lia) ltac:(lia)
                (fun i _ => Hrun _) (or_introl eq_refl)) as Hloop.
  rewrite !app_nil_r in Hloop. simpl. rewrite Hloop. simpl.
  repeat split. apply load_all_terminal.
Qed.

Lemma PreloadTextures_loads_everything_witness :
  exists s',
    PreloadTextures (fun _ => Some 10) (2 ^ 33) (fun _ => false) true
      (manager_with (materials_in DecodeState.Unloaded 0 3) []) = Some s'
    /\ material_map s'
       = load_all (fun _ => Some 10) true (materials_in DecodeState.Unloaded 0 3)
    /\ events s' = [EvCallback 0 0; EvCallback 1 0; EvCallback 2 0].
Proof.
  destruct (PreloadTextures_loads_everything (fun _ => Some 10) (2 ^ 33)
              (fun _ => false) true
              (manager_with (materials_in DecodeState.Unloaded 0 3) []))
    as (s' & E & Hmm & _ & Hev & _).
  - lia.
  - reflexivity.
  - reflexivity.
  - repeat (constructor; [unfold loaded_size; simpl; lia |]). constructor.
  - vm_compute. discriminate.
  - exists s'. repeat split; assumption.
Defined.

(** X19. A preload that reads the stop flag set after [k] materials has
    loaded exactly the first [k] materials of the cache and made [k]
    callbacks; the materials behind them are as they were. Asynchronous
    loading is switched off all the same. *)
Theorem PreloadTextures_cancelled :
  forall disk sys_mem stop_run callback s pre post,
    0 <= sys_mem < 2 ^ 64 ->
    workers s = Some [] ->
    material_map s = pre ++ post ->
    (forall i, (i < length pre)%nat -> stop_run (Z.of_nat i) = false) ->
    stop_run (Z.of_nat (length pre)) = true ->
    Forall (fun km => 0 <= loaded_size disk (flip_png_files s) km) pre ->
    sum_loaded disk (flip_png_files s) pre <= preload_max_mem sys_mem ->
    exists s',
      PreloadTextures disk sys_mem stop_run callback s = Some s'
      /\ material_map s' = load_all disk (flip_png_files s) pre ++ post
      /\ events s'
         = events s ++ callbacks callback (Z.of_nat (length (custom_textures s))) 0
                         (length pre)
      /\ async_custom_loading s' = false.
Proof.
  intros disk sys_mem stop_run callback s pre post Hmem Hw Hmm Hrun Hstop Hnn Hfit.
  pose proof (preload_max_mem_bounds sys_mem ltac:(lia)) as Hb.
  rewrite (PreloadTextures_idle _ _ _ _ _ Hw). eexists. split; [reflexivity |].
  pose proof (preload_loop_prefix disk (preload_max_mem sys_mem) stop_run callback
                (flip_png_files s) (Z.of_nat (length (custom_textures s)))
                pre post 0 0 Hnn ltac:(lia) ltac:(lia)
                (fun i Hi => Hrun i Hi) (or_intror Hstop)) as Hloop.
  simpl. rewrite Hmm, Hloop. simpl. repeat split.
Qed.

Lemma PreloadTextures_cancelled_witness :
  exists s',
    PreloadTextures (fun _ => Some 10) (2 ^ 33) (fun n => 2 <=? n) true
      (manager_with (materials_in DecodeState.Unloaded 0 3) []) = Some s'
    /\ material_map s'
       = load_all (fun _ => Some 10) true (materials_in DecodeState.Unloaded 0 2)
         ++ materials_in DecodeState.Unloaded 2 1
    /\ events s' = [EvCallback 0 0; EvCallback 1 0].
Proof.
  destruct (PreloadTextures_cancelled (fun _ => Some 10) (2 ^ 33)
              (fun n => 2 <=? n) true
              (manager_with (materials_in DecodeState.Unloaded 0 3) [])
              (materials_in DecodeState.Unloaded 0 2)
              (materials_in DecodeState.Unloaded 2 1))
    as (s' & E & Hmm & Hev & _).
  - lia.
  - reflexivity.
  - reflexivity.
  - intros i Hi. simpl in Hi. apply Z.leb_gt. lia.
  - reflexivity.
  - repeat (constructor; [unfold loaded_size; simpl; lia |]). constructor.
  - vm_compute. discriminate.
  - exists s'. repeat split; assumption.
Defined.

Lemma run_job_frame disk j s :
  async_uploads (run_job disk j s) = async_uploads s
  /\ async_custom_loading (run_job disk j s) = async_custom_loading s
  /\ dumped_textures (run_job disk j s) = dumped_textures s
  /\ textures_loaded (run_job disk j s) = textures_loaded s.
Proof.
  destruct j; simpl; try (now repeat split).
  now destruct (preload_loop _ _ _ _ _ _ _ _ _).
Qed.

Lemma run_queue_frame disk q s :
  async_uploads (fold_left (fun s j => run_job disk j s) q s) = async_uploads s
  /\ dumped_textures (fold_left (fun s j => run_job disk j s) q s)
     = dumped_textures s
  /\ textures_loaded (fold_left (fun s j => run_job disk j s) q s)
     = textures_loaded s
  /\ workers (fold_left (fun s j => run_job disk j s) q s) = workers s
  /\ materials_advance (material_map s)
       (material_map (fold_left (fun s j => run_job disk j s) q s)).
Proof.
  revert s. induction q as [|j q IH]; intros s; simpl.
  - repeat split. apply materials_advance_refl.
  - destruct (IH (run_job disk j s)) as (Hu & Hd & Ht & Hw & Hm).
    destruct (run_job_frame disk j s) as (Hu' & _ & Hd' & Ht').
    rewrite Hu, Hd, Ht, Hw, Hu', Hd', Ht', run_job_workers. repeat split.
    eapply materials_advance_trans; [apply run_job_advances | exact Hm].
Qed.

(** X20. [PreloadTextures] needs the worker pool: without one it is
    undefined. With a pool, whatever jobs wait in it, the call returns
    with the pool idle and asynchronous loading off; the upload queue and
    the set of dumped hashes are as before and every material is still in
    the cache. Every later [Decode] of a cached material then calls
    [upload] at once, returns its result and queues nothing. *)
Theorem PreloadTextures_makes_Decode_synchronous :
  forall disk sys_mem stop_run callback s,
    (workers s = None ->
     PreloadTextures disk sys_mem stop_run callback s = None)
    /\ (forall q,
           workers s = Some q ->
           exists s',
             PreloadTextures disk sys_mem stop_run callback s = Some s'
             /\ async_custom_loading s' = false
             /\ workers s' = Some []
             /\ async_uploads s' = async_uploads s
             /\ dumped_textures s' = dumped_textures s
             /\ materials_advance (material_map s) (material_map s')
             /\ forall material upload,
                  is_Some (find_material material (material_map s)) ->
                  exists s'',
                    Decode disk material upload s' = Some (fn_returns upload, s'')
                    /\ events s'' = events s' ++ [EvUpload upload]
                    /\ async_uploads s'' = async_uploads s
                    /\ workers s'' = Some []).
Proof.
  intros disk sys_mem stop_run callback s. split.
  { intros Hw. unfold PreloadTextures, queue_preload. now rewrite Hw. }
  intros q Hw. unfold PreloadTextures, queue_preload, WaitForRequests.
  rewrite Hw. simpl.
  set (job := JobPreload (preload_max_mem sys_mem) stop_run callback).
  destruct (run_queue_frame disk (q ++ [job])
              (set_workers (Some []) (set_workers (Some (q ++ [job])) s)))
    as (Hu & Hd & Ht & Hwk & Hm).
  simpl in Hu, Hd, Ht, Hwk, Hm.
  eexists. split; [reflexivity |]. simpl.
  split; [reflexivity |]. split; [exact Hwk |]. split; [exact Hu |].
  split; [exact Hd |]. split; [exact Hm |].
  intros material upload [m Hfind]. specialize (Hm material).
  rewrite Hfind in Hm. destruct Hm as (m' & Hfind' & _).
  unfold Decode. simpl. rewrite Hfind'. simpl.
  eexists. split; [reflexivity |]. simpl. repeat split; assumption.
Qed.

(** No step switches asynchronous loading on, and while it is off no step
    adds an entry to the upload queue. *)
Lemma step_synchronous disk s s' :
  step disk s s' ->
  async_custom_loading s = false ->
  async_custom_loading s' = false
  /\ async_uploads s' `sublist_of` async_uploads s.
Proof.
  intros Hstep Hoff. destruct Hstep as
    [material upload s b s' HD | s | env params level data hash s
     | sys_mem stop_run callback s s' HQ | s Hidle | s q1 j q2 Hw].
  - unfold Decode in HD. rewrite Hoff in HD.
    destruct (find_material material (material_map s)); [| discriminate].
    simpl in HD. injection HD as _ <-. now split.
  - unfold TickFrame. destruct (negb (textures_loaded s)); [now split |].
    pose proof (TickFrame_loop_keeps_waiting (material_map s) (async_uploads s) 0)
      as [Hsub _].
    now destruct (TickFrame_loop (material_map s) (async_uploads s) 0).
  - unfold DumpTexture.
    repeat (match goal with |- context [if ?b then _ else _] => destruct b end;
            [now split |]).
    now split.
  - unfold queue_preload in HQ. destruct (workers s); [| discriminate].
    injection HQ as <-. now split.
  - now split.
  - destruct (run_job_frame disk j (set_workers (Some (q1 ++ q2)) s))
      as (-> & -> & _). now split.
Qed.

(** X21. Asynchronous loading is never switched back on: once it is off it
    stays off through every call of [Decode], [TickFrame], [DumpTexture]
    and [PreloadTextures] and every worker run, and from then on the
    upload queue only shrinks. *)
Theorem synchronous_loading_is_final :
  forall disk s s',
    rtc (step disk) s s' ->
    async_custom_loading s = false ->
    async_custom_loading s' = false
    /\ async_uploads s' `sublist_of` async_uploads s.
Proof.
  intros disk s s' Hrtc.
  induction Hrtc as [s | s1 s2 s3 Hstep _ IH]; intros Hoff; [now split |].
  destruct (step_synchronous disk s1 s2 Hstep Hoff) as [Hoff2 Hsub2].
  destruct (IH Hoff2) as [Hoff3 Hsub3]. split; [exact Hoff3 |].
  now transitivity (async_uploads s2).
Qed.

Lemma synchronous_loading_is_final_witness :
  async_custom_loading
    (TickFrame (set_async_custom_loading false
                  (manager_with (materials_in DecodeState.Decoded 0 2)
                     (entries_for [0; 1] true)))) = false
  /\ async_uploads
       (TickFrame (set_async_custom_loading false
                     (manager_with (materials_in DecodeState.Decoded 0 2)
                        (entries_for [0; 1] true))))
     `sublist_of` entries_for [0; 1] true.
Proof.
  apply (synchronous_loading_is_final (fun _ => None)
           (set_async_custom_loading false
              (manager_with (materials_in DecodeState.Decoded 0 2)
                 (entries_for [0; 1] true)))).
  - apply rtc_once. apply step_TickFrame.
  - reflexivity.
Defined.

Lemma PreloadTextures_makes_Decode_synchronous_witness :
  exists s',
    PreloadTextures (fun _ => Some 10) (2 ^ 33) (fun _ => false) false
      (manager_with (materials_in DecodeState.Unloaded 0 2) []) = Some s'
    /\ async_custom_loading s' = false.
Proof.
  destruct (proj2 (PreloadTextures_makes_Decode_synchronous (fun _ => Some 10)
                     (2 ^ 33) (fun _ => false) false
                     (manager_with (materials_in DecodeState.Unloaded 0 2) []))
              [] eq_refl) as (s' & E & Hoff & _).
  exists s'. split; assumption.
Defined.

(** ** IsPow2 and DumpTexture *)

(** X22. On 32-bit values [IsPow2] holds of the 32 powers of two
    1, 2, 4, ..., 2^31 and of nothing else; 0 in particular is refused. *)
Theorem IsPow2_exact :
  forall v,
    0 <= v < 2 ^ 32 ->
    IsPow2 v = true <-> exists k, 0 <= k < 32 /\ v = 2 ^ k.
Proof.
  intros v Hv. rewrite (IsPow2_spec v Hv). unfold power_of_two. split.
  - intros (k & Hk & ->). exists k. split; [| reflexivity].
    split; [exact Hk |]. apply (Z.pow_lt_mono_r_iff 2); lia.
  - intros (k & Hk & ->). exists k. split; [lia | reflexivity].
Qed.

Lemma IsPow2_exact_witness :
  IsPow2 4096 = true <-> exists k, 0 <= k < 32 /\ 4096 = 2 ^ k.
Proof. apply (IsPow2_exact 4096). lia. Defined.

Lemma dump_file_name env params level hash :
  dump_file env params level hash
  = dump_dir env +:+ dump_name env params level hash.
Proof.
  unfold dump_file, dump_name, tex1_name, dump_dir.
  now rewrite !append_assoc.
Qed.

(** X23. [DumpTexture] changes the manager exactly when the dump directory
    can be created, the hash has not been dumped, no file of the dump's
    name exists, and width and height are powers of two. It then queues
    one job, behind the jobs that wait, for the file
    [tex1_{width}x{height}_{hash}_{format}_mip{level}.png] of the dump
    directory, and records the hash; the pool is created when there is
    none. *)
Theorem DumpTexture_queues_exactly_when :
  forall env params level data hash s,
    0 <= width params < 2 ^ 32 ->
    0 <= height params < 2 ^ 32 ->
    (DumpTexture env params level data hash s <> s
     <-> CreateFullPath env (dump_dir env) = true
         /\ (hash ∉ dumped_textures s)
         /\ Exists env (dump_dir env +:+ dump_name env params level hash) = false
         /\ power_of_two (width params)
         /\ power_of_two (height params))
    /\ (DumpTexture env params level data hash s <> s ->
        workers (DumpTexture env params level data hash s)
        = Some (default [] (workers s)
                ++ [JobDump (dump_dir env +:+ dump_name env params level hash)
                      (width params) (height params)
                      (wrap32 (Z.of_nat (length data)))
                      (wrap32 (width params * height params * 4))])
        /\ dumped_textures (DumpTexture env params level data hash s)
           = {[hash]} ∪ dumped_textures s
        /\ events (DumpTexture env params level data hash s) = events s
        /\ material_map (DumpTexture env params level data hash s)
           = material_map s
        /\ async_uploads (DumpTexture env params level data hash s)
           = async_uploads s).
Proof.
  intros env params level data hash s Hw Hh.
  rewrite <- (IsPow2_spec _ Hw), <- (IsPow2_spec _ Hh), <- dump_file_name.
  unfold DumpTexture.
  destruct (CreateFullPath env (dump_dir env)); simpl;
    [| split; [split; [congruence | intros (? & _); discriminate] | congruence]].
  destruct (bool_decide (hash ∈ dumped_textures s)) eqn:Ein; simpl.
  { apply bool_decide_eq_true in Ein.
    split; [split; [congruence | intros (_ & Hn & _); contradiction] | congruence]. }
  apply bool_decide_eq_false in Ein.
  destruct (Exists env (dump_file env params level hash)); simpl;
    [split; [split; [congruence | intros (_ & _ & ? & _); discriminate]
            | congruence] |].
  destruct (IsPow2 (width params)); simpl;
    [| split; [split; [congruence | intros (_ & _ & _ & ? & _); discriminate]
              | congruence]].
  destruct (IsPow2 (height params)); simpl;
    [| split; [split; [congruence | intros (_ & _ & _ & _ & ?); discriminate]
              | congruence]].
  split; [| intros _; repeat split].
  split; [intros _; repeat split; assumption |].
  intros _ Heq.
  assert (Hd : dumped_textures
                 (set_dumped_textures ({[hash]} ∪ dumped_textures s)
                    (set_workers
                       (Some (default [] (workers s)
                              ++ [JobDump (dump_file env params level hash)
                                    (width params) (height params)
                                    (wrap32 (Z.of_nat (length data)))
                                    (wrap32 (width params * height params * 4))]))
                       s))
               = dumped_textures s) by (rewrite Heq; reflexivity).
  simpl in Hd. apply Ein. rewrite <- Hd.
  apply elem_of_union. left. now apply elem_of_singleton.
Qed.

Lemma DumpTexture_queues_exactly_when_witness :
  DumpTexture (mkDumpEnv 1 "dump/" format_dec (fun _ => true) (fun _ => false))
    (mkSurfaceParams 64 32 0) 0 [] 171 manager0 <> manager0.
Proof.
  apply (proj1 (DumpTexture_queues_exactly_when
                  (mkDumpEnv 1 "dump/" format_dec (fun _ => true) (fun _ => false))
                  (mkSurfaceParams 64 32 0) 0 [] 171 manager0
                  ltac:(simpl; lia) ltac:(simpl; lia))).
  split; [reflexivity |]. split; [set_solver |]. split; [reflexivity |].
  split; [exists 6 | exists 5]; split; try lia; reflexivity.
Defined.

(** X24. A dump is named so that it is read back as a replacement of the
    texture it was dumped from: when the pixel format is rendered as a
    decimal number, [ParseFilename] accepts the name [DumpTexture] gives
    the dump of a hash, as a PNG colour map of that same hash, whatever
    the width, height, format and mip level are. *)
Theorem dump_name_parses_back :
  forall env params level hash s physical,
    0 <= hash < 2 ^ 64 ->
    number_string digit_value (format_PixelFormat env (pixel_format params)) ->
    path_to_hash_map s !! dump_name env params level hash = None ->
    ParseFilename s (mkFSTEntry (dump_name env params level hash) physical)
    = Accepted (mkCustomTexture hash CustomFileFormat.PNG MapType.Color physical).
Proof.
  intros env params level hash s physical Hhash Hfmt Hmap.
  pose proof (hex_value_format_016X hash Hhash) as Hhex.
  rewrite (ParseFilename_tex1_prefix s _
             (format_dec (width params)) (format_dec (height params))
             (format_016X hash) (format_PixelFormat env (pixel_format params))
             ("_mip" +:+ format_dec level) None "png").
  - now rewrite Hhex.
  - apply format_dec_number_string.
  - apply format_dec_number_string.
  - apply format_016X_number_string.
  - exact Hfmt.
  - rewrite Hhex. unfold U64_MAX. lia.
  - pose proof (number_string_dot_free _ _ digit_value_xdigit
                  (format_dec_number_string level)) as Hl.
    unfold dot_free in *. now rewrite string_forall_app, Hl.
  - discriminate.
  - now left.
  - simpl. unfold dump_name, texture_filename. now rewrite !append_assoc.
  - exact Hmap.
Qed.

Lemma dump_name_parses_back_witness :
  ParseFilename manager0
    (mkFSTEntry
       (dump_name (mkDumpEnv 1 "dump/" format_dec (fun _ => true) (fun _ => false))
          (mkSurfaceParams 64 32 3) 2 171)
       "load/a.png")
  = Accepted (mkCustomTexture 171 CustomFileFormat.PNG MapType.Color "load/a.png").
Proof.
  apply (dump_name_parses_back
           (mkDumpEnv 1 "dump/" format_dec (fun _ => true) (fun _ => false))
           (mkSurfaceParams 64 32 3) 2 171 manager0 "load/a.png").
  - lia.
  - apply format_dec_number_string.
  - apply lookup_empty.
Defined.

(** *** Every dump is encoded at most once *)

Lemma encoded_emit evs s :
  encoded (emit evs s)
  = (encoded s + length (List.filter is_encode evs))%nat.
Proof. unfold encoded. simpl. now rewrite List.filter_app, length_app. Qed.

Lemma preload_loop_no_encode disk max_mem stop_run callback flip_png total mm
    size_sum preloaded :
  List.filter is_encode
    (preload_loop disk max_mem stop_run callback flip_png total mm
       size_sum preloaded).2 = [].
Proof.
  revert size_sum preloaded.
  induction mm as [|[h m] mm IH]; intros size_sum preloaded; [reflexivity |].
  simpl preload_loop. destruct (max_mem <? size_sum); [reflexivity |].
  destruct (stop_run preloaded); [reflexivity |].
  specialize (IH (wrap64 (size_sum + size (LoadFromDisk disk flip_png h m)))
                (preloaded + 1)).
  destruct (preload_loop _ _ _ _ _ _ mm _ _) as [rest' evs]. simpl in *.
  rewrite List.filter_app, IH. now destruct callback.
Qed.

Lemma TickFrame_loop_no_encode mm q n :
  List.filter is_encode (TickFrame_loop mm q n).1 = [].
Proof.
  revert n. induction q as [|e q IH]; intros n; [reflexivity |].
  simpl TickFrame_loop. destruct (MAX_UPLOADS_PER_TICK <=? n); [reflexivity |].
  destruct (state <$> find_material (material e) mm) as [[]|].
  - pose proof (IH n) as H. now destruct (TickFrame_loop mm q n).
  - pose proof (IH n) as H. now destruct (TickFrame_loop mm q n).
  - pose proof (IH (n + 1)) as H. now destruct (TickFrame_loop mm q (n + 1)).
  - apply IH.
  - pose proof (IH n) as H. now destruct (TickFrame_loop mm q n).
Qed.

Lemma step_dump_budget disk s s' :
  step disk s s' -> dump_budget s -> dump_budget s'.
Proof.
  intros Hstep. unfold dump_budget. destruct Hstep as
    [material upload s b s' HD | s | env params level data hash s
     | sys_mem stop_run callback s s' HQ | s Hidle | s q1 j q2 Hw]; intros Hb.
  - unfold Decode in HD.
    destruct (find_material material (material_map s)) as [m|]; [| discriminate].
    destruct (negb (async_custom_loading s)).
    { injection HD as _ <-. rewrite encoded_emit. simpl. unfold dump_jobs in *.
      simpl. unfold encoded in *. simpl. lia. }
    destruct (IsUnloaded m).
    + destruct (workers s) as [q|] eqn:Ew; [| discriminate].
      injection HD as _ <-. unfold dump_jobs, encoded in *. simpl.
      rewrite count_jobs_app. rewrite Ew in Hb. simpl. simpl in Hb. lia.
    + injection HD as _ <-. exact Hb.
  - unfold TickFrame. destruct (negb (textures_loaded s)); [exact Hb |].
    pose proof (TickFrame_loop_no_encode (material_map s) (async_uploads s) 0)
      as Hevs.
    destruct (TickFrame_loop (material_map s) (async_uploads s) 0) as [evs q].
    rewrite encoded_emit. simpl in Hevs. rewrite Hevs.
    unfold dump_jobs, encoded in *. simpl. lia.
  - unfold DumpTexture.
    destruct (negb (CreateFullPath env (dump_dir env))); [exact Hb |].
    destruct (bool_decide (hash ∈ dumped_textures s)) eqn:Ein; [exact Hb |].
    apply bool_decide_eq_false in Ein. simpl orb.
    destruct (Exists env _); [exact Hb |].
    destruct (negb (IsPow2 (width params)) || negb (IsPow2 (height params)));
      [exact Hb |].
    unfold dump_jobs, encoded in *. simpl. rewrite count_jobs_app. simpl.
    rewrite size_union by (apply disjoint_singleton_l; exact Ein).
    rewrite size_singleton. lia.
  - unfold queue_preload in HQ. destruct (workers s) as [q|] eqn:Ew;
      [| discriminate].
    injection HQ as <-. unfold dump_jobs, encoded in *. simpl.
    rewrite count_jobs_app. rewrite Ew in Hb. simpl. simpl in Hb. lia.
  - exact Hb.
  - unfold dump_jobs in *. rewrite run_job_workers. rewrite Hw in Hb.
    destruct (run_job_frame disk j (set_workers (Some (q1 ++ q2)) s))
      as (_ & _ & -> & _).
    simpl. simpl in Hb. rewrite count_jobs_app. rewrite count_jobs_app in Hb.
    simpl in Hb.
    destruct j as [h | max_mem stop_run callback | path w h ds dd]; simpl in *.
    + unfold encoded in *. simpl. lia.
    + pose proof (preload_loop_no_encode disk max_mem stop_run callback
                    (flip_png_files s) (Z.of_nat (length (custom_textures s)))
                    (material_map s) 0 0) as Hevs.
      destruct (preload_loop _ _ _ _ _ _ _ _ _) as [mm evs].
      rewrite encoded_emit. simpl in Hevs. rewrite Hevs.
      unfold encoded in *. simpl. lia.
    + unfold encoded in *. simpl. rewrite List.filter_app, length_app. simpl. lia.
Qed.

(** X25. No dump is encoded twice: through every call of [Decode],
    [TickFrame], [DumpTexture] and [PreloadTextures] and every worker run,
    the PNG files encoded plus the encode jobs that wait never outnumber
    the hashes recorded in [dumped_textures]. *)
Theorem dump_budget_is_kept :
  forall disk s s',
    rtc (step disk) s s' -> dump_budget s -> dump_budget s'.
Proof.
  intros disk s s' Hrtc.
  induction Hrtc as [s | s1 s2 s3 Hstep _ IH]; intros Hb; [exact Hb |].
  apply IH. now apply (step_dump_budget disk s1).
Qed.

Lemma dump_budget_is_kept_witness :
  dump_budget
    (DumpTexture (mkDumpEnv 1 "dump/" format_dec (fun _ => true) (fun _ => false))
       (mkSurfaceParams 64 32 0) 0 [] 171 manager0).
Proof.
  apply (dump_budget_is_kept (fun _ => None) manager0).
  - apply rtc_once. apply step_DumpTexture.
  - unfold dump_budget. vm_compute. lia.
Defined.

(** ** WriteConfig *)

(** X26. [WriteConfig] writes nothing when the dump directory has a
    [pack.json]. The descriptor it writes otherwise is one [ReadConfig]
    reads back without throwing, in the order of insertion as in the
    sorted order of a parsed value: the three options come back as they
    were written, [refuse_dds] is [skip_mipmap || !use_new_hash], and no
    override is added. *)
Theorem WriteConfig_reads_back :
  forall GetFilename env s s0,
    (Exists env (dump_dir env +:+ "pack.json") = true ->
     WriteConfig env s = None)
    /\ (Exists env (dump_dir env +:+ "pack.json") = false ->
        exists j,
          WriteConfig env s = Some (dump_dir env +:+ "pack.json", j)
          /\ forall parsed,
               parsed = j \/ parsed = pack_json_parsed s ->
               exists s',
                 ReadConfig GetFilename (FileBytes (Some parsed)) s0
                 = Returned tt s'
                 /\ skip_mipmap s' = skip_mipmap s
                 /\ flip_png_files s' = flip_png_files s
                 /\ use_new_hash s' = use_new_hash s
                 /\ refuse_dds s' = skip_mipmap s || negb (use_new_hash s)
                 /\ path_to_hash_map s' = path_to_hash_map s0).
Proof.
  intros GetFilename env s s0. unfold WriteConfig. split; intros ->;
    [reflexivity |].
  eexists. split; [reflexivity |].
  intros parsed [-> | ->]; eexists; (split; [reflexivity |]); simpl;
    repeat split.
Qed.

Lemma WriteConfig_reads_back_witness :
  exists j,
    WriteConfig (mkDumpEnv 1 "dump/" format_dec (fun _ => true) (fun _ => false))
      manager0
    = Some (dump_dir (mkDumpEnv 1 "dump/" format_dec (fun _ => true)
                        (fun _ => false)) +:+ "pack.json", j)
    /\ exists s',
         ReadConfig (fun f => f) (FileBytes (Some j)) manager0 = Returned tt s'
         /\ refuse_dds s' = false.
Proof.
  destruct (proj2 (WriteConfig_reads_back (fun f => f)
                     (mkDumpEnv 1 "dump/" format_dec (fun _ => true)
                        (fun _ => false))
                     manager0 manager0) eq_refl) as (j & E & Hread).
  exists j. split; [exact E |].
  destruct (Hread j (or_introl eq_refl)) as (s' & Er & _ & _ & _ & Hr & _).
  exists s'. split; [exact Er | exact Hr].
Defined.

(** ** CreateWorkers, FindCustomTextures and GetMaterial *)

(** X27. The pool never has zero workers and the subtraction never wraps:
    one worker is asked for when the hardware reports 0, 1 or 2 threads
    (0 is what [hardware_concurrency] gives when it cannot tell), one less
    than the hardware threads otherwise. *)
Theorem num_workers_at_least_one :
  forall hardware_concurrency,
    0 <= hardware_concurrency < 2 ^ 32 ->
    1 <= num_workers hardware_concurrency < 2 ^ 32
    /\ (hardware_concurrency <= 2 -> num_workers hardware_concurrency = 1)
    /\ (2 <= hardware_concurrency ->
        num_workers hardware_concurrency = hardware_concurrency - 1).
Proof. intros hw Hhw. unfold num_workers. lia. Qed.

Lemma num_workers_at_least_one_witness :
  1 <= num_workers 0 < 2 ^ 32.
Proof. apply (num_workers_at_least_one 0). lia. Defined.

(** [ParseFilename] as a function of the file alone and as the code has
    it, writing to the texture, agree. *)
Lemma ParseFilename_texture_result s file texture :
  match ParseFilename s file with
  | Accepted parsed => ParseFilename_texture s file texture = Some (true, parsed)
  | Rejected => exists left, ParseFilename_texture s file texture = Some (false, left)
  | Undefined => ParseFilename_texture s file texture = None
  end.
Proof.
  unfold ParseFilename, ParseFilename_texture.
  destruct (3 <? Z.of_nat (length (SplitString (virtualName file) ".")));
    [eauto |].
  destruct (last (SplitString (virtualName file) ".")) as [ext|]; [| reflexivity].
  destruct (bool_decide (MakeFileFormat ext = CustomFileFormat.None)); [eauto |].
  destruct (bool_decide (MakeFileFormat ext = CustomFileFormat.DDS) && refuse_dds s);
    [eauto |].
  destruct (1 <? Z.of_nat (length (removelast (SplitString (virtualName file) "."))));
    destruct (path_to_hash_map s !! virtualName file); try reflexivity.
  - destruct (last (removelast (removelast _))); [| reflexivity].
    destruct (negb (scan_count (sscanf_tex1 _) =? 4)); [eauto | reflexivity].
  - destruct (last (removelast _)); [| reflexivity].
    destruct (negb (scan_count (sscanf_tex1 _) =? 4)); [eauto | reflexivity].
Qed.

Lemma ParseFilename_same_config s s' file :
  refuse_dds s' = refuse_dds s ->
  path_to_hash_map s' = path_to_hash_map s ->
  ParseFilename s' file = ParseFilename s file.
Proof. intros Hr Hp. unfold ParseFilename. now rewrite Hr, Hp. Qed.

Lemma accepted_hashes_same_config s s' textures :
  refuse_dds s' = refuse_dds s ->
  path_to_hash_map s' = path_to_hash_map s ->
  accepted_hashes s' textures = accepted_hashes s textures.
Proof.
  intros Hr Hp. induction textures as [|[d file] textures IH]; [reflexivity |].
  simpl. now rewrite IH, (ParseFilename_same_config s s' file Hr Hp).
Qed.

Lemma update_material_id hash mm : update_material hash (fun m => m) mm = mm.
Proof.
  induction mm as [|[k m] mm IH]; [reflexivity |].
  simpl. destruct (k =? hash); [reflexivity | now rewrite IH].
Qed.

Lemma find_material_app hash mm1 mm2 :
  find_material hash (mm1 ++ mm2) =
  match find_material hash mm1 with
  | Some m => Some m
  | None => find_material hash mm2
  end.
Proof.
  induction mm1 as [|[k m] mm1 IH]; [reflexivity |].
  simpl. now destruct (k =? hash).
Qed.

(** A material is made for a hash that has none, and only then. *)
Lemma find_add_map_texture texture mm hash :
  find_material hash (add_map_texture texture mm) =
  match find_material hash mm with
  | Some m => Some m
  | None => if tex_hash texture =? hash then Some new_material else None
  end.
Proof.
  unfold add_map_texture.
  destruct (find_material (tex_hash texture) mm) as [m0|] eqn:E0.
  - unfold AddMapTexture.
    rewrite update_material_id.
    destruct (find_material hash mm) as [m|] eqn:E; [reflexivity |].
    destruct (Z.eqb_spec (tex_hash texture) hash) as [He | _]; [| reflexivity].
    rewrite He in E0. congruence.
  - rewrite find_material_app. simpl.
    now destruct (find_material hash mm).
Qed.

Lemma keeps_all_but_textures_refl s : keeps_all_but_textures s s.
Proof. now destruct s. Qed.

Lemma keeps_all_but_config_refl s : keeps_all_but_config s s.
Proof. now destruct s. Qed.

Section FindCustomTexturesProperties.

Variable GetFilename : string -> string.
Variable new_texture : CustomTexture.

(** What the loop over the directory listing does, when it is defined. *)
Lemma add_textures_result textures s s' :
  add_textures new_texture textures s = Some s' ->
  keeps_all_but_textures s s'
  /\ length (custom_textures s')
     = (length (custom_textures s) + length (files_of textures))%nat
  /\ forall hash,
       find_material hash (material_map s') =
       match find_material hash (material_map s) with
       | Some m => Some m
       | None => if bool_decide (hash ∈ accepted_hashes s textures)
                 then Some new_material else None
       end.
Proof.
  revert s. induction textures as [|[isDirectory file] textures IH]; intros s.
  - simpl. intros [= <-]. split; [apply keeps_all_but_textures_refl |].
    split; [unfold files_of; simpl; lia |].
    intros hash. now destruct (find_material hash (material_map s)).
  - simpl add_textures. destruct isDirectory; [exact (IH s) |].
    pose proof (ParseFilename_texture_result s file new_texture) as Hparse.
    unfold files_of. simpl.
    destruct (ParseFilename s file) as [parsed | |] eqn:EP.
    + rewrite Hparse. simpl. intros Hadd.
      destruct (IH _ Hadd) as (Hkeep & Hlen & Hfind). split; [| split].
      * unfold keeps_all_but_textures in *. rewrite Hkeep. reflexivity.
      * rewrite Hlen. simpl. rewrite length_app. unfold files_of. simpl. lia.
      * intros hash. rewrite Hfind. simpl.
        rewrite find_add_map_texture.
        destruct (find_material hash (material_map s)) as [m|]; [reflexivity |].
        rewrite (accepted_hashes_same_config s
                   (set_material_map (add_map_texture parsed (material_map s))
                      (set_custom_textures (custom_textures s ++ [parsed]) s))
                   textures eq_refl eq_refl).
        destruct (Z.eqb_spec (tex_hash parsed) hash) as [-> | Hne].
        { rewrite bool_decide_eq_true_2 by (apply elem_of_cons; now left).
          reflexivity. }
        rewrite (bool_decide_ext (hash ∈ tex_hash parsed :: accepted_hashes s textures)
                   (hash ∈ accepted_hashes s textures)); [reflexivity |].
        rewrite elem_of_cons. intuition congruence.
    + destruct Hparse as [left ->]. simpl. intros Hadd.
      destruct (IH _ Hadd) as (Hkeep & Hlen & Hfind). split; [| split].
      * unfold keeps_all_but_textures in *. rewrite Hkeep. reflexivity.
      * rewrite Hlen. simpl. rewrite length_app. unfold files_of. simpl. lia.
      * intros hash. rewrite Hfind. simpl.
        now rewrite (accepted_hashes_same_config s
                       (set_custom_textures (custom_textures s ++ [left]) s)
                       textures eq_refl eq_refl).
    + rewrite Hparse. discriminate.
Qed.

(** The loop is defined when [ParseFilename] is for every file. *)
Lemma add_textures_defined textures s :
  Forall (fun t => t.1 = false -> ParseFilename s t.2 <> Undefined) textures ->
  is_Some (add_textures new_texture textures s).
Proof.
  intros Hall. revert s Hall.
  induction textures as [|[isDirectory file] textures IH]; intros s Hall.
  - now exists s.
  - apply Forall_cons in Hall as [Hfile Hall]. simpl in Hfile.
    simpl add_textures. destruct isDirectory; [now apply IH |].
    specialize (Hfile eq_refl).
    pose proof (ParseFilename_texture_result s file new_texture) as Hparse.
    destruct (ParseFilename s file) as [parsed | |] eqn:EP; [| | contradiction].
    + rewrite Hparse. simpl. apply IH.
      eapply Forall_impl; [exact Hall |]. intros t Ht Hdir.
      erewrite ParseFilename_same_config;
        [apply Ht; exact Hdir | reflexivity | reflexivity].
    + destruct Hparse as [left ->]. simpl. apply IH.
      eapply Forall_impl; [exact Hall |]. intros t Ht Hdir.
      erewrite ParseFilename_same_config;
        [apply Ht; exact Hdir | reflexivity | reflexivity].
Qed.

Lemma parse_override_frame hash file s :
  keeps_all_but_config s (parse_override GetFilename hash file s).
Proof.
  unfold parse_override. destruct (path_to_hash_map s !! GetFilename file);
    now destruct s.
Qed.

Lemma keeps_all_but_config_trans s1 s2 s3 :
  keeps_all_but_config s1 s2 -> keeps_all_but_config s2 s3 ->
  keeps_all_but_config s1 s3.
Proof.
  unfold keeps_all_but_config. destruct s1, s2, s3. simpl.
  unfold set_options, set_path_to_hash_map. simpl. congruence.
Qed.

Lemma parse_overrides_frame hash files s :
  keeps_all_but_config s (parse_overrides GetFilename hash files s).
Proof.
  unfold parse_overrides. revert s.
  induction files as [|f files IH]; intros s; simpl;
    [apply keeps_all_but_config_refl |].
  eapply keeps_all_but_config_trans; [apply parse_override_frame | apply IH].
Qed.

Lemma read_textures_frame items s :
  keeps_all_but_config s (result_state (read_textures GetFilename items s)).
Proof.
  revert s. induction items as [|[key value] items IH]; intros s; simpl;
    [apply keeps_all_but_config_refl |].
  unfold bind, try_.
  destruct (stoull16 key) as [e | [hash idx]]; [apply keeps_all_but_config_refl |].
  destruct (idx =? 0); [apply IH |].
  destruct value as [| b | n | file | elems | members]; simpl; try apply IH.
  - eapply keeps_all_but_config_trans; [apply parse_override_frame | apply IH].
  - destruct (json_get_strings elems) as [e | files];
      [apply keeps_all_but_config_refl |].
    unfold modify.
    eapply keeps_all_but_config_trans; [apply parse_overrides_frame | apply IH].
Qed.

(** [ReadConfig] touches the options and the override table only, also
    when it throws. *)
Lemma ReadConfig_frame pack s :
  keeps_all_but_config s (result_state (ReadConfig GetFilename pack s)).
Proof.
  destruct pack as [| | [j|]]; simpl;
    try (unfold modify, ret, bind, try_; simpl; now destruct s).
  unfold bind at 1 2. simpl.
  destruct (json_index j "options") as [e | options];
    [apply keeps_all_but_config_refl |]. simpl.
  unfold read_option, bind, try_, modify.
  repeat match goal with
         | |- context [match json_index_const ?o ?k with _ => _ end] =>
             destruct (json_index_const o k) as [? | ?]; simpl;
             [now destruct s |]
         | |- context [match json_get_bool ?v with _ => _ end] =>
             destruct (json_get_bool v) as [? | ?]; simpl; [now destruct s |]
         end.
  destruct (json_index j "textures") as [e | textures]; simpl;
    [now destruct s |].
  eapply keeps_all_but_config_trans; [| apply read_textures_frame].
  now destruct s.
Qed.

End FindCustomTexturesProperties.

Lemma keeps_all_but_config_fields s s' :
  keeps_all_but_config s s' ->
  textures_loaded s' = textures_loaded s
  /\ async_custom_loading s' = async_custom_loading s
  /\ custom_textures s' = custom_textures s
  /\ material_map s' = material_map s
  /\ async_uploads s' = async_uploads s
  /\ workers s' = workers s
  /\ events s' = events s.
Proof. intros H. rewrite H. repeat split. Qed.

Lemma keeps_all_but_textures_fields s s' :
  keeps_all_but_textures s s' ->
  textures_loaded s' = textures_loaded s
  /\ async_custom_loading s' = async_custom_loading s
  /\ refuse_dds s' = refuse_dds s
  /\ path_to_hash_map s' = path_to_hash_map s
  /\ async_uploads s' = async_uploads s
  /\ workers s' = workers s
  /\ events s' = events s.
Proof. intros H. rewrite H. repeat split. Qed.

Lemma ensure_workers_fields s :
  is_Some (workers (ensure_workers s))
  /\ textures_loaded (ensure_workers s) = textures_loaded s
  /\ async_custom_loading (ensure_workers s) = async_custom_loading s
  /\ custom_textures (ensure_workers s) = custom_textures s
  /\ material_map (ensure_workers s) = material_map s
  /\ async_uploads (ensure_workers s) = async_uploads s
  /\ events (ensure_workers s) = events s.
Proof.
  unfold ensure_workers. destruct (workers s) as [q|] eqn:E; simpl.
  - rewrite E. repeat split. now exists q.
  - repeat split. now exists [].
Qed.

(** A discovery that returns has read the configuration and gone through
    the listing. *)
Lemma FindCustomTextures_returned GetFilename new_texture pack textures s s' :
  textures_loaded s = false ->
  FindCustomTextures GetFilename new_texture pack textures s
  = Some (Returned tt s') ->
  exists s2 s3,
    ReadConfig GetFilename pack (ensure_workers s) = Returned tt s2
    /\ add_textures new_texture textures s2 = Some s3
    /\ s' = set_textures_loaded true s3.
Proof.
  intros Hloaded. unfold FindCustomTextures. rewrite Hloaded.
  destruct (ReadConfig GetFilename pack (ensure_workers s)) as [[] s2 | e s2];
    [| discriminate].
  destruct (add_textures new_texture textures s2) as [s3|] eqn:Hadd;
    [| discriminate].
  intros [= <-]. now exists s2, s3.
Qed.

(** X28. Discovery, when [ReadConfig] returns and [ParseFilename] is
    defined for every file of the listing: it returns with
    [textures_loaded] set and a worker pool; one [CustomTexture] is kept
    for every file of the listing that is not a directory, accepted or
    not; the cache has the materials it had, untouched, and a new
    unloaded material for every other hash of an accepted file; the
    upload queue is as it was. *)
Theorem FindCustomTextures_discovers :
  forall GetFilename new_texture pack textures s s2,
    textures_loaded s = false ->
    ReadConfig GetFilename pack (ensure_workers s) = Returned tt s2 ->
    Forall (fun t => t.1 = false -> ParseFilename s2 t.2 <> Undefined) textures ->
    exists s',
      FindCustomTextures GetFilename new_texture pack textures s
      = Some (Returned tt s')
      /\ textures_loaded s' = true
      /\ is_Some (workers s')
      /\ refuse_dds s' = refuse_dds s2
      /\ path_to_hash_map s' = path_to_hash_map s2
      /\ length (custom_textures s')
         = (length (custom_textures s) + length (files_of textures))%nat
      /\ (forall hash,
             find_material hash (material_map s') =
             match find_material hash (material_map s) with
             | Some m => Some m
             | None => if bool_decide (hash ∈ accepted_hashes s2 textures)
                       then Some new_material else None
             end)
      /\ async_uploads s' = async_uploads s.
Proof.
  intros GetFilename new_texture pack textures s s2 Hloaded Hread Hdef.
  destruct (add_textures_defined new_texture textures s2 Hdef) as [s3 Hadd].
  unfold FindCustomTextures. rewrite Hloaded, Hread, Hadd.
  eexists. split; [reflexivity |]. simpl.
  destruct (add_textures_result new_texture textures s2 s3 Hadd)
    as (Hkeep & Hlen & Hfind).
  destruct (keeps_all_but_textures_fields _ _ Hkeep)
    as (_ & _ & Hr & Hp & Hu & Hw & _).
  pose proof (ReadConfig_frame GetFilename pack (ensure_workers s)) as Hcfg.
  rewrite Hread in Hcfg. simpl in Hcfg.
  destruct (keeps_all_but_config_fields _ _ Hcfg)
    as (_ & _ & Hct & Hmm & Hu2 & Hw2 & _).
  destruct (ensure_workers_fields s) as (Hpool & _ & _ & Hct0 & Hmm0 & Hu0 & _).
  split; [reflexivity |]. split; [now rewrite Hw, Hw2 |].
  split; [exact Hr |]. split; [exact Hp |].
  split; [now rewrite Hlen, Hct, Hct0 |].
  split; [| now rewrite Hu, Hu2, Hu0].
  intros hash. now rewrite Hfind, Hmm, Hmm0.
Qed.

Lemma FindCustomTextures_discovers_witness :
  exists s',
    FindCustomTextures (fun f => f) (mkCustomTexture 0 CustomFileFormat.None
                                       MapType.Color "")
      FileNoBytes
      [(false, mkFSTEntry "tex1_8x8_AB_0.png" "load/tex1_8x8_AB_0.png");
       (true, mkFSTEntry "sub" "load/sub");
       (false, mkFSTEntry "readme.txt" "load/readme.txt")]
      manager0 = Some (Returned tt s')
    /\ length (custom_textures s') = 2%nat
    /\ find_material 171 (material_map s') = Some new_material.
Proof.
  destruct (FindCustomTextures_discovers (fun f => f)
              (mkCustomTexture 0 CustomFileFormat.None MapType.Color "")
              FileNoBytes
              [(false, mkFSTEntry "tex1_8x8_AB_0.png" "load/tex1_8x8_AB_0.png");
               (true, mkFSTEntry "sub" "load/sub");
               (false, mkFSTEntry "readme.txt" "load/readme.txt")]
              manager0 (ensure_workers manager0))
    as (s' & E & _ & _ & _ & _ & Hlen & Hfind & _).
  - reflexivity.
  - reflexivity.
  - repeat (constructor; [intros _; vm_compute; discriminate |]). constructor.
  - exists s'. split; [exact E |]. split; [exact Hlen |].
    rewrite Hfind. reflexivity.
Defined.

(** X29. Discovery runs once. After a call that returns, every later call
    returns at once and changes nothing, whatever the pack and the listing
    are by then. A call in which [ReadConfig] throws passes the exception
    on before any file is looked at: no texture and no material is added
    and [textures_loaded] stays false, so that [TickFrame] still does
    nothing; the pool has been created all the same. *)
Theorem FindCustomTextures_runs_once :
  forall GetFilename new_texture pack textures s r,
    textures_loaded s = false ->
    FindCustomTextures GetFilename new_texture pack textures s = Some r ->
    match r with
    | Returned _ s' =>
        textures_loaded s' = true
        /\ forall pack2 textures2,
             FindCustomTextures GetFilename new_texture pack2 textures2 s'
             = Some (Returned tt s')
    | Threw e s' =>
        ReadConfig GetFilename pack (ensure_workers s) = Threw e s'
        /\ textures_loaded s' = false
        /\ is_Some (workers s')
        /\ custom_textures s' = custom_textures s
        /\ material_map s' = material_map s
        /\ TickFrame s' = s'
    end.
Proof.
  intros GetFilename new_texture pack textures s r Hloaded.
  unfold FindCustomTextures at 1. rewrite Hloaded.
  pose proof (ReadConfig_frame GetFilename pack (ensure_workers s)) as Hcfg.
  destruct (ReadConfig GetFilename pack (ensure_workers s)) as [[] s2 | e s2].
  - destruct (add_textures new_texture textures s2) as [s3|]; [| discriminate].
    intros [= <-]. split; [reflexivity |]. reflexivity.
  - intros [= <-]. simpl in Hcfg.
    destruct (keeps_all_but_config_fields _ _ Hcfg)
      as (Htl & _ & Hct & Hmm & _ & Hw & _).
    destruct (ensure_workers_fields s) as (Hpool & Htl0 & _ & Hct0 & Hmm0 & _).
    split; [reflexivity |]. split; [now rewrite Htl, Htl0 |].
    split; [now rewrite Hw |]. split; [now rewrite Hct |].
    split; [now rewrite Hmm |].
    unfold TickFrame. now rewrite Htl, Htl0, Hloaded.
Qed.

Lemma FindCustomTextures_runs_once_witness :
  exists s',
    FindCustomTextures (fun f => f) (mkCustomTexture 0 CustomFileFormat.None
                                       MapType.Color "")
      descriptor_with_invalid_key
      [(false, mkFSTEntry "tex1_8x8_AB_0.png" "load/tex1_8x8_AB_0.png")]
      manager0 = Some (Threw invalid_argument s')
    /\ textures_loaded s' = false
    /\ custom_textures s' = [].
Proof.
  eexists. split; [vm_compute; reflexivity |].
  pose proof (FindCustomTextures_runs_once (fun f => f)
                (mkCustomTexture 0 CustomFileFormat.None MapType.Color "")
                descriptor_with_invalid_key
                [(false, mkFSTEntry "tex1_8x8_AB_0.png" "load/tex1_8x8_AB_0.png")]
                manager0 _ eq_refl ltac:(vm_compute; reflexivity)) as H.
  simpl in H. destruct H as (_ & Htl & _ & Hct & _). split; [exact Htl | exact Hct].
Defined.

(** X30. From an empty cache, after discovery [GetMaterial] returns a
    material exactly for the hashes of the accepted files and [nullptr]
    for every other hash. Under asynchronous loading the first [Decode] of
    such a material returns false, makes it [Pending], queues its load job
    and puts the upload at the end of the queue. *)
Theorem GetMaterial_after_discovery :
  forall disk GetFilename new_texture pack textures s s' hash upload,
    textures_loaded s = false ->
    material_map s = [] ->
    FindCustomTextures GetFilename new_texture pack textures s
    = Some (Returned tt s') ->
    (GetMaterial hash s' = Some hash <-> hash ∈ accepted_hashes s' textures)
    /\ (GetMaterial hash s' = None <-> hash ∉ accepted_hashes s' textures)
    /\ (hash ∈ accepted_hashes s' textures ->
        async_custom_loading s' = true ->
        exists s'',
          Decode disk hash upload s' = Some (false, s'')
          /\ material_state (material_map s'') hash = Some DecodeState.Pending
          /\ load_jobs hash s'' = S (load_jobs hash s')
          /\ async_uploads s'' = async_uploads s' ++ [mkAsyncUpload hash upload]).
Proof.
  intros disk GetFilename new_texture pack textures s s' hash upload
    Hloaded Hempty Hfound.
  destruct (FindCustomTextures_returned _ _ _ _ _ _ Hloaded Hfound)
    as (s2 & s3 & Hread & Hadd & ->).
  destruct (add_textures_result new_texture textures s2 s3 Hadd)
    as (Hkeep & _ & Hfind).
  destruct (keeps_all_but_textures_fields _ _ Hkeep)
    as (_ & _ & Hr & Hp & _ & Hw & _).
  pose proof (ReadConfig_frame GetFilename pack (ensure_workers s)) as Hcfg.
  rewrite Hread in Hcfg. simpl in Hcfg.
  destruct (keeps_all_but_config_fields _ _ Hcfg)
    as (_ & _ & _ & Hmm & _ & Hw2 & _).
  destruct (ensure_workers_fields s) as (Hpool & _ & _ & _ & Hmm0 & _).
  rewrite (accepted_hashes_same_config s2 (set_textures_loaded true s3) textures
             Hr Hp).
  specialize (Hfind hash). rewrite Hmm, Hmm0, Hempty in Hfind. simpl in Hfind.
  unfold GetMaterial, Decode. simpl. rewrite Hfind.
  destruct (bool_decide (hash ∈ accepted_hashes s2 textures)) eqn:Ein.
  - apply bool_decide_eq_true in Ein.
    split; [now split |]. split; [split; [discriminate | contradiction] |].
    intros _ ->. simpl. destruct Hpool as [q Hq]. rewrite Hw, Hw2, Hq.
    eexists. split; [reflexivity |]. simpl.
    unfold material_state. rewrite find_update_material_eq, Hfind. simpl.
    split; [reflexivity |]. split; [| reflexivity].
    unfold load_jobs. simpl. rewrite Hw, Hw2, Hq. simpl.
    rewrite count_jobs_app. simpl. rewrite Z.eqb_refl. lia.
  - apply bool_decide_eq_false in Ein.
    split; [split; [discriminate | contradiction] |].
    split; [now split |]. intros Hin. contradiction.
Qed.

Lemma GetMaterial_after_discovery_witness :
  GetMaterial 171
    (set_textures_loaded true
       (set_material_map [(171, new_material)]
          (set_custom_textures
             [mkCustomTexture 171 CustomFileFormat.PNG MapType.Color
                "load/tex1_8x8_AB_0.png"]
             (ensure_workers manager0))))
  = Some 171.
Proof.
  apply (proj1 (GetMaterial_after_discovery (fun _ => None) (fun f => f)
                  (mkCustomTexture 0 CustomFileFormat.None MapType.Color "")
                  FileNoBytes
                  [(false, mkFSTEntry "tex1_8x8_AB_0.png" "load/tex1_8x8_AB_0.png")]
                  manager0 _ 171 (mkUploadFn 0 true)
                  eq_refl eq_refl ltac:(vm_compute; reflexivity))).
  vm_compute. apply elem_of_cons. now left.
Defined.
